(** * botplayers: a shallow embedding of the agent framework

    The development follows the three Python modules of the repository:
    - [botplayers/agent.py]: the callable-function registry and its decorator,
      the streaming chat-completion wrapper, [Agent] and [World];
    - [botplayers/function.py]: the persona loader [_load_bot];
    - [app/memory_tests/simple.py]: [Database.review_info] and the console loop.

    Python objects with identity (instances, the lists and dicts that are
    mutated in place) live in a heap; messages and JSON data are plain values.
    Effects (heap updates, console output, completion requests, file reads) are
    threaded through a state-and-exception monad. *)

From Stdlib Require Import ZArith String Ascii List Bool Lia Floats.
From stdpp Require Import base option list gmap strings.

Local Open Scope string_scope.
Local Open Scope Z_scope.
Local Open Scope list_scope.

(** ** Python values *)

Definition loc := nat.

(** Immutable data is a tree; anything mutated in place or compared by
    identity is a reference into the heap. *)
#[warnings="-register-all"]
Inductive value : Type :=
| VNone
| VBool (b : bool)
| VInt (n : Z)
| VFloat (x : float)
| VStr (s : string)
| VList (xs : list value)
| VDict (kvs : list (string * value))
| VRef (l : loc).

Inductive obj : Type :=
| OList (xs : list value)
| ODict (d : gmap string value)
| OInst (cls : string) (attrs : gmap string value).

(** ** Exceptions

    [except Exception] catches every class below except the ones that derive
    from [BaseException] only ([KeyboardInterrupt], [SystemExit], ...). *)
Inductive exn_class : Type :=
| KeyError
| TypeError
| AttributeError
| EOFError
| JSONDecodeError
| OtherException (name : string)
| BaseOnly (name : string).

Record exn : Type := mkExn { exn_cls : exn_class; exn_str : string }.

Definition is_Exception (e : exn) : bool :=
  match exn_cls e with
  | BaseOnly _ => false
  | _ => true
  end.

Inductive outcome (A : Type) : Type :=
| Return (a : A)
| Raise (e : exn).
Arguments Return {A} a.
Arguments Raise {A} e.

(** ** Streamed completion fragments

    One element of [chunk['choices']] carries a [delta]; a key of the delta
    may be absent ([None] here), and [content] may be present with the Python
    value [None] ([Some None]). *)
Record delta : Type := mkDelta {
  d_role : option string;
  d_function_call : option (list (string * string));
  d_content : option (option string)
}.

Definition chunk := list delta.

(** ** Observable effects *)
Inductive event : Type :=
| EvPrint (text color end_ : string)
| EvCompletion (engine : value) (messages : list value)
    (kwargs : list (string * value))
| EvOpen (path : string)
| EvInput (prompt : string).

Record pystate : Type := mkState {
  heap : gmap loc obj;
  BOTS : gmap string (value * value);
  trace : list event
}.

(** ** The state-and-exception monad *)
Definition M (A : Type) : Type := pystate -> outcome A * pystate.

#[export] Instance M_ret : MRet M := fun A a st => (Return a, st).
#[export] Instance M_bind : MBind M := fun A B k m st =>
  match m st with
  | (Return a, st') => k a st'
  | (Raise e, st') => (Raise e, st')
  end.

Definition raise {A} (cls : exn_class) (msg : string) : M A :=
  fun st => (Raise (mkExn cls msg), st).

(** [try: body / except Exception as e: handler e]. *)
Definition try_except {A} (body : M A) (handler : exn -> M A) : M A :=
  fun st =>
    match body st with
    | (Raise e, st') => if is_Exception e then handler e st' else (Raise e, st')
    | r => r
    end.

(** A list comprehension whose element expression has effects. *)
Fixpoint comprehension {A B} (f : A -> M B) (xs : list A) : M (list B) :=
  match xs with
  | [] => mret []
  | x :: rest => y ← f x; ys ← comprehension f rest; mret (y :: ys)
  end.

Definition emit (ev : event) : M unit :=
  fun st => (Return tt, mkState (heap st) (BOTS st) (trace st ++ [ev])).

Definition get_heap : M (gmap loc obj) := fun st => (Return (heap st), st).

Definition put_obj (l : loc) (o : obj) : M unit :=
  fun st => (Return tt, mkState (<[l := o]> (heap st)) (BOTS st) (trace st)).

Definition alloc (o : obj) : M loc :=
  fun st =>
    let l := fresh (dom (heap st)) in
    (Return l, mkState (<[l := o]> (heap st)) (BOTS st) (trace st)).

(** [print_in_color(text, color, end)] of [botplayers/util.py]. *)
Definition print_in_color (text color : string) : M unit :=
  emit (EvPrint text color "
").

Definition lift_outcome {A} (o : outcome A) : M A := fun st => (o, st).

(** Unfolds the primitive operations of the monad. *)
Ltac munfold :=
  unfold mbind, M_bind, mret, M_ret, raise, get_heap, put_obj, alloc, emit,
    print_in_color, lift_outcome in *.

(** ** Dictionaries with insertion order *)
Fixpoint dict_get {A} (kvs : list (string * A)) (k : string) : option A :=
  match kvs with
  | [] => None
  | (k', v) :: rest => if String.eqb k' k then Some v else dict_get rest k
  end.

(** [d[k] = v]: an existing key keeps its place, a new one goes last. *)
Fixpoint dict_set {A} (kvs : list (string * A)) (k : string) (v : A)
  : list (string * A) :=
  match kvs with
  | [] => [(k, v)]
  | (k', v') :: rest =>
      if String.eqb k' k then (k', v) :: rest else (k', v') :: dict_set rest k v
  end.

(** One step of a loop that fills a dictionary: the entry of [p] is set
    when [p] has a value. *)
Definition set_opt {A P} (key : P -> string) (valo : P -> option A)
  (d : list (string * A)) (p : P) : list (string * A) :=
  match valo p with
  | Some v => dict_set d (key p) v
  | None => d
  end.

(** ** The runtime: libraries and services the code calls

    [py_str] is [str()] on a value that is not already a string, [py_repr] is
    [repr()] (used by [str(KeyError(k))]); [re_match pattern s] tells whether
    [re.match(pattern, s)] finds a match, [re_search_group1 pattern s] is
    [re.search(pattern, s).group(1)] when there is one, [str_strip s] is
    [s.strip()], [str_split s sep] is [s.split(sep)], [str_contains s sub] is
    [sub in s]; [chat_completion n model messages
    kwargs] is the stream that [openai.ChatCompletion.create(model=...,
    messages=..., stream=True, **kwargs)] yields when it is the [n]-th request
    of the run. *)
Class Runtime : Type := {
  py_str : value -> string;
  py_repr : value -> string;
  re_match : string -> string -> bool;
  re_search_group1 : string -> string -> option string;
  str_strip : string -> string;
  str_split : string -> string -> list string;
  str_contains : string -> string -> bool;
  json_loads : value -> outcome value;
  json_dumps : value -> outcome string;
  chat_completion : nat -> value -> list value -> list (string * value) ->
                    outcome (list chunk);
  yaml_safe_load : string -> outcome value;
  parse_experience_data : value -> outcome value
}.

Definition format `{Runtime} (v : value) : string :=
  match v with
  | VStr s => s
  | _ => py_str v
  end.

Section Objects.
Context `{Runtime}.

(** [o[k]] for a string key. *)
Definition getitem (o : value) (k : string) : M value :=
  match o with
  | VDict kvs =>
      match dict_get kvs k with
      | Some v => mret v
      | None => raise KeyError (py_repr (VStr k))
      end
  | VRef l =>
      h ← get_heap;
      match h !! l with
      | Some (ODict d) =>
          match d !! k with
          | Some v => mret v
          | None => raise KeyError (py_repr (VStr k))
          end
      | _ => raise TypeError "object is not subscriptable"
      end
  | _ => raise TypeError "object is not subscriptable"
  end.

(** [o[k] = v] on a dict object of the heap. *)
Definition setitem (o : value) (k : string) (v : value) : M unit :=
  match o with
  | VRef l =>
      h ← get_heap;
      match h !! l with
      | Some (ODict d) => put_obj l (ODict (<[k := v]> d))
      | _ => raise TypeError "object does not support item assignment"
      end
  | _ => raise TypeError "object does not support item assignment"
  end.

(** Class bodies of [Agent] and [World]: the objects built once, when the
    class statement runs, and the names bound to them. *)
Definition loc_Agent_memory : loc := 0%nat.
Definition loc_Agent_engine_args : loc := 1%nat.
Definition loc_World_agents : loc := 2%nat.

Definition class_dict (cls : string) : gmap string value :=
  if String.eqb cls "Agent" then
    {[ "role" := VStr "agent";
       "memory" := VRef loc_Agent_memory;
       "engine" := VStr "gpt-3.5-turbo-16k";
       "engine_args" := VRef loc_Agent_engine_args;
       "function_call_repeats" := VInt 1;
       "ignore_none_function_messages" := VBool true ]}
  else if String.eqb cls "World" then
    {[ "agents" := VRef loc_World_agents ]}
  else ∅.

(** The state right after [botplayers.agent] has been imported. *)
Definition module_state : pystate :=
  mkState
    {[ loc_Agent_memory := OList [];
       loc_Agent_engine_args := ODict {[ "temperature" := VFloat 1%float ]};
       loc_World_agents := ODict ∅ ]}
    ∅ [].

(** [o.a] for a data attribute: the instance dictionary first, then the
    class. (Methods are not values of the model: a method that the class
    defines is a function below, called directly.) *)
Definition getattr (o : value) (a : string) : M value :=
  match o with
  | VRef l =>
      h ← get_heap;
      match h !! l with
      | Some (OInst cls attrs) =>
          match attrs !! a with
          | Some v => mret v
          | None =>
              match class_dict cls !! a with
              | Some v => mret v
              | None => raise AttributeError
                          ("'" +:+ cls +:+ "' object has no attribute '" +:+ a +:+ "'")
              end
          end
      | _ => raise AttributeError ("object has no attribute '" +:+ a +:+ "'")
      end
  | VNone => raise AttributeError
               ("'NoneType' object has no attribute '" +:+ a +:+ "'")
  | _ => raise AttributeError ("object has no attribute '" +:+ a +:+ "'")
  end.

(** [o.a = v]: always binds in the instance dictionary. *)
Definition setattr (o : value) (a : string) (v : value) : M unit :=
  match o with
  | VRef l =>
      h ← get_heap;
      match h !! l with
      | Some (OInst cls attrs) => put_obj l (OInst cls (<[a := v]> attrs))
      | _ => raise AttributeError ("object has no attribute '" +:+ a +:+ "'")
      end
  | _ => raise AttributeError ("object has no attribute '" +:+ a +:+ "'")
  end.

(** [xs.append(v)] on a list object of the heap. *)
Definition list_append (xs : value) (v : value) : M unit :=
  match xs with
  | VRef l =>
      h ← get_heap;
      match h !! l with
      | Some (OList ys) => put_obj l (OList (ys ++ [v]))
      | _ => raise AttributeError "object has no attribute 'append'"
      end
  | _ => raise AttributeError "object has no attribute 'append'"
  end.

(** The elements of a list object (or of a list value). *)
Definition list_items (xs : value) : M (list value) :=
  match xs with
  | VList ys => mret ys
  | VRef l =>
      h ← get_heap;
      match h !! l with
      | Some (OList ys) => mret ys
      | _ => raise TypeError "object is not iterable"
      end
  | _ => raise TypeError "object is not iterable"
  end.

End Objects.

(** ** class Agent *)
Section AgentClass.
Context `{Runtime}.

Definition DEFAULT_FUNCTION_CALL_REPEATS : Z := 10.
Definition DEFAULT_IGNORE_NONE_FUNCTION_MESSAGES : bool := true.

(** [Agent.__init__(self, name, prompt, engine, role, function_call_repeats,
    ignore_none_function_messages)]. *)
Definition Agent_init (self name prompt engine role
                       function_call_repeats ignore_none_function_messages : value)
  : M unit :=
  _ ← setattr self "name" name;
  _ ← setattr self "engine" engine;
  _ ← setattr self "role" role;
  m ← alloc (OList [VDict [("role", VStr "system"); ("content", prompt)]]);
  _ ← setattr self "memory" (VRef m);
  _ ← setattr self "function_call_repeats" function_call_repeats;
  setattr self "ignore_none_function_messages" ignore_none_function_messages.

(** The arguments of a call [Agent(...)]: [None] is an argument the call
    site does not pass. [name] and [prompt] have no default. *)
Record Agent_args : Type := mkAgentArgs {
  arg_name : option value;
  arg_prompt : option value;
  arg_engine : option value;
  arg_role : option value;
  arg_function_call_repeats : option value;
  arg_ignore_none_function_messages : option value
}.

(** [Agent(...)]: the instance is created, then [__init__] is called on it;
    binding fails with [TypeError] when a parameter without default is not
    passed. *)
Definition Agent_call (args : Agent_args) : M value :=
  self ← alloc (OInst "Agent" ∅);
  match arg_name args, arg_prompt args with
  | Some name, Some prompt =>
      _ ← Agent_init (VRef self) name prompt
            (default (VStr "gpt-3.5-turbo-16k") (arg_engine args))
            (default (VStr "agent") (arg_role args))
            (default (VInt DEFAULT_FUNCTION_CALL_REPEATS)
                     (arg_function_call_repeats args))
            (default (VBool DEFAULT_IGNORE_NONE_FUNCTION_MESSAGES)
                     (arg_ignore_none_function_messages args));
      mret (VRef self)
  | None, _ =>
      raise TypeError "Agent.__init__() missing required positional argument: 'name'"
  | Some _, None =>
      raise TypeError
        "Agent.__init__() missing 1 required positional argument: 'prompt'"
  end.

(** A call [Agent(name, prompt)] with every other parameter at its default. *)
Definition agent_args (name prompt : value) : Agent_args :=
  mkAgentArgs (Some name) (Some prompt) None None None None.

(** [Agent.receive_message(self, message, print_output=True)]: the method has
    no [return] statement, so the call evaluates to [None]. *)
Definition receive_message (self message : value) (print_output : bool) : M value :=
  _ ← (if print_output then
         name ← getattr self "name";
         content ← getitem message "content";
         print_in_color
           (format name +:+ " received a message: " +:+ format content) "green"
       else mret tt);
  memory ← getattr self "memory";
  _ ← list_append memory message;
  mret VNone.

End AgentClass.

(** ** class World *)
Section WorldClass.
Context `{Runtime}.

(** [World()]: the class defines no [__init__]. *)
Definition World_call : M value :=
  self ← alloc (OInst "World" ∅);
  mret (VRef self).

(** [World.add_agent(self, name, prompt, role, engine, function_call_repeats,
    ignore_none_function_messages)]. *)
Definition add_agent (self : value) (name : string) (prompt role engine
                      function_call_repeats ignore_none_function_messages : value)
  : M value :=
  agent ← Agent_call
            (mkAgentArgs (Some (VStr name)) (Some prompt) (Some engine) (Some role)
               (Some function_call_repeats) (Some ignore_none_function_messages));
  agents ← getattr self "agents";
  _ ← setitem agents name agent;
  mret VNone.

(** [World.add(self, agent)]. Names are strings ([name: str]); a key of
    another type is outside this model of dictionaries. *)
Definition add (self agent : value) : M value :=
  agents ← getattr self "agents";
  name ← getattr agent "name";
  match name with
  | VStr n => _ ← setitem agents n agent; mret VNone
  | _ => raise TypeError "unhashable type"
  end.

End WorldClass.

(** ** stream_chat_completion *)

(** The three accumulators of the loop: [role], [content], [function_call]. *)
Record stream_acc : Type := mkAcc {
  acc_role : string;
  acc_content : string;
  acc_function_call : list (string * string)
}.

Definition two_newlines : string :=
  String (ascii_of_nat 10) (String (ascii_of_nat 10) EmptyString).

Fixpoint fc_get (fc : list (string * string)) (key : string) : option string :=
  match fc with
  | [] => None
  | (k, v) :: rest => if String.eqb k key then Some v else fc_get rest key
  end.

(** [if key not in function_call: function_call[key] = val
     else: function_call[key] += val]. *)
Fixpoint fc_accumulate (fc : list (string * string)) (key val : string)
  : list (string * string) :=
  match fc with
  | [] => [(key, val)]
  | (k, v) :: rest =>
      if String.eqb k key then (k, v +:+ val) :: rest
      else (k, v) :: fc_accumulate rest key val
  end.

Definition eq_opt_string (c : option string) (s : string) : bool :=
  match c with
  | Some s' => String.eqb s' s
  | None => false
  end.

Definition is_None {A} (c : option A) : bool :=
  match c with
  | None => true
  | Some _ => false
  end.

(** The body of [for c in chunk['choices']], on one [delta]: the new
    accumulators and what is printed. *)
Definition absorb_delta (print_output : bool) (acc : stream_acc) (d : delta)
  : stream_acc * list event :=
  let role := match d_role d with
              | Some r => r
              | None => acc_role acc
              end in
  let function_call :=
    match d_function_call d with
    | Some items =>
        fold_left (fun fc kv => fc_accumulate fc (fst kv) (snd kv)) items
                  (acc_function_call acc)
    | None => acc_function_call acc
    end in
  match d_content d with
  | None => (mkAcc role (acc_content acc) function_call, [])
  | Some c =>
      if (Nat.eqb (String.length (acc_content acc)) 0
          && eq_opt_string c two_newlines) || is_None c
      then (mkAcc role (acc_content acc) function_call, [])
      else
        match c with
        | Some s =>
            (mkAcc role (acc_content acc +:+ s) function_call,
             if print_output then [EvPrint s "yellow" ""] else [])
        | None => (mkAcc role (acc_content acc) function_call, [])
        end
  end.

Definition absorb_choices (print_output : bool)
  (st : stream_acc * list event) (choices : chunk) : stream_acc * list event :=
  fold_left
    (fun (st : stream_acc * list event) d =>
       let (acc', out) := absorb_delta print_output (fst st) d in
       (acc', (snd st ++ out)%list))
    choices st.

(** [for chunk in resp: for c in chunk['choices']: ...]. *)
Definition absorb_stream (print_output : bool) (resp : list chunk)
  : stream_acc * list event :=
  fold_left (absorb_choices print_output) resp (mkAcc "" "" [], []).

(** The accumulators after one delta, without what is printed. *)
Definition absorb_acc (print_output : bool) (acc : stream_acc) (d : delta)
  : stream_acc :=
  fst (absorb_delta print_output acc d).

(** The message built after the loop. *)
Definition message_of_acc (acc : stream_acc) : value :=
  VDict (([("role", VStr (acc_role acc)); ("content", VStr (acc_content acc))]
          : list (string * value))
         ++ (if Nat.ltb 0 (List.length (acc_function_call acc))
             then [("function_call",
                    VDict (map (fun kv => (fst kv, VStr (snd kv)))
                               (acc_function_call acc)))]
             else [])).

Fixpoint completions (tr : list event) : nat :=
  match tr with
  | [] => 0%nat
  | EvCompletion _ _ _ :: rest => S (completions rest)
  | _ :: rest => completions rest
  end.

Fixpoint emit_all (evs : list event) : M unit :=
  match evs with
  | [] => mret tt
  | ev :: rest => _ ← emit ev; emit_all rest
  end.

Section Streaming.
Context `{Runtime}.

(** [stream_chat_completion(engine, messages, print_output, **kwargs)]. *)
Definition stream_chat_completion (engine : value) (messages : list value)
  (print_output : bool) (kwargs : list (string * value)) : M value :=
  fun st =>
    (n ← mret (completions (trace st));
     _ ← emit (EvCompletion engine messages kwargs);
     resp ← lift_outcome (chat_completion n engine messages kwargs);
     let (acc, out) := absorb_stream print_output resp in
     _ ← emit_all out;
     _ ← (if Nat.ltb 0 (String.length (acc_content acc)) && print_output
          then emit (EvPrint "" "" "
")
          else mret tt);
     mret (message_of_acc acc)) st.

End Streaming.

(** *** The result of the accumulation, in the words of the specification *)

(** The content fragments of a stream, in order of arrival: the value under
    [content] of every delta that has the key ([None] is Python's [None]). *)
Definition content_fragments (resp : list chunk) : list (option string) :=
  omap d_content (concat resp).

(** The accumulated content: an absent or empty fragment is skipped, the
    two-newline fragment is skipped while nothing has been accumulated, any
    other fragment is appended. *)
Fixpoint spec_content (acc : string) (frags : list (option string)) : string :=
  match frags with
  | [] => acc
  | None :: rest => spec_content acc rest
  | Some s :: rest =>
      if String.eqb s "" then spec_content acc rest
      else if String.eqb acc "" && String.eqb s two_newlines
           then spec_content acc rest
           else spec_content (acc +:+ s) rest
  end.

(** The fragments of one function-call field, in order of arrival. *)
Definition fc_fragments (key : string) (resp : list chunk) : list string :=
  omap (fun kv : string * string =>
          if String.eqb (fst kv) key then Some (snd kv) else None)
       (concat (omap d_function_call (concat resp))).

Definition joined (frags : list string) : string :=
  fold_right String.append "" frags.

(** One field of the function call: [extend o frags] is what the field holds
    after the fragments [frags] have arrived, when it held [o] before. *)
Definition extend (o : option string) (frags : list string) : option string :=
  fold_left (fun o f => Some (match o with
                              | Some x => x +:+ f
                              | None => f
                              end)) frags o.

(** The fragment an item of a function-call delta contributes to a field. *)
Definition field_of (key : string) (kv : string * string) : option string :=
  if String.eqb (fst kv) key then Some (snd kv) else None.

(** A field of the [function_call] entry of a message. *)
Definition function_call_field (message : value) (key : string) : option value :=
  match message with
  | VDict kvs =>
      match dict_get kvs "function_call" with
      | Some (VDict fc) => dict_get fc key
      | _ => None
      end
  | _ => None
  end.

(** Leading fragments that leave the content empty. *)
Fixpoint drop_leading_blank (frags : list string) : list string :=
  match frags with
  | [] => []
  | s :: rest =>
      if String.eqb s "" || String.eqb s two_newlines
      then drop_leading_blank rest
      else s :: rest
  end.

(** ** The callable-function registry and its decorator *)

Definition WORLD_PARAM_NAME : string := "self".
Definition AGENT_PARAM_NAME : string := "agent".
Definition AGENT_NAME_PARAM_NAME : string := "agent_name".

(** What [inspect.signature] shows of a parameter: its name, its annotation
    ([None] for [Parameter.empty]) and its default ([None] for
    [Parameter.empty]). The annotations [str], [int], [float], [bool] are the
    keys of [type_annotation_to_json_schema_type]; any other (hashable)
    annotation is [AnnOther]. *)
Inductive annotation : Type :=
| AnnStr
| AnnInt
| AnnFloat
| AnnBool
| AnnOther (name : string).

Record parameter : Type := mkParam {
  p_name : string;
  p_annotation : option annotation;
  p_default : option value
}.

(** A function object: [__name__], [__doc__], the parameters in declaration
    order, and the call of the function with keyword arguments. *)
Record pyfunction : Type := mkFunction {
  f_name : string;
  f_doc : option string;
  f_parameters : list parameter;
  f_call : list (string * value) -> M value
}.

(** An entry of [CALLABLE_FUNCTION_TABLE]. *)
Record function_info : Type := mkInfo {
  fi_sig : value;
  fi_function : pyfunction;
  fi_has_world_param : bool;
  fi_has_agent_param : bool;
  fi_has_agent_name_param : bool;
  fi_role_name_filter : string
}.

Definition registry := list (string * function_info).

Definition is_reserved (name : string) : bool :=
  String.eqb name WORLD_PARAM_NAME || String.eqb name AGENT_PARAM_NAME
  || String.eqb name AGENT_NAME_PARAM_NAME.

Definition has_param (name : string) (parameters : list parameter) : bool :=
  existsb (fun p => String.eqb (p_name p) name) parameters.

(** [type_annotation_to_json_schema_type.get(type_annotation, 'string')]. *)
Definition json_schema_type_of (a : annotation) : string :=
  match a with
  | AnnStr => "string"
  | AnnInt => "integer"
  | AnnFloat => "number"
  | AnnBool => "boolean"
  | AnnOther _ => "string"
  end.

Definition newline : string := String (ascii_of_nat 10) EmptyString.

(** The double-quote character, as a string. *)
Definition dquote : string := String (ascii_of_nat 34) EmptyString.

Section Decorator.
Context `{Runtime}.

Definition parameters_clean (function : pyfunction) : list parameter :=
  List.filter (fun p => negb (is_reserved (p_name p))) (f_parameters function).

Definition required_parameters (function : pyfunction) : list string :=
  fold_left
    (fun required p =>
       match p_default p with
       | None => required ++ [p_name p]
       | Some _ => required
       end)
    (parameters_clean function) [].

Definition json_schema_types (function : pyfunction) : list (string * string) :=
  fold_left
    (fun types p =>
       match p_annotation p with
       | Some a => dict_set types (p_name p) (json_schema_type_of a)
       | None => types
       end)
    (parameters_clean function) [].

Definition parameter_descriptions (function : pyfunction) (doc : string)
  : list (string * string) :=
  fold_left
    (fun descriptions p =>
       match re_search_group1 (p_name p +:+ ":(.*)") doc with
       | Some g => dict_set descriptions (p_name p) (str_strip g)
       | None => descriptions
       end)
    (parameters_clean function) [].

Definition function_description (doc : string) : string :=
  let text :=
    if str_contains doc "Args:" then
      str_strip (List.hd "" (str_split doc "Args:"))
    else if str_contains doc "Returns:" then
      str_strip (List.hd "" (str_split doc "Returns:"))
    else str_strip doc in
  String.concat newline
    (map str_strip
       (List.filter (fun line => Nat.ltb 0 (String.length (str_strip line)))
               (str_split text newline))).

(** The schema of one parameter. *)
Definition property_of (function : pyfunction) (p : parameter) : value :=
  VDict
    [("type",
      VStr (default "string" (dict_get (json_schema_types function) (p_name p))));
     ("description",
      VStr (default ""
              (dict_get (parameter_descriptions function
                           (default "" (f_doc function))) (p_name p))))].

Definition func_sig (function : pyfunction) : value :=
  let doc := default "" (f_doc function) in
  VDict
    [("name", VStr (f_name function));
     ("description", VStr (function_description doc));
     ("parameters",
      VDict
        [("type", VStr "object");
         ("properties",
          VDict
            (fold_left
               (fun properties p =>
                  dict_set properties (p_name p)
                    (VDict
                       [("type",
                         VStr (default "string"
                                 (dict_get (json_schema_types function)
                                           (p_name p))));
                        ("description",
                         VStr (default ""
                                 (dict_get (parameter_descriptions function doc)
                                           (p_name p))))]))
               (parameters_clean function) []));
         ("required", VList (map VStr (required_parameters function)))])].

(** [agent_callable(role_name_filter).__call__(function)]: the table after the
    registration (the decorator returns [function] unchanged). *)
Definition agent_callable_call (role_name_filter : string)
  (function : pyfunction) (table : registry) : registry :=
  dict_set table (f_name function)
    (mkInfo (func_sig function) function
       (has_param WORLD_PARAM_NAME (f_parameters function))
       (has_param AGENT_PARAM_NAME (f_parameters function))
       (has_param AGENT_NAME_PARAM_NAME (f_parameters function))
       role_name_filter).

End Decorator.

(** Reading a generated schema. *)
Definition sig_required (sig : value) : option value :=
  match sig with
  | VDict kvs =>
      match dict_get kvs "parameters" with
      | Some (VDict ps) => dict_get ps "required"
      | _ => None
      end
  | _ => None
  end.

Definition sig_property (sig : value) (name : string) : option value :=
  match sig with
  | VDict kvs =>
      match dict_get kvs "parameters" with
      | Some (VDict ps) =>
          match dict_get ps "properties" with
          | Some (VDict props) => dict_get props name
          | _ => None
          end
      | _ => None
      end
  | _ => None
  end.

Definition sig_property_type (sig : value) (name : string) : option value :=
  match sig_property sig name with
  | Some (VDict kvs) => dict_get kvs "type"
  | _ => None
  end.

(** The JSON type the specification gives a parameter. *)
Definition spec_json_type (p : parameter) : string :=
  match p_annotation p with
  | Some AnnStr => "string"
  | Some AnnInt => "integer"
  | Some AnnFloat => "number"
  | Some AnnBool => "boolean"
  | Some (AnnOther _) => "string"
  | None => "string"
  end.

(** The required list the specification gives a function. *)
Definition spec_required (function : pyfunction) : list string :=
  map p_name
    (List.filter (fun p => negb (is_reserved (p_name p)) && is_None (p_default p))
            (f_parameters function)).

(** ** Agent: function dispatch and the think-act loop *)
Section Dispatch.
Context `{Runtime}.
Variable CALLABLE_FUNCTION_TABLE : registry.

(** The schemas whose role filter matches a role. *)
Definition visible_sigs (role : string) : list value :=
  map (fun entry : string * function_info => fi_sig (snd entry))
      (List.filter
         (fun entry : string * function_info =>
            re_match (fi_role_name_filter (snd entry)) role)
         CALLABLE_FUNCTION_TABLE).

(** Truth value of an object, as [if x:] tests it. *)
Definition truthy (h : gmap loc obj) (v : value) : bool :=
  match v with
  | VNone => false
  | VBool b => b
  | VInt n => negb (Z.eqb n 0)
  | VFloat x => negb (PrimFloat.eqb x 0%float)
  | VStr s => Nat.ltb 0 (String.length s)
  | VList xs => Nat.ltb 0 (List.length xs)
  | VDict kvs => Nat.ltb 0 (List.length kvs)
  | VRef l =>
      match h !! l with
      | Some (OList xs) => Nat.ltb 0 (List.length xs)
      | Some (ODict d) => negb (bool_decide (d = ∅))
      | _ => true
      end
  end.

(** Whether a value can be looked up in a dictionary at all. *)
Definition hashable (h : gmap loc obj) (v : value) : bool :=
  match v with
  | VList _ | VDict _ => false
  | VRef l =>
      match h !! l with
      | Some (OInst _ _) => true
      | _ => false
      end
  | _ => true
  end.

(** [Agent._callable_function_descriptions(self)]. *)
Definition _callable_function_descriptions (self : value) : M (list value) :=
  fold_left
    (fun (acc : M (list value)) (entry : string * function_info) =>
       ds ← acc;
       role ← getattr self "role";
       match role with
       | VStr r =>
           if negb (re_match (fi_role_name_filter (snd entry)) r)
           then mret ds
           else mret (ds ++ [fi_sig (snd entry)])
       | _ => raise TypeError "expected string or bytes-like object"
       end)
    CALLABLE_FUNCTION_TABLE (mret []).

(** [function_args[name] = v] on the parsed arguments. *)
Definition args_set (function_args : value) (name : string) (v : value) : M value :=
  match function_args with
  | VDict kvs => mret (VDict (dict_set kvs name v))
  | _ => raise TypeError "object does not support item assignment"
  end.

(** [function_to_call( ** function_args)]. *)
Definition call_with (function : pyfunction) (function_args : value) : M value :=
  match function_args with
  | VDict kvs => f_call function kvs
  | _ => raise TypeError
           (f_name function +:+ "() argument after ** must be a mapping")
  end.

Definition error_result (msg : string) : value := VDict [("error", VStr msg)].

(** [Agent._call_function(self, function_call, world=None)]. *)
Definition _call_function (self function_call world : value) : M value :=
  function_name ← getitem function_call "name";
  h ← get_heap;
  if negb (hashable h function_name) then raise TypeError "unhashable type"
  else
    match (match function_name with
           | VStr n => dict_get CALLABLE_FUNCTION_TABLE n
           | _ => None
           end) with
    | None =>
        mret (error_result
                (dquote +:+ format function_name +:+ dquote
                 +:+ " is not a callable function."))
    | Some function_info =>
        try_except
          (name ← getattr self "name";
           _ ← print_in_color
                 ("    " +:+ format name +:+ " is calling function "
                  +:+ format function_name +:+ " ...") "blue";
           let function_to_call := fi_function function_info in
           let has_world_param := fi_has_world_param function_info in
           let has_agent_param := fi_has_agent_param function_info in
           let has_agent_name_param := fi_has_agent_name_param function_info in
           function_args ← getitem function_call "arguments";
           function_args ← match function_args with
                           | VNone => mret (VDict [])
                           | _ => lift_outcome (json_loads function_args)
                           end;
           _ ← print_in_color
                 ("        with arguments " +:+ format function_args) "blue";
           function_args ← (if has_world_param
                            then args_set function_args WORLD_PARAM_NAME world
                            else mret function_args);
           function_args ← (if has_agent_param
                            then args_set function_args AGENT_PARAM_NAME self
                            else mret function_args);
           function_args ← (if has_agent_name_param
                            then name ← getattr self "name";
                                 args_set function_args AGENT_NAME_PARAM_NAME name
                            else mret function_args);
           function_response ← call_with function_to_call function_args;
           match function_response with
           | VNone => mret VNone
           | _ =>
               _ ← print_in_color
                     ("        response: " +:+ format function_response) "blue";
               mret function_response
           end)
          (fun e =>
             _ ← print_in_color ("        error: " +:+ exn_str e) "red";
             mret (error_result (exn_str e)))
    end.

(** [ ** self.engine_args]. *)
Definition dict_items (d : value) : M (list (string * value)) :=
  match d with
  | VDict kvs => mret kvs
  | VRef l =>
      h ← get_heap;
      match h !! l with
      | Some (ODict m) => mret (map_to_list m)
      | _ => raise TypeError "argument after ** must be a mapping"
      end
  | _ => raise TypeError "argument after ** must be a mapping"
  end.

(** The first half of the loop body: the banner and the completion request
    over the whole memory, with the schemas of the callable functions when
    there are any. *)
Definition next_message (self : value) : M value :=
  name ← getattr self "name";
  _ ← print_in_color (format name +:+ " >> ") "yellow";
  callable_functions ← _callable_function_descriptions self;
  engine ← getattr self "engine";
  memory ← getattr self "memory";
  messages ← list_items memory;
  ignore ← getattr self "ignore_none_function_messages";
  h ← get_heap;
  engine_args ← getattr self "engine_args";
  kwargs ← dict_items engine_args;
  if Nat.ltb 0 (List.length callable_functions)
  then stream_chat_completion engine messages (negb (truthy h ignore))
         ([("functions", VList callable_functions);
           ("function_call", VStr "auto")] ++ kwargs)
  else stream_chat_completion engine messages (negb (truthy h ignore)) kwargs.

(** The second half: dispatch a requested call and go on ([true]), or store
    a plain reply (unless it is to be ignored) and [break] ([false]). *)
Definition act_on (self world new_message : value) : M bool :=
  match new_message with
  | VDict kvs =>
      h ← get_heap;
      if truthy h (default VNone (dict_get kvs "function_call")) then
        memory ← getattr self "memory";
        _ ← list_append memory new_message;
        function_call ← getitem new_message "function_call";
        function_response ← _call_function self function_call world;
        let function_response :=
          match function_response with
          | VNone => VStr "done"
          | r => r
          end in
        memory ← getattr self "memory";
        function_call ← getitem new_message "function_call";
        function_name ← getitem function_call "name";
        content ← lift_outcome (json_dumps function_response);
        _ ← list_append memory
              (VDict [("role", VStr "function");
                      ("name", function_name);
                      ("content", VStr content)]);
        mret true
      else
        ignore ← getattr self "ignore_none_function_messages";
        h ← get_heap;
        _ ← (if negb (truthy h ignore)
             then memory ← getattr self "memory";
                  list_append memory new_message
             else mret tt);
        mret false
  | _ => raise AttributeError "object has no attribute 'get'"
  end.

(** One pass through the body of the [for] loop of [think_and_act]. *)
Definition think_and_act_body (self world : value) : M bool :=
  new_message ← next_message self;
  act_on self world new_message.

Fixpoint think_and_act_loop (repeats : nat) (self world : value) : M unit :=
  match repeats with
  | O => mret tt
  | S repeats' =>
      think_and_act_body self world ≫= fun go_on : bool =>
      if go_on then think_and_act_loop repeats' self world else mret tt
  end.

(** [Agent.think_and_act(self, world=None)]: no [return] statement. *)
Definition think_and_act (self world : value) : M value :=
  repeats ← getattr self "function_call_repeats";
  match repeats with
  | VInt n => _ ← think_and_act_loop (Z.to_nat n) self world; mret VNone
  | VBool b =>
      _ ← think_and_act_loop (if b then 1%nat else 0%nat) self world; mret VNone
  | _ => raise TypeError "object cannot be interpreted as an integer"
  end.

End Dispatch.

(** *** What a dispatched call amounts to *)

Definition log (st : pystate) (evs : list event) : pystate :=
  mkState (heap st) (BOTS st) (trace st ++ evs).

(** The argument set handed to the function: the parsed arguments, with the
    world, the agent and the agent's name added as the flags of the entry ask. *)
Definition injected_arguments (info : function_info) (self world name : value)
  (kvs : list (string * value)) : list (string * value) :=
  let a1 := if fi_has_world_param info
            then dict_set kvs WORLD_PARAM_NAME world else kvs in
  let a2 := if fi_has_agent_param info
            then dict_set a1 AGENT_PARAM_NAME self else a1 in
  if fi_has_agent_name_param info
  then dict_set a2 AGENT_NAME_PARAM_NAME name else a2.

Section DispatchOutcome.
Context `{Runtime}.

(** What the dispatcher makes of the end of the function's run: a value is
    passed on (and printed unless it is [None]), an exception that derives
    from [Exception] becomes an error result, any other exception goes on. *)
Definition after_call (r : outcome value * pystate) : outcome value * pystate :=
  match r with
  | (Return VNone, st) => (Return VNone, st)
  | (Return v, st) =>
      (Return v,
       log st [EvPrint ("        response: " +:+ format v) "blue" newline])
  | (Raise e, st) =>
      if is_Exception e
      then (Return (error_result (exn_str e)),
            log st [EvPrint ("        error: " +:+ exn_str e) "red" newline])
      else (Raise e, st)
  end.

(** The two lines printed before the function is called. *)
Definition call_banner (name function_name function_args : value) : list event :=
  [EvPrint ("    " +:+ format name +:+ " is calling function "
            +:+ format function_name +:+ " ...") "blue" newline;
   EvPrint ("        with arguments " +:+ format function_args) "blue" newline].

End DispatchOutcome.

(** ** botplayers/function.py: the persona loader *)
Section PersonaLoader.
Context `{Runtime}.

Definition EXPERIENCE_ROOT : string := "botplayers/experience".

(** Modelled from the spec: [receive_messages] is not in
    [botplayers/agent.py]. It is the plural form of [receive_message]: the
    messages are appended in order, each echoed when [print_output] is on, and
    the agent is returned. *)
Definition receive_messages (self messages : value) (print_output : bool)
  : M value :=
  items ← list_items messages;
  _ ← comprehension
        (fun message : value => receive_message self message print_output)
        items;
  mret self.

(** [BOTS[name] = cached]. *)
Definition set_BOTS (name : string) (cached : value * value) : M unit :=
  fun st =>
    (Return tt, mkState (heap st) (<[name := cached]> (BOTS st)) (trace st)).

(** [_load_bot(name, engine)]. *)
Definition _load_bot (name : string) (engine : value) : M (value * value) :=
  fun st =>
    match BOTS st !! name with
    | Some cached => (Return cached, st)
    | None =>
        (let path := EXPERIENCE_ROOT +:+ "/" +:+ name +:+ ".yaml" in
         _ ← emit (EvOpen path);
         raw_exp_data ← lift_outcome (yaml_safe_load path);
         exp_data ← lift_outcome (parse_experience_data raw_exp_data);
         agent ← Agent_call
                   (mkAgentArgs (Some (VStr ("bots." +:+ name))) None
                      (Some engine) None (Some (VInt 1)) (Some (VBool false)));
         agent ← receive_messages agent exp_data false;
         template ← getitem raw_exp_data "template";
         template_user ← getitem template "user";
         _ ← set_BOTS name (agent, template_user);
         mret (agent, template_user)) st
    end.

End PersonaLoader.

(** ** app/memory_tests/simple.py *)

Definition lower_char (c : ascii) : ascii :=
  let n := nat_of_ascii c in
  if Nat.leb 65 n && Nat.leb n 90 then ascii_of_nat (n + 32) else c.

(** [s.lower()], on the letters A to Z. *)
Fixpoint str_lower (s : string) : string :=
  match s with
  | EmptyString => EmptyString
  | String c rest => String (lower_char c) (str_lower rest)
  end.

(** [reply.lower().startswith('y')]. *)
Definition says_yes (reply : string) : bool :=
  String.prefix "y" (str_lower reply).


(** [sum(results)] for a list of booleans. *)
Definition sum_bools (results : list bool) : Z :=
  fold_left (fun n (b : bool) => n + (if b then 1 else 0)) results 0.

(** [to_markdown(list_data)]. *)
Definition to_markdown (list_data : list string) : string :=
  String.concat newline (map (fun item => "- " +:+ item) list_data).

Definition info_list : list string :=
  ["Alice is born in 1990.";
   "Bob is born in 1991.";
   "David is born in 1995.";
   "Alice is in Kansas.";
   "Bob is in New York.";
   "David is in California.";
   "Alice likes David."].

Definition num_confirms : nat := 5.

Definition qs : list string :=
  ["Do you have sufficient infomation to answer the user's question? Answer yes or no.";
   "Do current info suffice to answer the user's question? Answer yes or no.";
   "Do you have enough info to answer the user's question? Answer yes or no."].

Section ReviewInfo.

(** Modelled from the spec: [derive_avatar] and [last_message] are not in
    [botplayers/agent.py]. [ask_avatar agent content] stands for
    [agent.derive_avatar(interactive_objects=[]).receive_message({'role':
    'user', 'content': content}).think_and_act().last_message()['content']]:
    a fresh, memory-isolated avatar of the agent is sent the one message, runs
    one think-act cycle, and the content of its last message is the reply. *)
Variable ask_avatar : value -> string -> M string.

Definition usefulness_prompt (total idx : nat) (info : string) : string :=
  if Nat.ltb idx (total - 1)
  then "[info from database]: " +:+ info +:+ newline
       +:+ "Is this info useful? Answer yes or no."
  else "[info from database]: " +:+ info +:+ newline
       +:+ "There are no more info in the dabase.".

Definition sufficiency_prompt (useful_info : list string) (qidx : nat) : string :=
  "Current info:" +:+ newline +:+ to_markdown useful_info +:+ newline
  +:+ List.nth (qidx mod List.length qs) qs "".

(** [sum(results) >= num_confirms // 2 + 1]. *)
Definition majority (confirms : nat) (results : list bool) : bool :=
  Z.leb (Z.of_nat confirms / 2 + 1) (sum_bools results).

(** The body of the [for] loop on one fact: the useful facts afterwards and
    whether the loop hits [break]. *)
Definition review_fact (confirms : nat) (agent : value) (total idx : nat)
  (info : string) (useful_info : list string) : M (list string * bool) :=
  let info_show_to_agent := usefulness_prompt total idx info in
  results ← comprehension
              (fun _ : nat =>
                 reply ← ask_avatar agent info_show_to_agent;
                 mret (says_yes reply))
              (seq 0 confirms);
  if majority confirms results then
    let useful_info := useful_info ++ [info] in
    if Nat.ltb idx (total - 1) then
      results ← comprehension
                  (fun qidx : nat =>
                     reply ← ask_avatar agent (sufficiency_prompt useful_info qidx);
                     mret (says_yes reply))
                  (seq 0 confirms);
      if majority confirms results
      then mret (useful_info, true)
      else mret (useful_info, false)
    else mret (useful_info, false)
  else mret (useful_info, false).

Fixpoint review_loop (confirms : nat) (agent : value) (total idx : nat)
  (rest : list string) (useful_info : list string) : M (list string) :=
  match rest with
  | [] => mret useful_info
  | info :: rest' =>
      review_fact confirms agent total idx info useful_info ≫=
      fun step : list string * bool =>
        if snd step then mret (fst step)
        else review_loop confirms agent total (S idx) rest' (fst step)
  end.

(** [Database.review_info(self, agent)]. *)
Definition review_info (agent : value) : M (list string) :=
  review_loop num_confirms agent (List.length info_list) 0 info_list [].

End ReviewInfo.

Section ConsoleLoop.
Context `{Runtime}.
Variable CALLABLE_FUNCTION_TABLE : registry.

(** [Agent.print_memory(self)]. *)
Definition print_memory (self : value) : M value :=
  memory ← getattr self "memory";
  messages ← list_items memory;
  _ ← comprehension
        (fun im : nat * value =>
           role ← getitem (snd im) "role";
           content ← getitem (snd im) "content";
           print_in_color
             ("    [" +:+ format (VInt (Z.of_nat (fst im))) +:+ "] "
              +:+ format role +:+ ": " +:+ format content) "green")
        (combine (seq 0 (List.length messages)) messages);
  mret VNone.

(** Modelled from the spec: [print_full_memory] is not in
    [botplayers/agent.py]. It is [print_memory] extended to show the
    function-call entry of a message that has one. *)
Definition print_full_memory (self : value) : M value :=
  memory ← getattr self "memory";
  messages ← list_items memory;
  _ ← comprehension
        (fun im : nat * value =>
           role ← getitem (snd im) "role";
           content ← getitem (snd im) "content";
           _ ← print_in_color
                 ("    [" +:+ format (VInt (Z.of_nat (fst im))) +:+ "] "
                  +:+ format role +:+ ": " +:+ format content) "green";
           match snd im with
           | VDict kvs =>
               match dict_get kvs "function_call" with
               | Some fc =>
                   print_in_color ("        function_call: " +:+ format fc) "green"
               | None => mret tt
               end
           | _ => mret tt
           end)
        (combine (seq 0 (List.length messages)) messages);
  mret VNone.

Definition is_quit (user_message : string) : bool :=
  String.eqb user_message "exit" || String.eqb user_message "q"
  || String.eqb user_message "quit()" || String.eqb user_message "quit".

(** The [while True:] loop at the end of the module, over the lines that
    standard input still holds; [input] raises [EOFError] when none is left. *)
Fixpoint console_loop (agent : value) (stdin : list string) : M unit :=
  match stdin with
  | [] => _ ← emit (EvInput ">> "); raise EOFError "EOF when reading a line"
  | user_message :: stdin' =>
      _ ← emit (EvInput ">> ");
      if is_quit user_message then mret tt
      else if String.eqb user_message "::mem" then
        _ ← print_full_memory agent;
        console_loop agent stdin'
      else
        _ ← (if negb (String.eqb (str_strip user_message) "")
             then receive_message agent
                    (VDict [("role", VStr "user"); ("content", VStr user_message)])
                    true
             else mret VNone);
        _ ← think_and_act CALLABLE_FUNCTION_TABLE agent VNone;
        console_loop agent stdin'
  end.

End ConsoleLoop.

(** An agent as [__init__] leaves it: the instance binds its name, role,
    engine, memory list and the two settings, and reads [engine_args] from
    the class. *)
Definition is_agent (h : gmap loc obj) (self m : loc)
  (attrs : gmap string value) (mem : list value) (ea : gmap string value) : Prop :=
  h !! self = Some (OInst "Agent" attrs) /\
  is_Some (attrs !! "name") /\
  (exists r, attrs !! "role" = Some (VStr r)) /\
  is_Some (attrs !! "engine") /\
  attrs !! "memory" = Some (VRef m) /\
  is_Some (attrs !! "ignore_none_function_messages") /\
  attrs !! "engine_args" = None /\
  h !! m = Some (OList mem) /\
  h !! loc_Agent_engine_args = Some (ODict ea).

(** An operation that neither touches the heap or the persona cache nor
    sends a completion request. *)
Definition quiet {A} (op : M A) : Prop :=
  forall st r st',
    op st = (r, st') ->
    heap st' = heap st /\ BOTS st' = BOTS st /\
    completions (trace st') = completions (trace st).

(** ** A scripted environment for the examples *)

Definition is_space (c : ascii) : bool :=
  let n := nat_of_ascii c in
  Nat.eqb n 32 || (Nat.leb 9 n && Nat.leb n 13).

Fixpoint lstrip (s : string) : string :=
  match s with
  | EmptyString => EmptyString
  | String c rest => if is_space c then lstrip rest else s
  end.

Fixpoint string_rev (acc s : string) : string :=
  match s with
  | EmptyString => acc
  | String c rest => string_rev (String c acc) rest
  end.

(** [s.strip()] for the ASCII white space. *)
Definition strip (s : string) : string :=
  string_rev EmptyString (lstrip (string_rev EmptyString (lstrip s))).

(** A runtime whose completion service plays back [script], one stream per
    request, and whose JSON codec knows the few texts the examples use. *)
Definition example_runtime (script : list (list chunk)) : Runtime := {|
  py_str := fun _ => "<object>";
  py_repr := fun v => match v with
                      | VStr s => "'" +:+ s +:+ "'"
                      | _ => "<object>"
                      end;
  re_match := fun pattern s => String.eqb pattern ".*" || String.prefix pattern s;
  re_search_group1 := fun _ _ => None;
  str_strip := strip;
  str_split := fun s _ => [s];
  str_contains := fun _ _ => false;
  json_loads := fun v =>
    match v with
    | VStr s =>
        if String.eqb s "{}" then Return (VDict [])
        else Raise (mkExn JSONDecodeError
                      "Expecting value: line 1 column 1 (char 0)")
    | _ => Raise (mkExn TypeError
                    "the JSON object must be str, bytes or bytearray")
    end;
  json_dumps := fun v =>
    match v with
    | VStr s => Return (dquote +:+ s +:+ dquote)
    | VDict [(k, VStr s)] =>
        Return ("{" +:+ dquote +:+ k +:+ dquote +:+ ": "
                +:+ dquote +:+ s +:+ dquote +:+ "}")
    | _ => Return "null"
    end;
  chat_completion := fun n _ _ _ =>
    match nth_error script n with
    | Some resp => Return resp
    | None => Raise (mkExn (OtherException "APIConnectionError") "no response")
    end;
  yaml_safe_load := fun _ =>
    Return (VDict [("template", VDict [("user", VStr "{input}")])]);
  parse_experience_data := fun _ => Return (VList [])
|}.

Definition plain_runtime : Runtime := example_runtime [].

(** The state after [Agent('Bot', prompt=..., engine='gpt-4',
    function_call_repeats=1, ignore_none_function_messages=False)] and two
    calls [World()], run on the freshly imported module. *)
Definition example_agent : loc := 3%nat.
Definition example_memory : loc := 4%nat.
Definition example_world : loc := 5%nat.
Definition example_world2 : loc := 6%nat.

Definition example_state : pystate :=
  snd ((_ ← Agent_call
              (mkAgentArgs (Some (VStr "Bot")) (Some (VStr "You are a helpful bot."))
                 (Some (VStr "gpt-4")) None (Some (VInt 1)) (Some (VBool false)));
        _ ← World_call;
        World_call) module_state).

Definition example_attrs : gmap string value :=
  <["ignore_none_function_messages" := VBool false]>
    (<["function_call_repeats" := VInt 1]>
       (<["memory" := VRef example_memory]>
          (<["role" := VStr "agent"]>
             (<["engine" := VStr "gpt-4"]> (<["name" := VStr "Bot"]> ∅))))).

Definition example_mem : list value :=
  [VDict [("role", VStr "system"); ("content", VStr "You are a helpful bot.")]].

(** Three functions to dispatch to: [ping(agent_name)] prints and returns
    its arguments, [fail()] raises [ValueError], [leave()] raises
    [SystemExit]. *)
Definition ping : pyfunction :=
  mkFunction "ping" None [mkParam "agent_name" None None]
    (fun kwargs => _ ← emit (EvPrint "ping" "" newline); mret (VDict kwargs)).

Definition fail : pyfunction :=
  mkFunction "fail" None []
    (fun _ => raise (OtherException "ValueError") "boom").

Definition leave : pyfunction :=
  mkFunction "leave" None []
    (fun _ => raise (BaseOnly "SystemExit") "0").

(** [def f(a: str, b: int = 3)], documented with an [Args:] section. *)
Definition example_f : pyfunction :=
  mkFunction "f" (Some "Doc. Args: a: the first b: the second")
    [mkParam "a" (Some AnnStr) None; mkParam "b" (Some AnnInt) (Some (VInt 3))]
    (fun _ => mret VNone).

Definition example_table : registry :=
  agent_callable_call (H := plain_runtime) ".*" leave
    (agent_callable_call (H := plain_runtime) ".*" fail
       (agent_callable_call (H := plain_runtime) ".*" ping [])).

(** A stream that spells out a plain reply. *)
Definition hello_stream : list chunk :=
  [[mkDelta (Some "assistant") None (Some (Some "Hel"))];
   [mkDelta None None (Some (Some "lo"))]].

(** A stream with content and a function call spread over its deltas. *)
Definition call_stream : list chunk :=
  [[mkDelta (Some "assistant") None (Some (Some two_newlines))];
   [mkDelta None (Some [("name", "re"); ("arguments", "")]) (Some None)];
   [mkDelta None (Some [("name", "phrase")]) (Some (Some "Hel"))];
   [mkDelta None (Some [("arguments", "{")]) (Some (Some two_newlines))];
   [mkDelta None (Some [("arguments", "}")]) (Some (Some "lo"))]].

Definition hello_runtime : Runtime := example_runtime [hello_stream].
Definition call_runtime : Runtime := example_runtime [call_stream].

(** An avatar that finds useful what is said about Alice, and never has
    enough. *)
Definition example_ask_avatar (agent : value) (content : string) : M string :=
  mret (if String.prefix "[info from database]: Alice" content
        then "Yes, it is."
        else "no").


(** ** Agent.response_to_message *)
Section ResponseToMessage.
Context `{Runtime}.

(** [xs += items] on a list object of the heap: extended in place. *)
Definition list_extend (xs : value) (items : list value) : M unit :=
  match xs with
  | VRef l =>
      h ← get_heap;
      match h !! l with
      | Some (OList ys) => put_obj l (OList (ys ++ items))
      | _ => raise TypeError "unsupported operand type(s) for +="
      end
  | _ => raise TypeError "unsupported operand type(s) for +="
  end.

(** [isinstance(message, dict)]. *)
Definition is_dict (h : gmap loc obj) (v : value) : bool :=
  match v with
  | VDict _ => true
  | VRef l =>
      match h !! l with
      | Some (ODict _) => true
      | _ => false
      end
  | _ => false
  end.

(** [Agent.response_to_message(self, message, store_in_memory=False,
    print_output=True)]. *)
Definition response_to_message (self message : value)
  (store_in_memory print_output : bool) : M value :=
  memory ← getattr self "memory";
  new_memory ← list_items memory;
  h ← get_heap;
  message ← (if is_dict h message then mret [message] else list_items message);
  new_memory ←
    fold_left
      (fun (acc : M (list value)) (m : value) =>
         new_memory ← acc;
         _ ← (if print_output then
                name ← getattr self "name";
                content ← getitem m "content";
                print_in_color
                  (format name +:+ " is asked: " +:+ format content) "green"
              else mret tt);
         mret (new_memory ++ [m]))
      message (mret new_memory);
  engine ← getattr self "engine";
  ignore ← getattr self "ignore_none_function_messages";
  h ← get_heap;
  engine_args ← getattr self "engine_args";
  kwargs ← dict_items engine_args;
  response ← stream_chat_completion engine new_memory (negb (truthy h ignore))
                kwargs;
  _ ← (if print_output then
         name ← getattr self "name";
         content ← getitem response "content";
         print_in_color (format name +:+ " >> " +:+ format content) "yellow"
       else mret tt);
  _ ← (if store_in_memory then
         memory ← getattr self "memory";
         _ ← list_extend memory message;
         _ ← setattr self "memory" memory;
         memory ← getattr self "memory";
         list_append memory response
       else mret tt);
  mret response.

End ResponseToMessage.

(** ** botplayers/function.py: the persona functions *)
Section PersonaFunctions.
Context `{Runtime}.
Variable CALLABLE_FUNCTION_TABLE : registry.

(** [template_user.format( ** fields)] and [markdown_bullets_to_list] of
    [botplayers/util.py], which is not among the sources. *)
Variable str_format : value -> list (string * value) -> outcome value.
Variable markdown_bullets_to_list : value -> outcome value.

(** The lookup of a method on the value a call is chained on: only an
    [Agent] instance has the methods of [Agent]. *)
Definition lookup_method (o : value) (method : string) : M unit :=
  h ← get_heap;
  match o with
  | VRef l =>
      match h !! l with
      | Some (OInst cls _) =>
          if String.eqb cls "Agent" then mret tt
          else raise AttributeError
                 ("'" +:+ cls +:+ "' object has no attribute '" +:+ method +:+ "'")
      | _ => raise AttributeError
               ("object has no attribute '" +:+ method +:+ "'")
      end
  | VNone => raise AttributeError
               ("'NoneType' object has no attribute '" +:+ method +:+ "'")
  | _ => raise AttributeError ("object has no attribute '" +:+ method +:+ "'")
  end.

(** Modelled from the spec: [last_message] is not in [botplayers/agent.py].
    It returns the most recently stored message; on an empty memory the
    index is out of range. *)
Definition last_message (self : value) : M value :=
  memory ← getattr self "memory";
  messages ← list_items memory;
  match List.last (map Some messages) None with
  | Some m => mret m
  | None => raise (OtherException "IndexError") "list index out of range"
  end.

(** The chain every persona function runs:
    [agent.receive_message({'role': 'user', 'content':
    template_user.format(...)}).think_and_act().last_message()['content']]. *)
Definition persona_reply (agent template_user : value)
  (fields : list (string * value)) : M value :=
  _ ← lookup_method agent "receive_message";
  content ← lift_outcome (str_format template_user fields);
  r ← receive_message agent
        (VDict [("role", VStr "user"); ("content", content)]) true;
  _ ← lookup_method r "think_and_act";
  r ← think_and_act CALLABLE_FUNCTION_TABLE r VNone;
  _ ← lookup_method r "last_message";
  m ← last_message r;
  getitem m "content".

(** [content.lower().startswith('y')]. *)
Definition lower_startswith_y (content : value) : M value :=
  match content with
  | VStr s => mret (VBool (says_yes s))
  | _ => raise AttributeError "object has no attribute 'lower'"
  end.

(** [rephrase(sentence)]. *)
Definition rephrase (sentence : value) : M value :=
  cached ← _load_bot "rephrase" (VStr "gpt-3.5-turbo");
  persona_reply (fst cached) (snd cached) [("input", sentence)].

(** [is_related(question, info)]. *)
Definition is_related (question info : value) : M value :=
  cached ← _load_bot "is_related" (VStr "gpt-3.5-turbo");
  content ← persona_reply (fst cached) (snd cached)
              [("question", question); ("info", info)];
  lower_startswith_y content.

(** [is_sufficient(question, info)]. *)
Definition is_sufficient (question info : value) : M value :=
  cached ← _load_bot "is_sufficient" (VStr "gpt-3.5-turbo");
  content ← persona_reply (fst cached) (snd cached)
              [("question", question); ("info", info)];
  lower_startswith_y content.

(** [summarize(info)]. *)
Definition summarize (info : value) : M value :=
  cached ← _load_bot "summarize" (VStr "gpt-3.5-turbo");
  bullets_in_markdown ← persona_reply (fst cached) (snd cached) [("info", info)];
  lift_outcome (markdown_bullets_to_list bullets_in_markdown).

(** [extract_keywords(info)]. *)
Definition extract_keywords (info : value) : M value :=
  cached ← _load_bot "extract_keywords" (VStr "gpt-3.5-turbo");
  bullets_in_markdown ← persona_reply (fst cached) (snd cached) [("input", info)];
  lift_outcome (markdown_bullets_to_list bullets_in_markdown).

End PersonaFunctions.

(** What a run prints, in order. *)
Fixpoint printed (evs : list event) : list string :=
  match evs with
  | [] => []
  | EvPrint text _ _ :: rest => text :: printed rest
  | _ :: rest => printed rest
  end.

(** The last role a stream carries, [""] when it carries none. *)
Definition last_role (resp : list chunk) : string :=
  List.last (omap d_role (concat resp)) "".

(** The items of the function-call deltas of a stream, in order. *)
Definition fc_items (resp : list chunk) : list (string * string) :=
  concat (omap d_function_call (concat resp)).

(** An agent with known settings: what its own dictionary binds, its memory
    list, and the sampling parameters of the class. *)
Definition agent_with (h : gmap loc obj) (self m : loc) (mem : list value)
  (ea : gmap string value) (name engine : value) (role : string)
  (ignore : bool) (repeats : Z) : Prop :=
  exists attrs : gmap string value,
    h !! self = Some (OInst "Agent" attrs) /\
    attrs !! "name" = Some name /\
    attrs !! "role" = Some (VStr role) /\
    attrs !! "engine" = Some engine /\
    attrs !! "memory" = Some (VRef m) /\
    attrs !! "ignore_none_function_messages" = Some (VBool ignore) /\
    attrs !! "function_call_repeats" = Some (VInt repeats) /\
    attrs !! "engine_args" = None /\
    h !! m = Some (OList mem) /\
    h !! loc_Agent_engine_args = Some (ODict ea).

(** The keyword arguments [think_and_act] sends with a request: the schemas
    and the automatic mode when some function is visible to the role, then
    the sampling parameters. *)
Definition request_kwargs `{Runtime} (table : registry) (role : string)
  (ea : gmap string value) : list (string * value) :=
  if Nat.ltb 0 (List.length (visible_sigs table role))
  then [("functions", VList (visible_sigs table role));
        ("function_call", VStr "auto")] ++ map_to_list ea
  else map_to_list ea.

(** The message a stream folds into. *)
Definition reply_of (print_output : bool) (resp : list chunk) : value :=
  message_of_acc (fst (absorb_stream print_output resp)).

(** An operation that raises whatever the state is. *)
Definition always_raises {A} (op : M A) : Prop :=
  forall st, exists e st', op st = (Raise e, st').

(** A message that [print_memory] can print: a dictionary with a role and a
    content. *)
Definition printable (message : value) : Prop :=
  exists kvs role content,
    message = VDict kvs /\ dict_get kvs "role" = Some role /\
    dict_get kvs "content" = Some content.

(** A message that can be echoed: a dictionary with a content. *)
Definition has_content (message : value) : Prop :=
  exists kvs content, message = VDict kvs /\ dict_get kvs "content" = Some content.

(** The line [print_memory] prints for the message at an index. *)
Definition memory_line `{Runtime} (idx : nat) (message : value) : string :=
  match message with
  | VDict kvs =>
      "    [" +:+ format (VInt (Z.of_nat idx)) +:+ "] "
      +:+ format (default VNone (dict_get kvs "role")) +:+ ": "
      +:+ format (default VNone (dict_get kvs "content"))
  | _ => ""
  end.

(** The avatar replies a yes ([true]) or something else ([false]) to
    everything. *)
Definition always_replies (ask_avatar : value -> string -> M string) (yes : bool)
  : Prop :=
  forall agent content st, exists reply st',
    ask_avatar agent content st = (Return reply, st') /\ says_yes reply = yes.

(** How many lines a run has read from standard input. *)
Fixpoint inputs (evs : list event) : nat :=
  match evs with
  | [] => 0%nat
  | EvInput _ :: rest => S (inputs rest)
  | _ :: rest => inputs rest
  end.

(** The lines [print_memory] prints for the messages from an index on. *)
Fixpoint memory_lines `{Runtime} (idx : nat) (messages : list value) : list event :=
  match messages with
  | [] => []
  | message :: rest =>
      EvPrint (memory_line idx message) "green" newline
      :: memory_lines (S idx) rest
  end.

(** The messages an argument of [response_to_message] stands for: the one
    dictionary, or the elements of the list. *)
Definition messages_of (h : gmap loc obj) (message : value)
  : option (list value) :=
  match message with
  | VDict _ => Some [message]
  | VList msgs => Some msgs
  | VRef l =>
      match h !! l with
      | Some (ODict _) => Some [message]
      | Some (OList msgs) => Some msgs
      | _ => None
      end
  | _ => None
  end.


(** What the model is told about the end of a dispatched call: the value the
    function returned, ["done"] when it returned [None], the error result
    when it raised. *)
Definition told (res : outcome value) : value :=
  match res with
  | Return VNone => VStr "done"
  | Return r => r
  | Raise e => error_result (exn_str e)
  end.

(** [def rephrase(): return None], registered for every role. *)
Definition silent_rephrase : pyfunction :=
  mkFunction "rephrase" None [] (fun _ => mret VNone).

Definition silent_table : registry :=
  agent_callable_call (H := plain_runtime) ".*" silent_rephrase [].



(** An avatar whose probes are counted by the completion requests they
    send: of every five usefulness probes the first [yes] are answered with
    a yes, and a sufficiency probe is answered with a no. *)
Definition voting_avatar (yes : nat) (agent : value) (content : string)
  : M string :=
  fun st =>
    (Return (if String.prefix "Current info:" content then "no"
             else if Nat.ltb (completions (trace st) mod 5) yes
                  then "Yes." else "No."),
     log st [EvCompletion (VStr "gpt-4") [] []]).


(* ================================================================= *)
(** * Properties *)

(** ** Reasoning about the monad and the heap *)

Lemma fresh_loc_None (h : gmap loc obj) : h !! fresh (dom h) = None.
Proof. apply not_elem_of_dom, is_fresh. Qed.

Lemma lookup_ne_fresh (h : gmap loc obj) (l : loc) (o : obj) :
  h !! l = Some o -> l <> fresh (dom h).
Proof. intros Hl ->. rewrite fresh_loc_None in Hl. discriminate. Qed.

Lemma bind_Return {A B} (m : M A) (k : A -> M B) st a st' :
  m st = (Return a, st') -> (m ≫= k) st = k a st'.
Proof. intros E. unfold mbind, M_bind. rewrite E. reflexivity. Qed.

Lemma bind_Raise {A B} (m : M A) (k : A -> M B) st e st' :
  m st = (Raise e, st') -> (m ≫= k) st = (Raise e, st').
Proof. intros E. unfold mbind, M_bind. rewrite E. reflexivity. Qed.

Section AgentFacts.
Context `{Runtime}.

Lemma getattr_instance st l cls attrs a v :
  heap st !! l = Some (OInst cls attrs) ->
  attrs !! a = Some v ->
  getattr (VRef l) a st = (Return v, st).
Proof. intros Hl Ha. unfold getattr. munfold. rewrite Hl, Ha. reflexivity. Qed.

Lemma getattr_class st l cls attrs a v :
  heap st !! l = Some (OInst cls attrs) ->
  attrs !! a = None ->
  class_dict cls !! a = Some v ->
  getattr (VRef l) a st = (Return v, st).
Proof. intros Hl Ha Hc. unfold getattr. munfold. rewrite Hl, Ha, Hc. reflexivity. Qed.

Lemma setattr_instance st l cls attrs a v :
  heap st !! l = Some (OInst cls attrs) ->
  setattr (VRef l) a v st =
    (Return tt,
     mkState (<[l := OInst cls (<[a := v]> attrs)]> (heap st)) (BOTS st) (trace st)).
Proof. intros Hl. unfold setattr. munfold. rewrite Hl. reflexivity. Qed.

(** [__init__] on an instance that is already in the heap. *)
Lemma Agent_init_spec st self cls attrs0 name prompt engine role fcr ign :
  heap st !! self = Some (OInst cls attrs0) ->
  exists (m : loc) (attrs : gmap string value) (st' : pystate),
    Agent_init (VRef self) name prompt engine role fcr ign st = (Return tt, st') /\
    heap st !! m = None /\
    heap st' !! self = Some (OInst cls attrs) /\
    heap st' !! m =
      Some (OList [VDict [("role", VStr "system"); ("content", prompt)]]) /\
    attrs = <["ignore_none_function_messages" := ign]>
              (<["function_call_repeats" := fcr]>
                 (<["memory" := VRef m]>
                    (<["role" := role]>
                       (<["engine" := engine]> (<["name" := name]> attrs0))))) /\
    (forall l, l <> self -> l <> m -> heap st' !! l = heap st !! l) /\
    BOTS st' = BOTS st /\ trace st' = trace st.
Proof.
  intros Hl. unfold Agent_init.
  erewrite bind_Return by (apply setattr_instance; eassumption).
  erewrite bind_Return
    by (apply setattr_instance; cbn [heap]; apply lookup_insert_eq).
  cbn [heap BOTS trace]. rewrite insert_insert_eq.
  erewrite bind_Return
    by (apply setattr_instance; cbn [heap]; apply lookup_insert_eq).
  cbn [heap BOTS trace]. rewrite insert_insert_eq.
  erewrite bind_Return by (unfold alloc; reflexivity).
  cbn [heap BOTS trace].
  match goal with |- context [fresh (dom ?h)] => set (h3 := h); set (m := fresh (dom h3)) end.
  assert (Hm3 : h3 !! m = None) by apply fresh_loc_None.
  assert (Hne : m <> self).
  { intros E. rewrite E in Hm3. unfold h3 in Hm3.
    rewrite lookup_insert_eq in Hm3. discriminate. }
  assert (Hm : heap st !! m = None).
  { unfold h3 in Hm3. rewrite lookup_insert_ne in Hm3 by congruence. exact Hm3. }
  erewrite bind_Return
    by (apply setattr_instance; cbn [heap];
        rewrite lookup_insert_ne by exact Hne; apply lookup_insert_eq).
  cbn [heap BOTS trace].
  erewrite bind_Return
    by (apply setattr_instance; cbn [heap]; apply lookup_insert_eq).
  cbn [heap BOTS trace]. rewrite insert_insert_eq.
  erewrite setattr_instance by (cbn [heap]; apply lookup_insert_eq).
  cbn [heap BOTS trace]. rewrite insert_insert_eq.
  eexists m, _, _. split; [reflexivity|]. cbn [heap BOTS trace].
  split; [exact Hm|].
  split; [apply lookup_insert_eq|].
  split; [rewrite lookup_insert_ne by congruence; apply lookup_insert_eq|].
  split; [reflexivity|].
  split; [|split; reflexivity].
  intros l Hl1 Hl2.
  rewrite lookup_insert_ne by congruence.
  rewrite lookup_insert_ne by congruence.
  unfold h3. rewrite lookup_insert_ne by congruence. reflexivity.
Qed.

(** What a successful construction leaves in the heap: a new instance whose
    own dictionary binds the six names [__init__] assigns (and not
    [engine_args]), a new one-element memory list, everything else as before. *)
Lemma Agent_call_spec (args : Agent_args) (st : pystate) (name prompt : value) :
  arg_name args = Some name ->
  arg_prompt args = Some prompt ->
  exists (self m : loc) (attrs : gmap string value) (st' : pystate),
    Agent_call args st = (Return (VRef self), st') /\
    heap st !! self = None /\ heap st !! m = None /\ self <> m /\
    heap st' !! self = Some (OInst "Agent" attrs) /\
    heap st' !! m =
      Some (OList [VDict [("role", VStr "system"); ("content", prompt)]]) /\
    attrs !! "name" = Some name /\
    attrs !! "memory" = Some (VRef m) /\
    attrs !! "engine_args" = None /\
    attrs !! "function_call_repeats" =
      Some (default (VInt DEFAULT_FUNCTION_CALL_REPEATS)
                    (arg_function_call_repeats args)) /\
    attrs !! "ignore_none_function_messages" =
      Some (default (VBool DEFAULT_IGNORE_NONE_FUNCTION_MESSAGES)
                    (arg_ignore_none_function_messages args)) /\
    (forall l, l <> self -> l <> m -> heap st' !! l = heap st !! l) /\
    BOTS st' = BOTS st /\ trace st' = trace st.
Proof.
  intros Hn Hp. unfold Agent_call.
  erewrite bind_Return by (unfold alloc; reflexivity).
  rewrite Hn, Hp.
  set (self := fresh (dom (heap st))).
  assert (Hself : heap st !! self = None) by apply fresh_loc_None.
  match goal with |- context [Agent_init _ _ _ _ _ _ _ ≫= _] =>
    edestruct (Agent_init_spec
                 (mkState (<[self := OInst "Agent" ∅]> (heap st)) (BOTS st) (trace st))
                 self "Agent" ∅ name prompt
                 (default (VStr "gpt-3.5-turbo-16k") (arg_engine args))
                 (default (VStr "agent") (arg_role args))
                 (default (VInt DEFAULT_FUNCTION_CALL_REPEATS)
                          (arg_function_call_repeats args))
                 (default (VBool DEFAULT_IGNORE_NONE_FUNCTION_MESSAGES)
                          (arg_ignore_none_function_messages args)))
      as (m & attrs & st' & Hrun & Hm & Hs' & Hm' & Hattrs & Hframe & HB & HT)
  end.
  { cbn [heap]. apply lookup_insert_eq. }
  cbn [heap BOTS trace] in *.
  erewrite bind_Return by exact Hrun.
  assert (Hne : self <> m).
  { intros E. rewrite <- E in Hm. rewrite lookup_insert_eq in Hm. discriminate. }
  rewrite lookup_insert_ne in Hm by exact Hne.
  exists self, m, attrs, st'.
  split; [reflexivity|].
  repeat (split; [first [assumption | subst attrs; reflexivity]|]).
  split; [|split; assumption].
  intros l Hl1 Hl2. rewrite Hframe by assumption.
  apply lookup_insert_ne. congruence.
Qed.

Lemma setitem_dict st l d k v :
  heap st !! l = Some (ODict d) ->
  setitem (VRef l) k v st =
    (Return tt, mkState (<[l := ODict (<[k := v]> d)]> (heap st)) (BOTS st) (trace st)).
Proof. intros Hl. unfold setitem. munfold. rewrite Hl. reflexivity. Qed.

Lemma getitem_dict st l d k v :
  heap st !! l = Some (ODict d) ->
  d !! k = Some v ->
  getitem (VRef l) k st = (Return v, st).
Proof. intros Hl Hk. unfold getitem. munfold. rewrite Hl, Hk. reflexivity. Qed.

Lemma list_append_list st l xs v :
  heap st !! l = Some (OList xs) ->
  list_append (VRef l) v st =
    (Return tt, mkState (<[l := OList (xs ++ [v])]> (heap st)) (BOTS st) (trace st)).
Proof. intros Hl. unfold list_append. munfold. rewrite Hl. reflexivity. Qed.

Lemma list_items_list st l xs :
  heap st !! l = Some (OList xs) ->
  list_items (VRef l) st = (Return xs, st).
Proof. intros Hl. unfold list_items. munfold. rewrite Hl. reflexivity. Qed.

End AgentFacts.

(** ** Agent.receive_message *)
Section ReceiveMessage.
Context `{Runtime}.

Lemma receive_message_run
  (st : pystate) (self m : loc) (attrs : gmap string value) (mem : list value)
  (name : value) (kvs : list (string * value)) (print_output : bool) :
  heap st !! self = Some (OInst "Agent" attrs) ->
  attrs !! "name" = Some name ->
  attrs !! "memory" = Some (VRef m) ->
  heap st !! m = Some (OList mem) ->
  (print_output = true -> is_Some (dict_get kvs "content")) ->
  exists out : list event,
    receive_message (VRef self) (VDict kvs) print_output st =
      (Return VNone,
       mkState (<[m := OList (mem ++ [VDict kvs])]> (heap st)) (BOTS st)
               (trace st ++ out)) /\
    (print_output = false -> out = []).
Proof.
  intros Hself Hname Hmem Hm Hcontent. unfold receive_message.
  destruct print_output.
  - destruct (Hcontent eq_refl) as [c Hc].
    eexists [_]. split; [|discriminate].
    erewrite bind_Return.
    2:{ erewrite bind_Return by (eapply getattr_instance; eassumption).
        erewrite bind_Return by (unfold getitem; rewrite Hc; reflexivity).
        reflexivity. }
    erewrite bind_Return
      by (eapply getattr_instance; [exact Hself | exact Hmem]).
    erewrite bind_Return by (apply list_append_list; exact Hm).
    reflexivity.
  - exists []. split; [|reflexivity].
    erewrite bind_Return by reflexivity.
    erewrite bind_Return by (eapply getattr_instance; eassumption).
    erewrite bind_Return by (apply list_append_list; exact Hm).
    rewrite app_nil_r. reflexivity.
Qed.

(** C1. [receive_message] appends exactly the given message at the end of the
    agent's memory list and leaves the earlier entries (and every other
    object) as they were; with [print_output] off nothing is printed. The
    value of the call is [None], not the agent: the method has no [return]. *)
Theorem receive_message_appends_and_returns_None
  (st : pystate) (self m : loc) (attrs : gmap string value) (mem : list value)
  (name : value) (kvs : list (string * value)) (print_output : bool) :
  heap st !! self = Some (OInst "Agent" attrs) ->
  attrs !! "name" = Some name ->
  attrs !! "memory" = Some (VRef m) ->
  heap st !! m = Some (OList mem) ->
  (print_output = true -> is_Some (dict_get kvs "content")) ->
  exists out : list event,
    receive_message (VRef self) (VDict kvs) print_output st =
      (Return VNone,
       mkState (<[m := OList (mem ++ [VDict kvs])]> (heap st)) (BOTS st)
               (trace st ++ out)) /\
    (print_output = false -> out = []) /\
    Return VNone <> Return (VRef self).
Proof.
  intros Hself Hname Hmem Hm Hcontent.
  destruct (receive_message_run st self m attrs mem name kvs print_output
              Hself Hname Hmem Hm Hcontent) as (out & Hrun & Hout).
  exists out. repeat split; [exact Hrun | exact Hout | discriminate].
Qed.

(** The value of [receive_message] is [None], so a method call chained on it,
    as in [agent.receive_message(...).think_and_act()], raises. *)
Lemma receive_message_chain_raises
  (st : pystate) (self m : loc) (attrs : gmap string value) (mem : list value)
  (name : value) (kvs : list (string * value)) :
  heap st !! self = Some (OInst "Agent" attrs) ->
  attrs !! "name" = Some name ->
  attrs !! "memory" = Some (VRef m) ->
  heap st !! m = Some (OList mem) ->
  exists st',
    (r ← receive_message (VRef self) (VDict kvs) false;
     getattr r "think_and_act") st =
    (Raise (mkExn AttributeError
              "'NoneType' object has no attribute 'think_and_act'"), st').
Proof.
  intros Hself Hname Hmem Hm.
  destruct (receive_message_run
              st self m attrs mem name kvs false Hself Hname Hmem Hm)
    as (out & Hrun & _); [discriminate|].
  eexists. erewrite bind_Return by exact Hrun. reflexivity.
Qed.

End ReceiveMessage.

(** ** Objects shared between instances *)
Section Sharing.
Context `{Runtime}.

(** Two agents built one after the other: each has a memory list of its
    own, and neither has an [engine_args] of its own. *)
Lemma two_agents_spec (st : pystate) (n1 p1 n2 p2 : value) :
  exists (a b ma mb : loc) (attrs_a attrs_b : gmap string value) (st1 st2 : pystate),
    Agent_call (agent_args n1 p1) st = (Return (VRef a), st1) /\
    Agent_call (agent_args n2 p2) st1 = (Return (VRef b), st2) /\
    heap st2 !! a = Some (OInst "Agent" attrs_a) /\
    heap st2 !! b = Some (OInst "Agent" attrs_b) /\
    attrs_a !! "name" = Some n1 /\ attrs_b !! "name" = Some n2 /\
    attrs_a !! "memory" = Some (VRef ma) /\
    attrs_b !! "memory" = Some (VRef mb) /\
    attrs_a !! "engine_args" = None /\
    attrs_b !! "engine_args" = None /\
    heap st2 !! ma =
      Some (OList [VDict [("role", VStr "system"); ("content", p1)]]) /\
    heap st2 !! mb =
      Some (OList [VDict [("role", VStr "system"); ("content", p2)]]) /\
    ma <> mb /\
    (forall l o, heap st !! l = Some o -> heap st2 !! l = Some o).
Proof.
  destruct (Agent_call_spec (agent_args n1 p1) st n1 p1 eq_refl eq_refl)
    as (a & ma & attrs_a & st1 & Hrun1 & Ha0 & Hma0 & Hne1 & Ha1 & Hma1 &
        Hn1 & Hm1 & He1 & _ & _ & Hfr1 & _ & _).
  destruct (Agent_call_spec (agent_args n2 p2) st1 n2 p2 eq_refl eq_refl)
    as (b & mb & attrs_b & st2 & Hrun2 & Hb1 & Hmb1 & Hne2 & Hb2 & Hmb2 &
        Hn2 & Hm2 & He2 & _ & _ & Hfr2 & _ & _).
  assert (a <> b) by congruence.
  assert (a <> mb) by congruence.
  assert (ma <> b) by congruence.
  assert (ma <> mb) by congruence.
  exists a, b, ma, mb, attrs_a, attrs_b, st1, st2.
  repeat (split; [first [assumption | rewrite Hfr2 by assumption; assumption]|]).
  intros l o Hl.
  rewrite Hfr2, Hfr1; [exact Hl | try congruence ..].
  - intros ->. rewrite Hfr1 in Hb1 by congruence. congruence.
  - intros ->. rewrite Hfr1 in Hmb1 by congruence. congruence.
Qed.

(** X1. What the constructor guarantees: the memory lists of two agents are
    distinct objects, so appending to one leaves the other unchanged. *)
Lemma Agent_memory_independent (st : pystate) (n1 p1 n2 p2 msg : value) :
  exists (a b : value) (st1 st2 st3 : pystate),
    Agent_call (agent_args n1 p1) st = (Return a, st1) /\
    Agent_call (agent_args n2 p2) st1 = (Return b, st2) /\
    receive_message a msg false st2 = (Return VNone, st3) /\
    (m ← getattr a "memory"; list_items m) st3 =
      (Return [VDict [("role", VStr "system"); ("content", p1)]; msg], st3) /\
    (m ← getattr b "memory"; list_items m) st3 =
      (Return [VDict [("role", VStr "system"); ("content", p2)]], st3).
Proof.
  destruct (two_agents_spec st n1 p1 n2 p2)
    as (a & b & ma & mb & attrs_a & attrs_b & st1 & st2 & Hrun1 & Hrun2 &
        Ha & Hb & Hna & Hnb & Hma & Hmb & _ & _ & Hla & Hlb & Hne & _).
  assert (a <> ma) by congruence.
  assert (b <> ma) by congruence.
  eexists (VRef a), (VRef b), st1, st2, _.
  split; [exact Hrun1|]. split; [exact Hrun2|].
  split.
  { unfold receive_message.
    erewrite bind_Return by reflexivity.
    erewrite bind_Return by (eapply getattr_instance; eassumption).
    erewrite bind_Return by (apply list_append_list; exact Hla).
    reflexivity. }
  split.
  - erewrite bind_Return
      by (eapply getattr_instance;
          [cbn [heap]; rewrite lookup_insert_ne by congruence; exact Ha | exact Hma]).
    apply list_items_list. cbn [heap]. apply lookup_insert_eq.
  - erewrite bind_Return
      by (eapply getattr_instance;
          [cbn [heap]; rewrite lookup_insert_ne by congruence; exact Hb | exact Hmb]).
    apply list_items_list. cbn [heap].
    rewrite lookup_insert_ne by congruence. exact Hlb.
Qed.

(** C2, the part that fails: [__init__] never assigns [engine_args], so every
    agent reads the one dictionary built by the class body, and an item
    assignment through one agent is read back through any other. *)
Theorem Agent_engine_args_shared
  (st : pystate) (d : gmap string value) (n1 p1 n2 p2 : value)
  (k : string) (v : value) :
  heap st !! loc_Agent_engine_args = Some (ODict d) ->
  exists (a b : value) (st1 st2 st3 : pystate),
    Agent_call (agent_args n1 p1) st = (Return a, st1) /\
    Agent_call (agent_args n2 p2) st1 = (Return b, st2) /\
    a <> b /\
    (ea ← getattr a "engine_args"; setitem ea k v) st2 = (Return tt, st3) /\
    (eb ← getattr b "engine_args"; getitem eb k) st3 = (Return v, st3).
Proof.
  intros Hd.
  destruct (two_agents_spec st n1 p1 n2 p2)
    as (a & b & ma & mb & attrs_a & attrs_b & st1 & st2 & Hrun1 & Hrun2 &
        Ha & Hb & _ & _ & Hma & Hmb & Hea & Heb & Hla & Hlb & Hne & Hfr).
  pose proof (Hfr _ _ Hd) as Hd2.
  assert (b <> loc_Agent_engine_args) by congruence.
  assert (Hab : a <> b).
  { intros ->. rewrite Ha in Hb. injection Hb as ->.
    rewrite Hma in Hmb. congruence. }
  eexists (VRef a), (VRef b), st1, st2, _.
  split; [exact Hrun1|]. split; [exact Hrun2|].
  split; [congruence|].
  split.
  - erewrite bind_Return
      by (eapply getattr_class; [exact Ha | exact Hea | reflexivity]).
    apply setitem_dict. exact Hd2.
  - erewrite bind_Return
      by (eapply getattr_class;
          [cbn [heap]; rewrite lookup_insert_ne by congruence; exact Hb
          | exact Heb | reflexivity]).
    eapply getitem_dict; [cbn [heap]; apply lookup_insert_eq|].
    apply lookup_insert_eq.
Qed.

End Sharing.

(** ** World: one agents mapping for the class *)
Section WorldFacts.
Context `{Runtime}.

Lemma World_call_spec (st : pystate) :
  exists (w : loc) (st' : pystate),
    World_call st = (Return (VRef w), st') /\
    heap st !! w = None /\
    heap st' = <[w := OInst "World" ∅]> (heap st).
Proof.
  eexists _, _. unfold World_call.
  erewrite bind_Return by (unfold alloc; reflexivity).
  split; [reflexivity|]. split; [apply fresh_loc_None | reflexivity].
Qed.

(** Reading [w.agents] on an instance that binds no [agents] of its own
    yields the dictionary of the class body. *)
Lemma World_getattr_agents st w d :
  heap st !! w = Some (OInst "World" d) ->
  d !! "agents" = None ->
  getattr (VRef w) "agents" st = (Return (VRef loc_World_agents), st).
Proof. intros Hw Hd. eapply getattr_class; [exact Hw | exact Hd | reflexivity]. Qed.

Lemma add_run st w1 d1 agents agent attrs n :
  heap st !! w1 = Some (OInst "World" d1) ->
  d1 !! "agents" = None ->
  heap st !! loc_World_agents = Some (ODict agents) ->
  heap st !! agent = Some (OInst "Agent" attrs) ->
  attrs !! "name" = Some (VStr n) ->
  add (VRef w1) (VRef agent) st =
    (Return VNone,
     mkState (<[loc_World_agents := ODict (<[n := VRef agent]> agents)]> (heap st))
             (BOTS st) (trace st)).
Proof.
  intros Hw1 Hd1 Hags Hagent Hname. unfold add.
  erewrite bind_Return by (eapply World_getattr_agents; eassumption).
  erewrite bind_Return by (eapply getattr_instance; eassumption).
  cbv beta iota.
  erewrite bind_Return by (apply setitem_dict; exact Hags).
  reflexivity.
Qed.

Lemma add_agent_run st w1 d1 agents name prompt role engine fcr ign :
  heap st !! w1 = Some (OInst "World" d1) ->
  d1 !! "agents" = None ->
  heap st !! loc_World_agents = Some (ODict agents) ->
  exists (agent : loc) (attrs : gmap string value) (h : gmap loc obj),
    add_agent (VRef w1) name prompt role engine fcr ign st =
      (Return VNone,
       mkState (<[loc_World_agents := ODict (<[name := VRef agent]> agents)]> h)
               (BOTS st) (trace st)) /\
    heap st !! agent = None /\
    h !! agent = Some (OInst "Agent" attrs) /\
    attrs !! "name" = Some (VStr name) /\
    (forall l o, heap st !! l = Some o -> h !! l = Some o).
Proof.
  intros Hw1 Hd1 Hags. unfold add_agent.
  destruct (Agent_call_spec
              (mkAgentArgs (Some (VStr name)) (Some prompt) (Some engine)
                 (Some role) (Some fcr) (Some ign)) st (VStr name) prompt
              eq_refl eq_refl)
    as (a & m & attrs & st1 & Hrun & Ha0 & Hm0 & Hne & Ha1 & Hm1 & Hn & _ & _ &
        _ & _ & Hfr & HB & HT).
  assert (Hkeep : forall l o, heap st !! l = Some o -> heap st1 !! l = Some o).
  { intros l o Hl. rewrite Hfr; [exact Hl | congruence | congruence]. }
  exists a, attrs, (heap st1).
  erewrite bind_Return by exact Hrun.
  erewrite bind_Return
    by (eapply World_getattr_agents; [apply Hkeep; exact Hw1 | exact Hd1]).
  erewrite bind_Return by (apply setitem_dict; apply Hkeep; exact Hags).
  rewrite HB, HT.
  repeat split; assumption.
Qed.

(** C10. Every [World] instance reads the dictionary of the class body:
    after [w1.add(agent)] or [w1.add_agent(name, ...)] the stored agent is
    found under its name through any instance [w2], whatever was stored under
    that name before; the instances themselves are left without an [agents]
    entry of their own. *)
Theorem World_agents_shared
  (st : pystate) (w1 w2 : loc) (d1 d2 agents : gmap string value) :
  heap st !! w1 = Some (OInst "World" d1) ->
  d1 !! "agents" = None ->
  heap st !! w2 = Some (OInst "World" d2) ->
  d2 !! "agents" = None ->
  heap st !! loc_World_agents = Some (ODict agents) ->
  (forall (agent : loc) (attrs : gmap string value) (n : string),
     heap st !! agent = Some (OInst "Agent" attrs) ->
     attrs !! "name" = Some (VStr n) ->
     exists st' : pystate,
       add (VRef w1) (VRef agent) st = (Return VNone, st') /\
       (ags ← getattr (VRef w2) "agents"; getitem ags n) st' =
         (Return (VRef agent), st') /\
       getattr (VRef w1) "agents" st' = (Return (VRef loc_World_agents), st') /\
       getattr (VRef w2) "agents" st' = (Return (VRef loc_World_agents), st') /\
       heap st' !! w1 = Some (OInst "World" d1) /\
       heap st' !! w2 = Some (OInst "World" d2)) /\
  (forall (name : string) (prompt role engine fcr ign : value),
     exists (agent : loc) (st' : pystate),
       add_agent (VRef w1) name prompt role engine fcr ign st = (Return VNone, st') /\
       heap st !! agent = None /\
       (ags ← getattr (VRef w2) "agents"; getitem ags name) st' =
         (Return (VRef agent), st') /\
       getattr (VRef w1) "agents" st' = (Return (VRef loc_World_agents), st') /\
       getattr (VRef w2) "agents" st' = (Return (VRef loc_World_agents), st') /\
       heap st' !! w1 = Some (OInst "World" d1) /\
       heap st' !! w2 = Some (OInst "World" d2)).
Proof.
  intros Hw1 Hd1 Hw2 Hd2 Hags.
  assert (Hn1 : w1 <> loc_World_agents) by congruence.
  assert (Hn2 : w2 <> loc_World_agents) by congruence.
  split.
  - intros agent attrs n Hagent Hname.
    eexists. split; [eapply add_run; eassumption|].
    assert (Hw1' : <[loc_World_agents := ODict (<[n := VRef agent]> agents)]> (heap st)
                     !! w1 = Some (OInst "World" d1))
      by (rewrite lookup_insert_ne by congruence; exact Hw1).
    assert (Hw2' : <[loc_World_agents := ODict (<[n := VRef agent]> agents)]> (heap st)
                     !! w2 = Some (OInst "World" d2))
      by (rewrite lookup_insert_ne by congruence; exact Hw2).
    split.
    { erewrite bind_Return by (eapply World_getattr_agents; [exact Hw2' | exact Hd2]).
      eapply getitem_dict; [cbn [heap]; apply lookup_insert_eq|].
      apply lookup_insert_eq. }
    split; [eapply World_getattr_agents; [exact Hw1' | exact Hd1]|].
    split; [eapply World_getattr_agents; [exact Hw2' | exact Hd2]|].
    split; assumption.
  - intros name prompt role engine fcr ign.
    destruct (add_agent_run st w1 d1 agents name prompt role engine fcr ign
                Hw1 Hd1 Hags)
      as (agent & attrs & h & Hrun & Hfresh & Hagent & Hname & Hkeep).
    exists agent. eexists. split; [exact Hrun|].
    split; [exact Hfresh|].
    assert (Hw1' : <[loc_World_agents := ODict (<[name := VRef agent]> agents)]> h
                     !! w1 = Some (OInst "World" d1))
      by (rewrite lookup_insert_ne by congruence; apply Hkeep; exact Hw1).
    assert (Hw2' : <[loc_World_agents := ODict (<[name := VRef agent]> agents)]> h
                     !! w2 = Some (OInst "World" d2))
      by (rewrite lookup_insert_ne by congruence; apply Hkeep; exact Hw2).
    split.
    { erewrite bind_Return by (eapply World_getattr_agents; [exact Hw2' | exact Hd2]).
      eapply getitem_dict; [cbn [heap]; apply lookup_insert_eq|].
      apply lookup_insert_eq. }
    split; [eapply World_getattr_agents; [exact Hw1' | exact Hd1]|].
    split; [eapply World_getattr_agents; [exact Hw2' | exact Hd2]|].
    split; assumption.
Qed.

End WorldFacts.

(** ** stream_chat_completion: what the loop accumulates *)
Section StreamingFacts.

Lemma absorb_choices_fst print_output choices st :
  fst (absorb_choices print_output st choices) =
  fold_left (absorb_acc print_output) choices (fst st).
Proof.
  unfold absorb_choices. revert st.
  induction choices as [|d ds IH]; intros st; [reflexivity|].
  cbn [fold_left]. rewrite IH. unfold absorb_acc.
  destruct (absorb_delta print_output (fst st) d). reflexivity.
Qed.

Lemma absorb_stream_fst_gen print_output resp st :
  fst (fold_left (absorb_choices print_output) resp st) =
  fold_left (absorb_acc print_output) (concat resp) (fst st).
Proof.
  revert st. induction resp as [|ch resp IH]; intros st; [reflexivity|].
  cbn [fold_left concat]. rewrite IH, fold_left_app, absorb_choices_fst.
  reflexivity.
Qed.

Lemma absorb_stream_fst print_output resp :
  fst (absorb_stream print_output resp) =
  fold_left (absorb_acc print_output) (concat resp) (mkAcc "" "" []).
Proof. apply absorb_stream_fst_gen. Qed.

Lemma string_length_zero (s : string) :
  Nat.eqb (String.length s) 0 = String.eqb s "".
Proof. destruct s; reflexivity. Qed.

Lemma string_app_empty_r (s : string) : s +:+ "" = s.
Proof.
  induction s as [|c s IH]; [reflexivity|].
  change (String c (s +:+ "") = String c s). f_equal. exact IH.
Qed.

Lemma string_app_assoc (a b c : string) : (a +:+ b) +:+ c = a +:+ (b +:+ c).
Proof.
  induction a as [|x a IH]; [reflexivity|].
  change (String x ((a +:+ b) +:+ c) = String x (a +:+ (b +:+ c))).
  f_equal. exact IH.
Qed.

(** The content after the loop is the content of the specification. *)
Lemma absorb_content print_output ds acc :
  acc_content (fold_left (absorb_acc print_output) ds acc) =
  spec_content (acc_content acc) (omap d_content ds).
Proof.
  revert acc. induction ds as [|d ds IH]; intros acc; [reflexivity|].
  cbn [fold_left omap list_omap]. rewrite IH. unfold absorb_acc, absorb_delta.
  destruct (d_content d) as [[s|]|]; cbn [fst acc_content spec_content].
  - rewrite string_length_zero. cbn [eq_opt_string is_None].
    rewrite orb_false_r.
    destruct (String.eqb_spec s "") as [->|Hs].
    + change (String.eqb "" two_newlines) with false. rewrite andb_false_r.
      cbn [fst acc_content]. rewrite string_app_empty_r. reflexivity.
    + destruct (String.eqb (acc_content acc) "" && String.eqb s two_newlines);
        reflexivity.
  - cbn [is_None]. rewrite orb_true_r. reflexivity.
  - reflexivity.
Qed.

Lemma extend_Some x frags : extend (Some x) frags = Some (x +:+ joined frags).
Proof.
  revert x. induction frags as [|f frags IH]; intros x; cbn.
  - rewrite string_app_empty_r. reflexivity.
  - unfold extend in IH. rewrite IH, string_app_assoc. reflexivity.
Qed.

Lemma extend_None frags :
  extend None frags =
  match frags with
  | [] => None
  | _ :: _ => Some (joined frags)
  end.
Proof.
  destruct frags as [|f frags]; [reflexivity|].
  change (extend None (f :: frags)) with (extend (Some f) frags).
  apply extend_Some.
Qed.

Lemma fc_get_accumulate fc k v key :
  fc_get (fc_accumulate fc k v) key =
  if String.eqb k key
  then Some (match fc_get fc key with
             | Some x => x +:+ v
             | None => v
             end)
  else fc_get fc key.
Proof.
  induction fc as [|[k' v'] fc IH]; cbn.
  - destruct (String.eqb k key); reflexivity.
  - destruct (String.eqb_spec k' k) as [->|Hk]; cbn.
    + destruct (String.eqb k key); reflexivity.
    + rewrite IH.
      destruct (String.eqb_spec k' key) as [->|Hk'].
      * destruct (String.eqb_spec k key) as [->|_]; [congruence | reflexivity].
      * reflexivity.
Qed.

Lemma fc_get_items items fc key :
  fc_get (fold_left (fun fc kv => fc_accumulate fc (fst kv) (snd kv)) items fc) key =
  extend (fc_get fc key) (omap (field_of key) items).
Proof.
  revert fc. induction items as [|[k v] items IH]; intros fc; [reflexivity|].
  cbn [fold_left omap list_omap]. rewrite IH, fc_get_accumulate.
  unfold field_of at 2. cbn [fst snd].
  destruct (String.eqb k key); reflexivity.
Qed.

Lemma extend_app o xs ys : extend o (xs ++ ys) = extend (extend o xs) ys.
Proof. unfold extend. apply fold_left_app. Qed.

Lemma absorb_function_call print_output ds acc key :
  fc_get (acc_function_call (fold_left (absorb_acc print_output) ds acc)) key =
  extend (fc_get (acc_function_call acc) key)
         (omap (field_of key) (concat (omap d_function_call ds))).
Proof.
  revert acc. induction ds as [|d ds IH]; intros acc; [reflexivity|].
  cbn [fold_left omap list_omap]. rewrite IH.
  assert (E : fc_get (acc_function_call (absorb_acc print_output acc d)) key =
              extend (fc_get (acc_function_call acc) key)
                     (omap (field_of key) (default [] (d_function_call d)))).
  { unfold absorb_acc, absorb_delta.
    destruct (d_function_call d) as [items|]; cbn [default];
      destruct (d_content d) as [[s|]|]; cbn [fst acc_function_call];
      try destruct (_ || _); cbn [fst acc_function_call];
      rewrite ?fc_get_items; reflexivity. }
  rewrite E.
  destruct (d_function_call d) as [items|]; cbn [default concat omap].
  - rewrite omap_app, extend_app. reflexivity.
  - reflexivity.
Qed.

Lemma dict_get_map_VStr fc key :
  dict_get (map (fun kv : string * string => (fst kv, VStr (snd kv))) fc) key =
  VStr <$> fc_get fc key.
Proof.
  induction fc as [|[k v] fc IH]; [reflexivity|]. cbn.
  destruct (String.eqb k key); [reflexivity | exact IH].
Qed.

Lemma message_function_call_field acc key :
  function_call_field (message_of_acc acc) key =
  VStr <$> fc_get (acc_function_call acc) key.
Proof.
  unfold function_call_field, message_of_acc.
  destruct (acc_function_call acc) as [|kv fc] eqn:E; [reflexivity|].
  cbn [List.length Nat.ltb Nat.leb app dict_get String.eqb].
  cbn. apply (dict_get_map_VStr (kv :: fc)).
Qed.

Lemma message_content acc :
  dict_get (match message_of_acc acc with
            | VDict kvs => kvs
            | _ => []
            end) "content" = Some (VStr (acc_content acc)).
Proof. reflexivity. Qed.

(** The leading-blank rule in closed form: the content is the concatenation
    of the fragments that remain once the leading empty and two-newline
    fragments are dropped. *)
Lemma spec_content_nonempty acc frags :
  acc <> "" ->
  spec_content acc frags = acc +:+ joined (omap id frags).
Proof.
  revert acc. induction frags as [|[s|] frags IH]; intros acc Hacc; cbn.
  - rewrite string_app_empty_r. reflexivity.
  - destruct (String.eqb_spec s "") as [->|Hs]; [apply IH; exact Hacc|].
    destruct (String.eqb_spec acc "") as [->|_]; [congruence|]. cbn [andb].
    rewrite IH, string_app_assoc; [reflexivity|].
    destruct acc; [congruence | discriminate].
  - apply IH. exact Hacc.
Qed.

Lemma spec_content_closed_form frags :
  spec_content "" frags = joined (drop_leading_blank (omap id frags)).
Proof.
  induction frags as [|[s|] frags IH]; cbn; [reflexivity| |exact IH].
  destruct (String.eqb_spec s "") as [->|Hs]; cbn [orb]; [exact IH|].
  destruct (String.eqb s two_newlines); cbn [andb]; [exact IH|].
  rewrite spec_content_nonempty by exact Hs. reflexivity.
Qed.

End StreamingFacts.

Section StreamingTheorem.
Context `{Runtime}.

Lemma emit_all_run out st :
  emit_all out st = (Return tt, mkState (heap st) (BOTS st) (trace st ++ out)).
Proof.
  revert st. induction out as [|ev out IH]; intros st.
  - cbn. rewrite app_nil_r. destruct st; reflexivity.
  - cbn [emit_all]. erewrite bind_Return by reflexivity.
    rewrite IH. cbn [heap BOTS trace]. rewrite <- app_assoc. reflexivity.
Qed.

Lemma absorb_delta_prints print_output acc d :
  completions (snd (absorb_delta print_output acc d)) = 0%nat.
Proof.
  unfold absorb_delta.
  destruct (d_content d) as [[s|]|]; try reflexivity;
    destruct (_ || _); try reflexivity.
  destruct print_output; reflexivity.
Qed.

Lemma completions_app tr1 tr2 :
  completions (tr1 ++ tr2) = (completions tr1 + completions tr2)%nat.
Proof.
  induction tr1 as [|ev tr1 IH]; [reflexivity|].
  destruct ev; cbn; rewrite IH; reflexivity.
Qed.

Lemma absorb_choices_prints print_output choices st :
  completions (snd st) = 0%nat ->
  completions (snd (absorb_choices print_output st choices)) = 0%nat.
Proof.
  unfold absorb_choices. revert st.
  induction choices as [|d ds IH]; intros st Hst; [exact Hst|].
  cbn [fold_left]. apply IH.
  pose proof (absorb_delta_prints print_output (fst st) d) as Hd.
  destruct (absorb_delta print_output (fst st) d) as [acc' out].
  cbn [snd] in *. rewrite completions_app, Hst, Hd. reflexivity.
Qed.

Lemma absorb_stream_prints print_output resp :
  completions (snd (absorb_stream print_output resp)) = 0%nat.
Proof.
  unfold absorb_stream.
  assert (G : forall st, completions (snd st) = 0%nat ->
              completions (snd (fold_left (absorb_choices print_output) resp st))
              = 0%nat).
  { induction resp as [|ch resp IH]; intros st Hst; [exact Hst|].
    cbn [fold_left]. apply IH, absorb_choices_prints, Hst. }
  apply G. reflexivity.
Qed.

(** One call: the request is logged, the stream is folded, the message is
    returned; the heap is not touched and only prints follow the request. *)
Lemma stream_chat_completion_run engine messages print_output kwargs st resp :
  chat_completion (completions (trace st)) engine messages kwargs = Return resp ->
  exists out : list event,
    stream_chat_completion engine messages print_output kwargs st =
      (Return (message_of_acc (fst (absorb_stream print_output resp))),
       mkState (heap st) (BOTS st)
               (trace st ++ EvCompletion engine messages kwargs :: out)) /\
    completions out = 0%nat.
Proof.
  intros Hresp. unfold stream_chat_completion.
  erewrite bind_Return by reflexivity.
  erewrite bind_Return by reflexivity.
  erewrite bind_Return by (unfold lift_outcome; rewrite Hresp; reflexivity).
  pose proof (absorb_stream_prints print_output resp) as Hout.
  destruct (absorb_stream print_output resp) as [acc out]. cbn [fst snd] in *.
  erewrite bind_Return by apply emit_all_run.
  cbn [heap BOTS trace].
  destruct (Nat.ltb 0 (String.length (acc_content acc)) && print_output).
  - erewrite bind_Return by reflexivity.
    exists (out ++ [EvPrint "" "" (String (ascii_of_nat 10) EmptyString)]).
    cbn [heap BOTS trace]. split.
    + unfold mret, M_ret. rewrite <- !app_assoc. reflexivity.
    + rewrite completions_app, Hout. reflexivity.
  - erewrite bind_Return by reflexivity.
    exists out. split; [|exact Hout].
    unfold mret, M_ret. rewrite <- !app_assoc. reflexivity.
Qed.

(** C7. The content of the returned message is the in-order concatenation
    of the content fragments, where an absent or empty fragment is skipped and
    the two-newline fragment is dropped exactly while no content has been
    accumulated (in closed form: the leading empty and two-newline fragments
    are dropped, every later fragment is kept); each field of its
    [function_call] is the in-order concatenation of the fragments of that
    field, and is missing when no fragment carried it. *)
Theorem stream_chat_completion_accumulates
  engine messages print_output kwargs st resp :
  chat_completion (completions (trace st)) engine messages kwargs = Return resp ->
  exists (kvs : list (string * value)) (st' : pystate),
    stream_chat_completion engine messages print_output kwargs st =
      (Return (VDict kvs), st') /\
    dict_get kvs "content" =
      Some (VStr (spec_content "" (content_fragments resp))) /\
    spec_content "" (content_fragments resp) =
      joined (drop_leading_blank (omap id (content_fragments resp))) /\
    (forall key : string,
       function_call_field (VDict kvs) key =
       match fc_fragments key resp with
       | [] => None
       | _ :: _ => Some (VStr (joined (fc_fragments key resp)))
       end).
Proof.
  intros Hresp.
  destruct (stream_chat_completion_run engine messages print_output kwargs st
              resp Hresp) as (out & Hrun & _).
  eexists _, _. split; [exact Hrun|].
  split.
  { cbn [dict_get app String.eqb Ascii.eqb Bool.eqb].
    rewrite absorb_stream_fst, absorb_content. reflexivity. }
  split; [apply spec_content_closed_form|].
  intros key.
  pose proof (message_function_call_field
                (fst (absorb_stream print_output resp)) key) as Hf.
  unfold message_of_acc in Hf. rewrite Hf.
  rewrite absorb_stream_fst, absorb_function_call. cbn [acc_function_call fc_get].
  fold (fc_fragments key resp).
  rewrite extend_None. unfold fc_fragments, field_of.
  destruct (omap _ _); reflexivity.
Qed.

End StreamingTheorem.

(** ** The schema generated by the decorator *)
Section DictFacts.
Context {A : Type}.

Lemma dict_get_set (d : list (string * A)) k v k' :
  dict_get (dict_set d k v) k' =
  if String.eqb k k' then Some v else dict_get d k'.
Proof.
  induction d as [|[k0 v0] d IH]; cbn.
  - reflexivity.
  - destruct (String.eqb_spec k0 k) as [->|Hk]; cbn.
    + destruct (String.eqb k k'); reflexivity.
    + rewrite IH.
      destruct (String.eqb_spec k0 k') as [->|Hk'].
      * destruct (String.eqb_spec k k') as [->|_]; [congruence | reflexivity].
      * reflexivity.
Qed.

Context {P : Type} (key : P -> string) (valo : P -> option A).

Lemma fold_set_opt_other ps d k :
  ~ List.In k (map key ps) ->
  dict_get (fold_left (set_opt key valo) ps d) k = dict_get d k.
Proof.
  revert d. induction ps as [|q ps IH]; intros d Hk; [reflexivity|].
  cbn [fold_left]. rewrite IH by (intros Hin; apply Hk; right; exact Hin).
  unfold set_opt. destruct (valo q); [|reflexivity].
  rewrite dict_get_set.
  destruct (String.eqb_spec (key q) k) as [E|_]; [|reflexivity].
  exfalso. apply Hk. left. exact E.
Qed.

Lemma fold_set_opt_at ps d p :
  List.NoDup (map key ps) ->
  List.In p ps ->
  dict_get (fold_left (set_opt key valo) ps d) (key p) =
  match valo p with
  | Some v => Some v
  | None => dict_get d (key p)
  end.
Proof.
  revert d. induction ps as [|q ps IH]; intros d Hnd Hin; [destruct Hin|].
  cbn [map] in Hnd. apply List.NoDup_cons_iff in Hnd as [Hq Hnd].
  cbn [fold_left]. destruct Hin as [->|Hin].
  - rewrite fold_set_opt_other by exact Hq.
    unfold set_opt. destruct (valo p); [|reflexivity].
    rewrite dict_get_set, String.eqb_refl. reflexivity.
  - rewrite IH by assumption.
    destruct (valo p); [reflexivity|].
    unfold set_opt. destruct (valo q); [|reflexivity].
    rewrite dict_get_set.
    destruct (String.eqb_spec (key q) (key p)) as [E|_]; [|reflexivity].
    exfalso. apply Hq. rewrite E. apply List.in_map. exact Hin.
Qed.

End DictFacts.

Lemma fold_left_pointwise {A B} (f g : A -> B -> A) (l : list B) (a : A) :
  (forall a b, f a b = g a b) -> fold_left f l a = fold_left g l a.
Proof.
  intros E. revert a. induction l as [|b l IH]; intros a; [reflexivity|].
  cbn [fold_left]. rewrite E. apply IH.
Qed.

Lemma NoDup_map_filter {A B} (f : A -> B) (P : A -> bool) (l : list A) :
  List.NoDup (map f l) -> List.NoDup (map f (List.filter P l)).
Proof.
  induction l as [|x l IH]; intros Hnd; [constructor|].
  cbn [map] in Hnd. apply List.NoDup_cons_iff in Hnd as [Hx Hnd].
  cbn [List.filter]. destruct (P x); [|apply IH; exact Hnd].
  cbn [map]. constructor; [|apply IH; exact Hnd].
  intros Hin. apply Hx. apply List.in_map_iff in Hin as (y & Hy & Hin).
  apply List.filter_In in Hin as [Hin _].
  rewrite <- Hy. apply List.in_map. exact Hin.
Qed.

Section DecoratorFacts.
Context `{Runtime}.

Lemma required_parameters_fold ps acc :
  fold_left
    (fun required p =>
       match p_default p with
       | None => required ++ [p_name p]
       | Some _ => required
       end) ps acc =
  acc ++ map p_name (List.filter (fun p => is_None (p_default p)) ps).
Proof.
  revert acc. induction ps as [|p ps IH]; intros acc; cbn [fold_left].
  - cbn. rewrite app_nil_r. reflexivity.
  - rewrite IH. cbn [List.filter].
    destruct (p_default p); cbn [is_None map]; [reflexivity|].
    rewrite <- app_assoc. reflexivity.
Qed.

Lemma filter_filter {A} (P Q : A -> bool) (l : list A) :
  List.filter Q (List.filter P l) = List.filter (fun x => P x && Q x) l.
Proof.
  induction l as [|x l IH]; [reflexivity|]. cbn [List.filter].
  destruct (P x); cbn [List.filter andb]; [|exact IH].
  destruct (Q x); rewrite IH; reflexivity.
Qed.

Lemma required_parameters_spec function :
  required_parameters function = spec_required function.
Proof.
  unfold required_parameters, spec_required, parameters_clean.
  rewrite required_parameters_fold, filter_filter. reflexivity.
Qed.

Lemma json_schema_types_spec function p :
  List.NoDup (map p_name (f_parameters function)) ->
  List.In p (parameters_clean function) ->
  default "string" (dict_get (json_schema_types function) (p_name p)) =
  spec_json_type p.
Proof.
  intros Hnd Hin. unfold json_schema_types.
  rewrite (fold_left_pointwise _
             (set_opt p_name (fun p0 => json_schema_type_of <$> p_annotation p0)))
    by (intros d q; unfold set_opt; destruct (p_annotation q); reflexivity).
  rewrite fold_set_opt_at;
    [|apply NoDup_map_filter; exact Hnd | exact Hin].
  unfold spec_json_type.
  destruct (p_annotation p) as [[]|]; reflexivity.
Qed.

Lemma sig_property_fold function name :
  sig_property (func_sig function) name =
  dict_get
    (fold_left (set_opt p_name (fun p => Some (property_of function p)))
               (parameters_clean function) []) name.
Proof. reflexivity. Qed.

Lemma sig_property_clean function p :
  List.NoDup (map p_name (f_parameters function)) ->
  List.In p (parameters_clean function) ->
  sig_property (func_sig function) (p_name p) = Some (property_of function p).
Proof.
  intros Hnd Hin. rewrite sig_property_fold.
  rewrite fold_set_opt_at; [reflexivity | | exact Hin].
  apply NoDup_map_filter. exact Hnd.
Qed.

Lemma sig_property_absent function name :
  ~ List.In name (map p_name (parameters_clean function)) ->
  sig_property (func_sig function) name = None.
Proof.
  intros Hn. rewrite sig_property_fold, fold_set_opt_other by exact Hn.
  reflexivity.
Qed.

Lemma in_parameters_clean function p :
  List.In p (parameters_clean function) <->
  List.In p (f_parameters function) /\ is_reserved (p_name p) = false.
Proof.
  unfold parameters_clean. rewrite List.filter_In.
  destruct (is_reserved (p_name p)); cbn; intuition congruence.
Qed.

Lemma agent_callable_call_registers role_name_filter function table :
  dict_get (agent_callable_call role_name_filter function table) (f_name function)
  = Some (mkInfo (func_sig function) function
            (has_param WORLD_PARAM_NAME (f_parameters function))
            (has_param AGENT_PARAM_NAME (f_parameters function))
            (has_param AGENT_NAME_PARAM_NAME (f_parameters function))
            role_name_filter).
Proof.
  unfold agent_callable_call. rewrite dict_get_set, String.eqb_refl. reflexivity.
Qed.

(** C8. After registration the schema of the function lists as required
    exactly the non-reserved parameters without default (in declaration
    order), has a property for exactly the non-reserved parameters, and gives
    each of them the JSON type of its annotation: "string" for [str],
    "integer" for [int], "number" for [float], "boolean" for [bool], and
    "string" for any other or no annotation. *)
Theorem agent_callable_schema
  (role_name_filter : string) (function : pyfunction) (table : registry) :
  List.NoDup (map p_name (f_parameters function)) ->
  exists info : function_info,
    dict_get (agent_callable_call role_name_filter function table)
             (f_name function) = Some info /\
    sig_required (fi_sig info) = Some (VList (map VStr (spec_required function))) /\
    (forall p : parameter,
       List.In p (f_parameters function) ->
       is_reserved (p_name p) = false ->
       sig_property_type (fi_sig info) (p_name p) = Some (VStr (spec_json_type p))) /\
    (forall name : string,
       is_Some (sig_property (fi_sig info) name) <->
       exists p, List.In p (f_parameters function) /\ p_name p = name /\
                 is_reserved name = false).
Proof.
  intros Hnd. eexists. split; [apply agent_callable_call_registers|].
  cbn [fi_sig]. split.
  { cbn. rewrite required_parameters_spec. reflexivity. }
  split.
  - intros p Hin Hres.
    assert (Hc : List.In p (parameters_clean function))
      by (apply in_parameters_clean; split; assumption).
    unfold sig_property_type. rewrite sig_property_clean by assumption.
    unfold property_of. cbn [dict_get String.eqb Ascii.eqb Bool.eqb].
    rewrite json_schema_types_spec by assumption. reflexivity.
  - intros name. split.
    + intros Hsome.
      destruct (List.in_dec String.string_dec name
                  (map p_name (parameters_clean function))) as [Hin|Hn].
      * apply List.in_map_iff in Hin as (p & Hp & Hin).
        apply in_parameters_clean in Hin as [Hin Hres].
        exists p. rewrite <- Hp. auto.
      * rewrite sig_property_absent in Hsome by exact Hn.
        destruct Hsome as [? ?]. discriminate.
    + intros (p & Hin & <- & Hres).
      rewrite sig_property_clean; [eauto | exact Hnd |].
      apply in_parameters_clean. split; assumption.
Qed.

End DecoratorFacts.

(** ** Function dispatch *)
Section DispatchFacts.
Context `{Runtime}.
Variable CALLABLE_FUNCTION_TABLE : registry.

Lemma log_log st evs1 evs2 : log (log st evs1) evs2 = log st (evs1 ++ evs2).
Proof. unfold log. cbn. rewrite <- app_assoc. reflexivity. Qed.

Lemma print_in_color_run text color st :
  print_in_color text color st = (Return tt, log st [EvPrint text color newline]).
Proof. reflexivity. Qed.

Lemma args_set_if (b : bool) kvs k v st :
  (if b then args_set (VDict kvs) k v else mret (VDict kvs)) st =
  (Return (VDict (if b then dict_set kvs k v else kvs)), st).
Proof. destruct b; reflexivity. Qed.

Lemma try_except_run {A} (body : M A) handler st :
  try_except body handler st =
  match body st with
  | (Raise e, st') => if is_Exception e then handler e st' else (Raise e, st')
  | r => r
  end.
Proof. reflexivity. Qed.

(** The request names a function that is not registered. *)
Lemma _call_function_unknown self kvs world st n :
  dict_get kvs "name" = Some (VStr n) ->
  dict_get CALLABLE_FUNCTION_TABLE n = None ->
  _call_function CALLABLE_FUNCTION_TABLE self (VDict kvs) world st =
    (Return (error_result (dquote +:+ n +:+ dquote +:+ " is not a callable function.")), st).
Proof.
  intros Hn Ht. unfold _call_function.
  erewrite bind_Return by (unfold getitem; rewrite Hn; reflexivity).
  erewrite bind_Return by reflexivity.
  cbn [hashable negb]. rewrite Ht. reflexivity.
Qed.

(** The request names a registered function and its arguments parse to a
    dictionary: the function is called on the injected arguments. *)
Lemma _call_function_invokes self cls attrs kvs world st n info name a kvs0 :
  dict_get kvs "name" = Some (VStr n) ->
  dict_get CALLABLE_FUNCTION_TABLE n = Some info ->
  heap st !! self = Some (OInst cls attrs) ->
  attrs !! "name" = Some name ->
  dict_get kvs "arguments" = Some a ->
  match a with
  | VNone => Return (VDict [])
  | _ => json_loads a
  end = Return (VDict kvs0) ->
  _call_function CALLABLE_FUNCTION_TABLE (VRef self) (VDict kvs) world st =
    after_call
      (f_call (fi_function info)
         (injected_arguments info (VRef self) world name kvs0)
         (log st (call_banner name (VStr n) (VDict kvs0)))).
Proof.
  intros Hn Ht Hself Hname Ha Hparse. unfold _call_function.
  erewrite bind_Return by (unfold getitem; rewrite Hn; reflexivity).
  erewrite bind_Return by reflexivity.
  cbn [hashable negb]. rewrite Ht. rewrite try_except_run.
  erewrite bind_Return by (eapply getattr_instance; eassumption).
  erewrite bind_Return by apply print_in_color_run.
  cbv zeta.
  erewrite bind_Return by (unfold getitem; rewrite Ha; reflexivity).
  erewrite bind_Return.
  2:{ instantiate (2 := VDict kvs0). unfold lift_outcome.
      destruct a; try (rewrite Hparse; reflexivity).
      injection Hparse as <-. reflexivity. }
  erewrite bind_Return by apply print_in_color_run.
  rewrite log_log.
  erewrite bind_Return by apply args_set_if.
  erewrite bind_Return by apply args_set_if.
  erewrite bind_Return.
  2:{ instantiate (2 := VDict (injected_arguments info (VRef self) world name kvs0)).
      unfold injected_arguments.
      destruct (fi_has_agent_name_param info); [|reflexivity].
      erewrite bind_Return by (eapply getattr_instance; cbn [log heap]; eassumption).
      reflexivity. }
  unfold call_with, after_call, call_banner. cbn [app].
  unfold mbind, M_bind.
  destruct (f_call _ _ _) as [[v|e] st2].
  - destruct v; reflexivity.
  - destruct (is_Exception e); reflexivity.
Qed.

(** Inside the [try], anything that raises an exception deriving from
    [Exception] ends as an error result. The result of the dispatcher is
    therefore never such an exception, once the name has been read. *)
Lemma _call_function_contains self kvs world st n r st' :
  dict_get kvs "name" = Some (VStr n) ->
  _call_function CALLABLE_FUNCTION_TABLE self (VDict kvs) world st = (r, st') ->
  match r with
  | Return _ => True
  | Raise e => is_Exception e = false
  end.
Proof.
  intros Hn. unfold _call_function.
  erewrite bind_Return by (unfold getitem; rewrite Hn; reflexivity).
  erewrite bind_Return by reflexivity.
  cbn [hashable negb].
  destruct (dict_get CALLABLE_FUNCTION_TABLE n) as [info|].
  - rewrite try_except_run.
    match goal with |- context [match ?b st with _ => _ end] =>
      destruct (b st) as [[v|e] st2] end.
    + intros [= <- <-]. exact I.
    + destruct (is_Exception e) eqn:E.
      * intros Hrun. unfold mbind, M_bind, print_in_color, emit, mret, M_ret in Hrun.
        injection Hrun as <- <-. exact I.
      * intros [= <- <-]. exact E.
  - intros [= <- <-]. exact I.
Qed.

End DispatchFacts.

Section ThinkAndAct.
Context `{Runtime}.
Variable CALLABLE_FUNCTION_TABLE : registry.

(** The completion asked for a function call and the dispatcher came back
    with a value: the request and the result are stored and the loop goes on. *)
Lemma act_on_function_call
  self cls attrs m mem kvs fc function_name world st v st2 cls2 attrs2 m2 mem2
  content :
  dict_get kvs "function_call" = Some (VDict fc) ->
  fc <> [] ->
  dict_get fc "name" = Some function_name ->
  heap st !! self = Some (OInst cls attrs) ->
  attrs !! "memory" = Some (VRef m) ->
  heap st !! m = Some (OList mem) ->
  _call_function CALLABLE_FUNCTION_TABLE (VRef self) (VDict fc) world
    (mkState (<[m := OList (mem ++ [VDict kvs])]> (heap st)) (BOTS st) (trace st))
    = (Return v, st2) ->
  heap st2 !! self = Some (OInst cls2 attrs2) ->
  attrs2 !! "memory" = Some (VRef m2) ->
  heap st2 !! m2 = Some (OList mem2) ->
  json_dumps (match v with
              | VNone => VStr "done"
              | r => r
              end) = Return content ->
  act_on CALLABLE_FUNCTION_TABLE (VRef self) world (VDict kvs) st =
    (Return true,
     mkState
       (<[m2 := OList (mem2 ++ [VDict [("role", VStr "function");
                                       ("name", function_name);
                                       ("content", VStr content)]])]> (heap st2))
       (BOTS st2) (trace st2)).
Proof.
  intros Hfc Hne Hname Hself Hmem Hm Hcall Hself2 Hmem2 Hm2 Hdumps.
  unfold act_on.
  erewrite bind_Return by reflexivity.
  rewrite Hfc.
  destruct fc as [|kv fc]; [congruence|].
  change (truthy (heap st) (default VNone (Some (VDict (kv :: fc))))) with true.
  cbv iota.
  erewrite bind_Return by (eapply getattr_instance; eassumption).
  erewrite bind_Return by (apply list_append_list; exact Hm).
  erewrite bind_Return by (unfold getitem; rewrite Hfc; reflexivity).
  erewrite bind_Return by exact Hcall.
  cbv zeta.
  erewrite bind_Return by (eapply getattr_instance; eassumption).
  erewrite bind_Return by (unfold getitem; rewrite Hfc; reflexivity).
  erewrite bind_Return by (unfold getitem; rewrite Hname; reflexivity).
  erewrite bind_Return by (unfold lift_outcome; rewrite Hdumps; reflexivity).
  erewrite bind_Return by (apply list_append_list; exact Hm2).
  reflexivity.
Qed.

End ThinkAndAct.

Section DispatchTheorems.
Context `{Runtime}.
Variable CALLABLE_FUNCTION_TABLE : registry.

(** Inside the [try], before the function is reached: reading or parsing
    the arguments raises, and the exception (deriving from [Exception]) is
    turned into an error result; the function is not called. *)
Lemma _call_function_bad_arguments self cls attrs kvs world st n info name e :
  dict_get kvs "name" = Some (VStr n) ->
  dict_get CALLABLE_FUNCTION_TABLE n = Some info ->
  heap st !! self = Some (OInst cls attrs) ->
  attrs !! "name" = Some name ->
  match dict_get kvs "arguments" with
  | None => Raise (mkExn KeyError (py_repr (VStr "arguments")))
  | Some VNone => Return (VDict [])
  | Some a => json_loads a
  end = Raise e ->
  is_Exception e = true ->
  _call_function CALLABLE_FUNCTION_TABLE (VRef self) (VDict kvs) world st =
    (Return (error_result (exn_str e)),
     log st [EvPrint ("    " +:+ format name +:+ " is calling function "
                      +:+ n +:+ " ...") "blue" newline;
             EvPrint ("        error: " +:+ exn_str e) "red" newline]).
Proof.
  intros Hn Ht Hself Hname Hparse He. unfold _call_function.
  erewrite bind_Return by (unfold getitem; rewrite Hn; reflexivity).
  erewrite bind_Return by reflexivity.
  cbn [hashable negb]. rewrite Ht. rewrite try_except_run.
  erewrite bind_Return by (eapply getattr_instance; eassumption).
  erewrite bind_Return by apply print_in_color_run.
  cbv zeta.
  destruct (dict_get kvs "arguments") as [a|] eqn:Ha.
  - erewrite bind_Return by (unfold getitem; rewrite Ha; reflexivity).
    erewrite bind_Raise.
    2:{ unfold lift_outcome. instantiate (2 := e).
        destruct a; try (rewrite Hparse; reflexivity). discriminate. }
    rewrite He. erewrite bind_Return by apply print_in_color_run.
    rewrite log_log. reflexivity.
  - erewrite bind_Raise
      by (unfold getitem; rewrite Ha; unfold raise; reflexivity).
    injection Hparse as <-. cbn [is_Exception exn_cls exn_str].
    erewrite bind_Return by apply print_in_color_run.
    rewrite log_log. reflexivity.
Qed.

(** C4, as the code has it. When the [arguments] entry of the request is
    [None], the dispatcher takes the empty dictionary, adds the world, the
    agent and the agent's name as the flags of the entry ask, and calls the
    function on it. When the entry is missing, or holds a text that
    [json.loads] rejects, the request is answered with an error result and the
    function is not called. *)
Theorem call_function_None_arguments
  (self : loc) (cls : string) (attrs : gmap string value) (name world : value)
  (kvs : list (string * value)) (st : pystate) (n : string) (info : function_info) :
  heap st !! self = Some (OInst cls attrs) ->
  attrs !! "name" = Some name ->
  dict_get kvs "name" = Some (VStr n) ->
  dict_get CALLABLE_FUNCTION_TABLE n = Some info ->
  (dict_get kvs "arguments" = Some VNone ->
   _call_function CALLABLE_FUNCTION_TABLE (VRef self) (VDict kvs) world st =
     after_call
       (f_call (fi_function info)
          (injected_arguments info (VRef self) world name [])
          (log st (call_banner name (VStr n) (VDict []))))) /\
  (dict_get kvs "arguments" = None ->
   _call_function CALLABLE_FUNCTION_TABLE (VRef self) (VDict kvs) world st =
     (Return (error_result (py_repr (VStr "arguments"))),
      log st [EvPrint ("    " +:+ format name +:+ " is calling function "
                       +:+ n +:+ " ...") "blue" newline;
              EvPrint ("        error: " +:+ py_repr (VStr "arguments"))
                      "red" newline])) /\
  (forall (a : value) (e : exn),
     dict_get kvs "arguments" = Some a ->
     a <> VNone ->
     json_loads a = Raise e ->
     is_Exception e = true ->
     _call_function CALLABLE_FUNCTION_TABLE (VRef self) (VDict kvs) world st =
       (Return (error_result (exn_str e)),
        log st [EvPrint ("    " +:+ format name +:+ " is calling function "
                         +:+ n +:+ " ...") "blue" newline;
                EvPrint ("        error: " +:+ exn_str e) "red" newline])).
Proof.
  intros Hself Hname Hn Ht. split; [|split].
  - intros Ha.
    eapply _call_function_invokes; try eassumption. reflexivity.
  - intros Ha.
    eapply (_call_function_bad_arguments self cls attrs kvs world st n info name
              (mkExn KeyError (py_repr (VStr "arguments")))); try eassumption.
    + rewrite Ha. reflexivity.
    + reflexivity.
  - intros a e Ha Hne Hloads He.
    eapply _call_function_bad_arguments; try eassumption.
    rewrite Ha. destruct a; try exact Hloads. congruence.
Qed.

(** C5, as the code has it. Given a request that carries a name:
    - a name that is not registered is answered with the error result whose
      text is the name between double quotes followed by
      " is not a callable function.", and nothing else happens;
    - the dispatcher never ends with an exception that derives from
      [Exception]: what it lets through derives from [BaseException] only;
    - an exception (deriving from [Exception]) raised while the arguments
      are read or parsed, or by the function itself, becomes the error result
      carrying its text;
    - in the loop of [think_and_act] the request and that error result are
      then stored in memory and the loop goes on. *)
Theorem call_function_contains_exceptions
  (self : loc) (cls : string) (attrs : gmap string value) (name world : value)
  (kvs : list (string * value)) (st : pystate) (n : string) :
  heap st !! self = Some (OInst cls attrs) ->
  attrs !! "name" = Some name ->
  dict_get kvs "name" = Some (VStr n) ->
  (dict_get CALLABLE_FUNCTION_TABLE n = None ->
   _call_function CALLABLE_FUNCTION_TABLE (VRef self) (VDict kvs) world st =
     (Return (error_result (dquote +:+ n +:+ dquote +:+ " is not a callable function.")),
      st)) /\
  (forall r st',
     _call_function CALLABLE_FUNCTION_TABLE (VRef self) (VDict kvs) world st
       = (r, st') ->
     match r with
     | Return _ => True
     | Raise e => is_Exception e = false
     end) /\
  (forall info e,
     dict_get CALLABLE_FUNCTION_TABLE n = Some info ->
     match dict_get kvs "arguments" with
     | None => Raise (mkExn KeyError (py_repr (VStr "arguments")))
     | Some VNone => Return (VDict [])
     | Some a => json_loads a
     end = Raise e ->
     is_Exception e = true ->
     exists st',
       _call_function CALLABLE_FUNCTION_TABLE (VRef self) (VDict kvs) world st =
         (Return (error_result (exn_str e)), st') /\
       heap st' = heap st) /\
  (forall info a kvs0 e st2,
     dict_get CALLABLE_FUNCTION_TABLE n = Some info ->
     dict_get kvs "arguments" = Some a ->
     match a with
     | VNone => Return (VDict [])
     | _ => json_loads a
     end = Return (VDict kvs0) ->
     f_call (fi_function info)
       (injected_arguments info (VRef self) world name kvs0)
       (log st (call_banner name (VStr n) (VDict kvs0))) = (Raise e, st2) ->
     is_Exception e = true ->
     _call_function CALLABLE_FUNCTION_TABLE (VRef self) (VDict kvs) world st =
       (Return (error_result (exn_str e)),
        log st2 [EvPrint ("        error: " +:+ exn_str e) "red" newline])) /\
  (forall message m mem msg st1 st2 cls2 attrs2 m2 mem2 content,
     dict_get message "function_call" = Some (VDict kvs) ->
     heap st1 !! self = Some (OInst cls attrs) ->
     attrs !! "memory" = Some (VRef m) ->
     heap st1 !! m = Some (OList mem) ->
     st = mkState (<[m := OList (mem ++ [VDict message])]> (heap st1))
                  (BOTS st1) (trace st1) ->
     _call_function CALLABLE_FUNCTION_TABLE (VRef self) (VDict kvs) world st =
       (Return (error_result msg), st2) ->
     heap st2 !! self = Some (OInst cls2 attrs2) ->
     attrs2 !! "memory" = Some (VRef m2) ->
     heap st2 !! m2 = Some (OList mem2) ->
     json_dumps (error_result msg) = Return content ->
     act_on CALLABLE_FUNCTION_TABLE (VRef self) world (VDict message) st1 =
       (Return true,
        mkState
          (<[m2 := OList (mem2 ++ [VDict [("role", VStr "function");
                                          ("name", VStr n);
                                          ("content", VStr content)]])]>
             (heap st2))
          (BOTS st2) (trace st2))).
Proof.
  intros Hself Hname Hn. repeat split.
  - intros Ht. apply _call_function_unknown; assumption.
  - intros r st' Hrun. eapply _call_function_contains; eassumption.
  - intros info e Ht Hparse He. eexists. split.
    + eapply _call_function_bad_arguments; eassumption.
    + reflexivity.
  - intros info a kvs0 e st2 Ht Ha Hparse Hcall He.
    erewrite _call_function_invokes by eassumption.
    rewrite Hcall. unfold after_call. rewrite He. reflexivity.
  - intros message m mem msg st1 st2 cls2 attrs2 m2 mem2 content
      Hfc Hself1 Hmem Hm -> Hcall Hself2 Hmem2 Hm2 Hdumps.
    eapply act_on_function_call; try eassumption.
    intros ->. discriminate.
Qed.

End DispatchTheorems.

(** ** The persona loader *)
Section PersonaLoaderFacts.
Context `{Runtime}.

Lemma Agent_call_missing_prompt (args : Agent_args) (st : pystate) (name : value) :
  arg_name args = Some name ->
  arg_prompt args = None ->
  Agent_call args st =
    (Raise (mkExn TypeError
              "Agent.__init__() missing 1 required positional argument: 'prompt'"),
     mkState (<[fresh (dom (heap st)) := OInst "Agent" ∅]> (heap st))
             (BOTS st) (trace st)).
Proof.
  intros Hn Hp. unfold Agent_call.
  erewrite bind_Return by (unfold alloc; reflexivity).
  rewrite Hn, Hp. reflexivity.
Qed.

(** C9. A persona that is cached is returned as cached: the state is left as
    it is, so the definition file is not opened. For a persona that is not
    cached the definition file is opened and parsed, and the construction
    [Agent('bots.<name>', engine=..., function_call_repeats=1,
    ignore_none_function_messages=False)] then raises [TypeError], because
    [Agent.__init__] has a parameter [prompt] without default that the call
    does not pass: no agent is primed, nothing is cached, nothing is
    returned. *)
Theorem load_bot_cached_or_raises (name : string) (engine : value) (st : pystate) :
  (forall cached : value * value,
     BOTS st !! name = Some cached ->
     _load_bot name engine st = (Return cached, st)) /\
  (forall raw_exp_data exp_data : value,
     BOTS st !! name = None ->
     yaml_safe_load (EXPERIENCE_ROOT +:+ "/" +:+ name +:+ ".yaml")
       = Return raw_exp_data ->
     parse_experience_data raw_exp_data = Return exp_data ->
     exists st' : pystate,
       _load_bot name engine st =
         (Raise (mkExn TypeError
                   "Agent.__init__() missing 1 required positional argument: 'prompt'"),
          st') /\
       BOTS st' = BOTS st /\
       trace st' =
         trace st ++ [EvOpen (EXPERIENCE_ROOT +:+ "/" +:+ name +:+ ".yaml")]).
Proof.
  split.
  - intros cached Hc. unfold _load_bot. rewrite Hc. reflexivity.
  - intros raw_exp_data exp_data Hc Hyaml Hparse.
    unfold _load_bot. rewrite Hc. cbv zeta.
    erewrite bind_Return by reflexivity.
    erewrite bind_Return by (unfold lift_outcome; rewrite Hyaml; reflexivity).
    erewrite bind_Return by (unfold lift_outcome; rewrite Hparse; reflexivity).
    erewrite bind_Raise
      by (apply (Agent_call_missing_prompt _ _ (VStr ("bots." +:+ name)));
          reflexivity).
    eexists. split; [reflexivity|]. split; reflexivity.
Qed.

End PersonaLoaderFacts.

(** ** Database.review_info *)
Section ReviewInfoFacts.
Variable ask_avatar : value -> string -> M string.

Lemma sum_bools_from (results : list bool) (n : Z) :
  fold_left (fun n (b : bool) => n + (if b then 1 else 0)) results n =
  n + Z.of_nat (List.length (List.filter (fun b : bool => b) results)).
Proof.
  revert n. induction results as [|b results IH]; intros n; cbn [fold_left].
  - cbn. lia.
  - rewrite IH. destruct b; cbn [List.filter List.length]; lia.
Qed.



Lemma review_fact_shape confirms agent total idx info useful_info st step st' :
  review_fact ask_avatar confirms agent total idx info useful_info st =
    (Return step, st') ->
  fst step = useful_info \/ fst step = useful_info ++ [info].
Proof.
  unfold review_fact. unfold mbind at 1, M_bind at 1.
  destruct (comprehension _ _ st) as [[results|e] st1]; [|discriminate].
  destruct (majority confirms results).
  - cbv zeta. destruct (Nat.ltb idx (total - 1)).
    + unfold mbind, M_bind.
      destruct (comprehension _ _ st1) as [[results2|e] st2]; [|discriminate].
      destruct (majority confirms results2); intros [= <- _]; right; reflexivity.
    + intros [= <- _]. right. reflexivity.
  - intros [= <- _]. left. reflexivity.
Qed.

Lemma review_loop_sublist confirms agent total idx rest useful_info st result st' :
  review_loop ask_avatar confirms agent total idx rest useful_info st =
    (Return result, st') ->
  exists sub, result = useful_info ++ sub /\ sublist sub rest.
Proof.
  revert idx useful_info st.
  induction rest as [|info rest IH]; intros idx useful_info st.
  - intros [= <- _]. exists []. rewrite app_nil_r. split; [reflexivity|constructor].
  - cbn [review_loop]. unfold mbind at 1, M_bind at 1.
    destruct (review_fact ask_avatar confirms agent total idx info useful_info st)
      as [[step|e] st1] eqn:Hfact; [|discriminate].
    pose proof (review_fact_shape _ _ _ _ _ _ _ _ _ Hfact) as Hshape.
    destruct (snd step).
    + intros [= <- _]. destruct Hshape as [-> | ->].
      * exists []. rewrite app_nil_r. split; [reflexivity|apply sublist_nil_l].
      * exists [info]. split; [reflexivity|].
        apply sublist_skip, sublist_nil_l.
    + intros Hrun. apply IH in Hrun as (sub & -> & Hsub).
      destruct Hshape as [-> | ->].
      * exists sub. split; [reflexivity|]. apply sublist_cons, Hsub.
      * exists (info :: sub). rewrite <- app_assoc. split; [reflexivity|].
        apply sublist_skip, Hsub.
Qed.

Hypothesis ask_avatar_returns :
  forall agent content st, exists reply st',
    ask_avatar agent content st = (Return reply, st').








End ReviewInfoFacts.


(** ** The console loop *)
Section QuietFacts.
Context `{Runtime}.

Lemma quiet_ret {A} (a : A) : quiet (mret a).
Proof. intros st r st' [= <- <-]. auto. Qed.

Lemma quiet_raise {A} cls msg : quiet (raise (A := A) cls msg).
Proof. intros st r st' [= <- <-]. auto. Qed.

Lemma quiet_bind {A B} (m : M A) (k : A -> M B) :
  quiet m -> (forall a, quiet (k a)) -> quiet (m ≫= k).
Proof.
  intros Hm Hk st r st'. unfold mbind, M_bind.
  destruct (m st) as [[a|e] st1] eqn:E.
  - intros Hrun. destruct (Hm _ _ _ E) as (? & ? & ?).
    destruct (Hk a _ _ _ Hrun) as (? & ? & ?). repeat split; congruence.
  - intros [= <- <-]. exact (Hm _ _ _ E).
Qed.

Lemma quiet_print text color : quiet (print_in_color text color).
Proof.
  intros st r st' [= <- <-]. cbn. repeat split.
  rewrite completions_app. cbn. lia.
Qed.

Lemma quiet_getattr o a : quiet (getattr o a).
Proof.
  intros st r st'. unfold getattr. munfold.
  destruct o; try (intros [= <- <-]; auto).
  destruct (heap st !! l) as [[| |cls attrs]|]; try (intros [= <- <-]; auto).
  destruct (attrs !! a); [intros [= <- <-]; auto|].
  destruct (class_dict cls !! a); intros [= <- <-]; auto.
Qed.

Lemma quiet_getitem o k : quiet (getitem o k).
Proof.
  intros st r st'. unfold getitem. munfold.
  destruct o; try (intros [= <- <-]; auto).
  - destruct (dict_get kvs k); intros [= <- <-]; auto.
  - destruct (heap st !! l) as [[|d|]|]; try (intros [= <- <-]; auto).
    destruct (d !! k); intros [= <- <-]; auto.
Qed.

Lemma quiet_list_items xs : quiet (list_items xs).
Proof.
  intros st r st'. unfold list_items. munfold.
  destruct xs; try (intros [= <- <-]; auto).
  destruct (heap st !! l) as [[| |]|]; intros [= <- <-]; auto.
Qed.

Lemma quiet_comprehension {A B} (f : A -> M B) (xs : list A) :
  (forall x, quiet (f x)) -> quiet (comprehension f xs).
Proof.
  intros Hf. induction xs as [|x xs IH]; cbn [comprehension].
  - apply quiet_ret.
  - apply quiet_bind; [apply Hf|]. intros y.
    apply quiet_bind; [exact IH|]. intros ys. apply quiet_ret.
Qed.

Lemma quiet_print_full_memory self : quiet (print_full_memory self).
Proof.
  unfold print_full_memory.
  apply quiet_bind; [apply quiet_getattr|]. intros memory.
  apply quiet_bind; [apply quiet_list_items|]. intros messages.
  apply quiet_bind; [|intros; apply quiet_ret].
  apply quiet_comprehension. intros im.
  apply quiet_bind; [apply quiet_getitem|]. intros role.
  apply quiet_bind; [apply quiet_getitem|]. intros content.
  apply quiet_bind; [apply quiet_print|]. intros _.
  destruct (snd im); try apply quiet_ret.
  destruct (dict_get kvs "function_call"); [apply quiet_print | apply quiet_ret].
Qed.

End QuietFacts.

Section ConsoleLoopFacts.
Context `{Runtime}.
Variable CALLABLE_FUNCTION_TABLE : registry.

Lemma _callable_function_descriptions_run self cls attrs role st :
  heap st !! self = Some (OInst cls attrs) ->
  attrs !! "role" = Some (VStr role) ->
  _callable_function_descriptions CALLABLE_FUNCTION_TABLE (VRef self) st =
    (Return (visible_sigs CALLABLE_FUNCTION_TABLE role), st).
Proof.
  intros Hself Hrole. unfold _callable_function_descriptions, visible_sigs.
  assert (G : forall table (acc : M (list value)) ds0,
             acc st = (Return ds0, st) ->
             fold_left
               (fun (acc : M (list value)) (entry : string * function_info) =>
                  ds ← acc;
                  role ← getattr (VRef self) "role";
                  match role with
                  | VStr r =>
                      if negb (re_match (fi_role_name_filter (snd entry)) r)
                      then mret ds
                      else mret (ds ++ [fi_sig (snd entry)])
                  | _ => raise TypeError "expected string or bytes-like object"
                  end) table acc st =
             (Return
                (ds0 ++ map (fun entry : string * function_info => fi_sig (snd entry))
                          (List.filter
                             (fun entry : string * function_info =>
                                re_match (fi_role_name_filter (snd entry)) role)
                             table)), st)).
  { induction table as [|entry table IH]; intros acc ds0 Hacc; cbn [fold_left].
    - cbn. rewrite app_nil_r. exact Hacc.
    - cbn [List.filter].
      destruct (re_match (fi_role_name_filter (snd entry)) role) eqn:E.
      + rewrite (IH _ (ds0 ++ [fi_sig (snd entry)])).
        * cbn [map]. rewrite <- app_assoc. reflexivity.
        * erewrite bind_Return by exact Hacc.
          erewrite bind_Return by (eapply getattr_instance; eassumption).
          cbv beta iota. rewrite E. reflexivity.
      + apply IH.
        erewrite bind_Return by exact Hacc.
        erewrite bind_Return by (eapply getattr_instance; eassumption).
        cbv beta iota. rewrite E. reflexivity. }
  apply (G CALLABLE_FUNCTION_TABLE (mret []) []). reflexivity.
Qed.

(** A request is logged whatever the service answers. *)
Lemma stream_chat_completion_requests engine messages print_output kwargs st :
  exists r st' out,
    stream_chat_completion engine messages print_output kwargs st = (r, st') /\
    heap st' = heap st /\ BOTS st' = BOTS st /\
    trace st' = trace st ++ EvCompletion engine messages kwargs :: out /\
    completions out = 0%nat.
Proof.
  destruct (chat_completion (completions (trace st)) engine messages kwargs)
    as [resp|e] eqn:E.
  - destruct (stream_chat_completion_run engine messages print_output kwargs st
                resp E) as (out & Hrun & Hout).
    eexists _, _, out. split; [exact Hrun|]. cbn. auto.
  - eexists _, _, []. split.
    + unfold stream_chat_completion.
      erewrite bind_Return by reflexivity.
      erewrite bind_Return by reflexivity.
      erewrite bind_Raise by (unfold lift_outcome; rewrite E; reflexivity).
      reflexivity.
    + cbn. auto.
Qed.

(** The first half of a think-act pass sends exactly one completion request,
    over the memory as it stands, and leaves the heap alone. *)
Lemma next_message_requests self m attrs mem ea st :
  is_agent (heap st) self m attrs mem ea ->
  exists r st' banner engine kwargs out,
    next_message CALLABLE_FUNCTION_TABLE (VRef self) st = (r, st') /\
    heap st' = heap st /\ BOTS st' = BOTS st /\
    trace st' =
      trace st ++ EvPrint banner "yellow" newline
                  :: EvCompletion engine mem kwargs :: out /\
    completions out = 0%nat.
Proof.
  intros (Hself & [name Hname] & [role Hrole] & [engine Hengine] & Hmem &
          [ignore Hign] & Hea & Hm & Hcls).
  unfold next_message.
  erewrite bind_Return by (eapply getattr_instance; eassumption).
  erewrite bind_Return by apply print_in_color_run.
  erewrite bind_Return
    by (eapply _callable_function_descriptions_run; cbn [log heap]; eassumption).
  erewrite bind_Return by (eapply getattr_instance; cbn [log heap]; eassumption).
  erewrite bind_Return by (eapply getattr_instance; cbn [log heap]; eassumption).
  erewrite bind_Return by (apply list_items_list; cbn [log heap]; exact Hm).
  erewrite bind_Return by (eapply getattr_instance; cbn [log heap]; eassumption).
  erewrite bind_Return by reflexivity.
  erewrite bind_Return
    by (eapply getattr_class; cbn [log heap]; [exact Hself | exact Hea | reflexivity]).
  erewrite bind_Return
    by (unfold dict_items; erewrite bind_Return by reflexivity;
        cbn [log heap]; rewrite Hcls; reflexivity).
  match goal with
  | |- context [if ?b then stream_chat_completion ?e ?ms ?p ?k1 else
                  stream_chat_completion ?e ?ms ?p ?k2] =>
      destruct (stream_chat_completion_requests e ms p
                  (if b then k1 else k2)
                  (log st [EvPrint (format name +:+ " >> ") "yellow" newline]))
        as (r & st' & out & Hrun & Hh & HB & Ht & Hout);
      exists r, st', (format name +:+ " >> "), e, (if b then k1 else k2), out;
      destruct b
  end;
    (split; [exact Hrun|]); cbn [log heap BOTS trace] in *;
    rewrite Ht, <- app_assoc; auto.
Qed.

Lemma think_and_act_unfold self cls attrs world n st :
  heap st !! self = Some (OInst cls attrs) ->
  attrs !! "function_call_repeats" = Some (VInt n) ->
  0 < n ->
  think_and_act CALLABLE_FUNCTION_TABLE (VRef self) world st =
    (_ ← (new_message ← next_message CALLABLE_FUNCTION_TABLE (VRef self);
          act_on CALLABLE_FUNCTION_TABLE (VRef self) world new_message ≫=
          fun go_on : bool =>
            if go_on
            then think_and_act_loop CALLABLE_FUNCTION_TABLE
                   (Nat.pred (Z.to_nat n)) (VRef self) world
            else mret tt);
     mret VNone) st.
Proof.
  intros Hself Hn Hpos. unfold think_and_act.
  erewrite bind_Return by (eapply getattr_instance; eassumption).
  cbv beta iota.
  destruct (Z.to_nat n) as [|k] eqn:E; [lia|].
  cbn [think_and_act_loop Nat.pred]. unfold think_and_act_body.
  unfold mbind, M_bind.
  destruct (next_message _ _ st) as [[msg|e] st1]; reflexivity.
Qed.

(** C3, as the code has it. The line "::mem" prints the memory and the loop
    goes on to the next line: no completion request is sent and the heap is
    as before. A line that is blank after stripping is not stored as a user
    message, but the think-act cycle still runs: it opens with one completion
    request over the memory as it stands. *)
Theorem console_loop_mem_and_blank
  (self m : loc) (attrs : gmap string value) (mem : list value)
  (ea : gmap string value) (stdin : list string) (st : pystate) :
  is_agent (heap st) self m attrs mem ea ->
  (exists r st1,
     print_full_memory (VRef self) (log st [EvInput ">> "]) = (r, st1) /\
     heap st1 = heap st /\
     completions (trace st1) = completions (trace st) /\
     console_loop CALLABLE_FUNCTION_TABLE (VRef self) ("::mem" :: stdin) st =
       match r with
       | Return _ => console_loop CALLABLE_FUNCTION_TABLE (VRef self) stdin st1
       | Raise e => (Raise e, st1)
       end) /\
  (forall (user_message : string) (n : Z),
     str_strip user_message = "" ->
     is_quit user_message = false ->
     user_message <> "::mem" ->
     attrs !! "function_call_repeats" = Some (VInt n) ->
     0 < n ->
     console_loop CALLABLE_FUNCTION_TABLE (VRef self) (user_message :: stdin) st =
       (_ ← think_and_act CALLABLE_FUNCTION_TABLE (VRef self) VNone;
        console_loop CALLABLE_FUNCTION_TABLE (VRef self) stdin)
         (log st [EvInput ">> "]) /\
     think_and_act CALLABLE_FUNCTION_TABLE (VRef self) VNone
       (log st [EvInput ">> "]) =
       (_ ← (new_message ← next_message CALLABLE_FUNCTION_TABLE (VRef self);
             act_on CALLABLE_FUNCTION_TABLE (VRef self) VNone new_message ≫=
             fun go_on : bool =>
               if go_on
               then think_and_act_loop CALLABLE_FUNCTION_TABLE
                      (Nat.pred (Z.to_nat n)) (VRef self) VNone
               else mret tt);
        mret VNone) (log st [EvInput ">> "]) /\
     exists r1 st1 banner engine kwargs out,
       next_message CALLABLE_FUNCTION_TABLE (VRef self) (log st [EvInput ">> "])
         = (r1, st1) /\
       heap st1 = heap st /\
       trace st1 =
         trace st ++ EvInput ">> " :: EvPrint banner "yellow" newline
                     :: EvCompletion engine mem kwargs :: out /\
       completions (trace st1) = S (completions (trace st))).
Proof.
  intros Hag. split.
  - destruct (print_full_memory (VRef self) (log st [EvInput ">> "]))
      as [r st1] eqn:E.
    destruct (quiet_print_full_memory _ _ _ _ E) as (Hh & _ & Hc).
    exists r, st1. split; [reflexivity|]. split; [exact Hh|]. split.
    + rewrite Hc. cbn [log trace]. rewrite completions_app. cbn. lia.
    + cbn [console_loop].
      erewrite bind_Return by reflexivity.
      change (is_quit "::mem") with false. cbv iota.
      change (String.eqb "::mem" "::mem") with true. cbv iota.
      unfold mbind at 1, M_bind at 1.
      change (mkState (heap st) (BOTS st) (trace st ++ [EvInput ">> "]))
        with (log st [EvInput ">> "]).
      rewrite E. destruct r; reflexivity.
  - intros user_message n Hstrip Hquit Hmem Hn Hpos.
    assert (Hag' : is_agent (heap (log st [EvInput ">> "])) self m attrs mem ea)
      by exact Hag.
    split; [|split].
    + cbn [console_loop].
      erewrite bind_Return by reflexivity.
      rewrite Hquit.
      destruct (String.eqb_spec user_message "::mem") as [E|_]; [congruence|].
      rewrite Hstrip. change (negb (String.eqb "" "")) with false. cbv iota.
      erewrite bind_Return by reflexivity. reflexivity.
    + destruct Hag as (Hself & _).
      eapply think_and_act_unfold; [exact Hself | exact Hn | exact Hpos].
    + destruct (next_message_requests self m attrs mem ea _ Hag')
        as (r1 & st1 & banner & engine & kwargs & out & Hrun & Hh & _ & Ht & Hout).
      exists r1, st1, banner, engine, kwargs, out.
      split; [exact Hrun|]. split; [exact Hh|].
      cbn [log trace] in Ht. rewrite <- app_assoc in Ht. cbn [app] in Ht.
      split; [exact Ht|].
      rewrite Ht, completions_app. cbn. rewrite Hout. lia.
Qed.

End ConsoleLoopFacts.

(** ** The theorems at work on the scripted environment *)
Section PlainExamples.
#[local] Existing Instance plain_runtime.

Lemma example_state_agent :
  heap example_state !! example_agent = Some (OInst "Agent" example_attrs).
Proof. vm_compute. reflexivity. Qed.

Lemma example_state_memory :
  heap example_state !! example_memory = Some (OList example_mem).
Proof. vm_compute. reflexivity. Qed.

Lemma example_state_engine_args :
  heap example_state !! loc_Agent_engine_args =
  Some (ODict {[ "temperature" := VFloat 1%float ]}).
Proof. vm_compute. reflexivity. Qed.

Lemma example_state_is_agent :
  is_agent (heap example_state) example_agent example_memory example_attrs
    example_mem {[ "temperature" := VFloat 1%float ]}.
Proof.
  unfold is_agent.
  split; [exact example_state_agent|].
  split; [eexists; reflexivity|].
  split; [eexists; reflexivity|].
  split; [eexists; reflexivity|].
  split; [reflexivity|].
  split; [eexists; reflexivity|].
  split; [reflexivity|].
  split; [exact example_state_memory | exact example_state_engine_args].
Qed.

(** C1 on the example agent, with the message echoed. *)
Lemma receive_message_appends_and_returns_None_witness :
  exists out : list event,
    receive_message (VRef example_agent)
      (VDict [("role", VStr "user"); ("content", VStr "hi")]) true example_state =
      (Return VNone,
       mkState (<[example_memory :=
                    OList (example_mem
                           ++ [VDict [("role", VStr "user"); ("content", VStr "hi")]])]>
                  (heap example_state))
               (BOTS example_state) (trace example_state ++ out)) /\
    (true = false -> out = []) /\
    Return VNone <> Return (VRef example_agent).
Proof.
  apply (receive_message_appends_and_returns_None
           example_state example_agent example_memory example_attrs example_mem
           (VStr "Bot")).
  - vm_compute. reflexivity.
  - reflexivity.
  - reflexivity.
  - vm_compute. reflexivity.
  - intros _. eexists. reflexivity.
Defined.

(** C2 on two agents built on the freshly imported module: the temperature
    set through the first is the temperature read through the second. *)
Lemma Agent_engine_args_shared_witness :
  exists (a b : value) (st1 st2 st3 : pystate),
    Agent_call (agent_args (VStr "a") (VStr "p")) module_state = (Return a, st1) /\
    Agent_call (agent_args (VStr "b") (VStr "q")) st1 = (Return b, st2) /\
    a <> b /\
    (ea ← getattr a "engine_args";
     setitem ea "temperature" (VFloat 0.5%float)) st2 = (Return tt, st3) /\
    (eb ← getattr b "engine_args";
     getitem eb "temperature") st3 =
      (Return (VFloat 0.5%float), st3).
Proof.
  apply (Agent_engine_args_shared module_state
           {[ "temperature" := VFloat 1%float ]}).
  vm_compute. reflexivity.
Defined.

(** C4 on the example table: [ping] is called with the agent's name added
    to the empty arguments. *)
Lemma call_function_None_arguments_witness :
  _call_function example_table (VRef example_agent)
    (VDict [("name", VStr "ping"); ("arguments", VNone)]) VNone example_state =
  (Return (VDict [("agent_name", VStr "Bot")]),
   log example_state
     [EvPrint "    Bot is calling function ping ..." "blue" newline;
      EvPrint "        with arguments <object>" "blue" newline;
      EvPrint "ping" "" newline;
      EvPrint "        response: <object>" "blue" newline]).
Proof.
  destruct (call_function_None_arguments example_table
              example_agent "Agent" example_attrs (VStr "Bot") VNone
              [("name", VStr "ping"); ("arguments", VNone)] example_state "ping"
              (mkInfo (func_sig ping) ping
                 false false true ".*"))
    as (Hcall & _ & _).
  - vm_compute. reflexivity.
  - reflexivity.
  - reflexivity.
  - reflexivity.
  - rewrite Hcall by reflexivity. vm_compute. reflexivity.
Defined.

(** C4 refuted as stated: without an [arguments] entry, and with the empty
    text as arguments, [ping] is not called and an error result comes back. *)
Lemma call_function_absent_arguments_counterexample :
  _call_function example_table (VRef example_agent)
    (VDict [("name", VStr "ping")]) VNone example_state =
  (Return (error_result "'arguments'"),
   log example_state
     [EvPrint "    Bot is calling function ping ..." "blue" newline;
      EvPrint "        error: 'arguments'" "red" newline]) /\
  _call_function example_table (VRef example_agent)
    (VDict [("name", VStr "ping"); ("arguments", VStr "")]) VNone example_state =
  (Return (error_result "Expecting value: line 1 column 1 (char 0)"),
   log example_state
     [EvPrint "    Bot is calling function ping ..." "blue" newline;
      EvPrint "        error: Expecting value: line 1 column 1 (char 0)"
              "red" newline]).
Proof. vm_compute. split; reflexivity. Qed.

(** C5 on the example table: a name that is not registered. *)
Lemma call_function_contains_exceptions_witness :
  _call_function example_table (VRef example_agent)
    (VDict [("name", VStr "nosuch"); ("arguments", VStr "{}")]) VNone
    example_state =
  (Return (error_result
             (dquote +:+ "nosuch" +:+ dquote +:+ " is not a callable function.")),
   example_state).
Proof.
  destruct (call_function_contains_exceptions
              example_table example_agent "Agent" example_attrs (VStr "Bot") VNone
              [("name", VStr "nosuch"); ("arguments", VStr "{}")] example_state
              "nosuch") as (Hunknown & _).
  - vm_compute. reflexivity.
  - reflexivity.
  - reflexivity.
  - apply Hunknown. reflexivity.
Defined.

(** C5 refuted as stated: [leave] raises [SystemExit], which [except
    Exception] lets through; a request without a name raises [KeyError];
    and the text for an unknown name has the name between double quotes. *)
Lemma call_function_raises_counterexample :
  fst (_call_function example_table (VRef example_agent)
         (VDict [("name", VStr "leave"); ("arguments", VStr "{}")]) VNone
         example_state) = Raise (mkExn (BaseOnly "SystemExit") "0") /\
  fst (_call_function example_table (VRef example_agent)
         (VDict [("arguments", VStr "{}")]) VNone example_state) =
    Raise (mkExn KeyError "'name'") /\
  fst (_call_function example_table (VRef example_agent)
         (VDict [("name", VStr "nosuch")]) VNone example_state) =
    Return (error_result
              (dquote +:+ "nosuch" +:+ dquote +:+ " is not a callable function.")) /\
  dquote +:+ "nosuch" +:+ dquote +:+ " is not a callable function." <>
    "nosuch is not a callable function.".
Proof. vm_compute. repeat split; try reflexivity. discriminate. Qed.


(** Three yes of five for every fact: every fact is kept. Two of five:
    none is. *)
Example review_info_three_of_five :
  fst (comprehension
         (fun _ : nat =>
            voting_avatar 3 (VRef example_agent)
              (usefulness_prompt 7 0 "Alice is born in 1990."))
         (seq 0 num_confirms) example_state) =
    Return ["Yes."; "Yes."; "Yes."; "No."; "No."] /\
  fst (review_info (voting_avatar 3) (VRef example_agent) example_state) =
    Return info_list.
Proof. vm_compute. split; reflexivity. Qed.

Example review_info_two_of_five :
  fst (comprehension
         (fun _ : nat =>
            voting_avatar 2 (VRef example_agent)
              (usefulness_prompt 7 0 "Alice is born in 1990."))
         (seq 0 num_confirms) example_state) =
    Return ["Yes."; "Yes."; "No."; "No."; "No."] /\
  fst (review_info (voting_avatar 2) (VRef example_agent) example_state) =
    Return [].
Proof. vm_compute. split; reflexivity. Qed.

Example review_info_example :
  fst (review_info example_ask_avatar (VRef example_agent) example_state) =
  Return ["Alice is born in 1990."; "Alice is in Kansas."; "Alice likes David."].
Proof. vm_compute. reflexivity. Qed.

(** Two of five: rejected; three of five: accepted. *)
Example majority_two_three :
  majority 5 (map says_yes ["yes"; "Yes."; "no"; "No"; "maybe"]) = false /\
  majority 5 (map says_yes ["yes"; "Yes."; "no"; "Y"; "maybe"]) = true.
Proof. vm_compute. split; reflexivity. Qed.

(** C8 on [def f(a: str, b: int = 3)]. *)
Lemma agent_callable_schema_witness :
  exists info : function_info,
    dict_get (agent_callable_call ".*" example_f [])
             (f_name example_f) = Some info /\
    sig_required (fi_sig info) = Some (VList (map VStr (spec_required example_f))) /\
    (forall p : parameter,
       List.In p (f_parameters example_f) ->
       is_reserved (p_name p) = false ->
       sig_property_type (fi_sig info) (p_name p) = Some (VStr (spec_json_type p))) /\
    (forall name : string,
       is_Some (sig_property (fi_sig info) name) <->
       exists p, List.In p (f_parameters example_f) /\ p_name p = name /\
                 is_reserved name = false).
Proof.
  apply (agent_callable_schema).
  cbn. repeat constructor; cbn; intuition discriminate.
Defined.

Example example_f_schema :
  fi_sig <$> dict_get (agent_callable_call ".*"
                         example_f []) "f" =
  Some (VDict
          [("name", VStr "f");
           ("description", VStr "Doc. Args: a: the first b: the second");
           ("parameters",
            VDict
              [("type", VStr "object");
               ("properties",
                VDict
                  [("a", VDict [("type", VStr "string"); ("description", VStr "")]);
                   ("b", VDict [("type", VStr "integer"); ("description", VStr "")])]);
               ("required", VList [VStr "a"])])]).
Proof. vm_compute. reflexivity. Qed.

(** C9 on the example state, where no persona is cached. *)
Lemma load_bot_cached_or_raises_witness :
  exists st' : pystate,
    _load_bot "rephrase" (VStr "gpt-3.5-turbo")
      example_state =
      (Raise (mkExn TypeError
                "Agent.__init__() missing 1 required positional argument: 'prompt'"),
       st') /\
    BOTS st' = BOTS example_state /\
    trace st' =
      trace example_state
      ++ [EvOpen (EXPERIENCE_ROOT +:+ "/" +:+ "rephrase" +:+ ".yaml")].
Proof.
  destruct (load_bot_cached_or_raises "rephrase"
              (VStr "gpt-3.5-turbo") example_state) as [_ Hraise].
  apply (Hraise (VDict [("template", VDict [("user", VStr "{input}")])])
                (VList [])); reflexivity.
Defined.

(** C10 on the two worlds of the example state. *)
Lemma World_agents_shared_witness :
  exists st' : pystate,
    add (VRef example_world) (VRef example_agent)
      example_state = (Return VNone, st') /\
    (ags ← getattr (VRef example_world2) "agents";
     getitem ags "Bot") st' =
      (Return (VRef example_agent), st') /\
    getattr (VRef example_world) "agents" st' =
      (Return (VRef loc_World_agents), st') /\
    getattr (VRef example_world2) "agents" st' =
      (Return (VRef loc_World_agents), st') /\
    heap st' !! example_world = Some (OInst "World" ∅) /\
    heap st' !! example_world2 = Some (OInst "World" ∅).
Proof.
  destruct (World_agents_shared example_state
              example_world example_world2 ∅ ∅ ∅) as [Hadd _].
  - vm_compute. reflexivity.
  - reflexivity.
  - vm_compute. reflexivity.
  - reflexivity.
  - vm_compute. reflexivity.
  - apply (Hadd example_agent example_attrs "Bot").
    + vm_compute. reflexivity.
    + reflexivity.
Defined.

End PlainExamples.

Section HelloExamples.
#[local] Existing Instance hello_runtime.

(** C3 on the example agent: a line of three spaces. *)
Lemma console_loop_mem_and_blank_witness :
  exists r1 st1 banner engine kwargs out,
    next_message example_table
      (VRef example_agent) (log example_state [EvInput ">> "]) = (r1, st1) /\
    heap st1 = heap example_state /\
    trace st1 =
      trace example_state ++ EvInput ">> " :: EvPrint banner "yellow" newline
        :: EvCompletion engine example_mem kwargs :: out /\
    completions (trace st1) = S (completions (trace example_state)).
Proof.
  destruct (console_loop_mem_and_blank
              example_table example_agent example_memory example_attrs
              example_mem {[ "temperature" := VFloat 1%float ]}
              ["quit"] example_state example_state_is_agent) as [_ Hblank].
  destruct (Hblank "   " 1) as (_ & _ & Hreq).
  - vm_compute. reflexivity.
  - vm_compute. reflexivity.
  - discriminate.
  - reflexivity.
  - lia.
  - exact Hreq.
Defined.

(** C3 refuted as stated: a blank line, then "quit". One completion request
    is sent for the blank line, and the reply is stored in memory. *)
Lemma console_loop_blank_line_counterexample :
  str_strip "   " = "" /\
  completions (trace example_state) = 0%nat /\
  completions
    (trace (snd (console_loop example_table
                   (VRef example_agent) ["   "; "quit"] example_state))) = 1%nat /\
  heap (snd (console_loop example_table
               (VRef example_agent) ["   "; "quit"] example_state))
    !! example_memory =
  Some (OList (example_mem
               ++ [VDict [("role", VStr "assistant"); ("content", VStr "Hello")]])).
Proof. vm_compute. repeat split; reflexivity. Qed.

End HelloExamples.

Section CallExamples.
#[local] Existing Instance call_runtime.

(** C7 on that stream. *)
Lemma stream_chat_completion_accumulates_witness :
  exists (kvs : list (string * value)) (st' : pystate),
    stream_chat_completion (VStr "gpt-4")
      example_mem false [] example_state = (Return (VDict kvs), st') /\
    dict_get kvs "content" =
      Some (VStr (spec_content "" (content_fragments call_stream))) /\
    spec_content "" (content_fragments call_stream) =
      joined (drop_leading_blank (omap id (content_fragments call_stream))) /\
    (forall key : string,
       function_call_field (VDict kvs) key =
       match fc_fragments key call_stream with
       | [] => None
       | _ :: _ => Some (VStr (joined (fc_fragments key call_stream)))
       end).
Proof.
  apply (stream_chat_completion_accumulates).
  vm_compute. reflexivity.
Defined.

Example call_stream_message :
  fst (stream_chat_completion (VStr "gpt-4")
         example_mem false [] example_state) =
  Return (VDict [("role", VStr "assistant");
                 ("content", VStr ("Hel" +:+ two_newlines +:+ "lo"));
                 ("function_call",
                  VDict [("name", VStr "rephrase"); ("arguments", VStr "{}")])]).
Proof. vm_compute. reflexivity. Qed.

End CallExamples.

(** ** Further properties of the voting helpers *)

Lemma sum_bools_true_count (results : list bool) :
  sum_bools results =
  Z.of_nat (List.length (List.filter (fun b : bool => b) results)).
Proof. unfold sum_bools. rewrite sum_bools_from. lia. Qed.

(** X2. [sum(results) >= confirms // 2 + 1] is a strict majority: it holds
    exactly when more than half of [confirms] results are true, whatever
    [confirms] is (with four probes three are needed, with five three, with
    six four). *)
Theorem majority_is_strict_majority (confirms : nat) (results : list bool) :
  majority confirms results = true <->
  (confirms < 2 * List.length (List.filter (fun b : bool => b) results))%nat.
Proof.
  unfold majority. rewrite sum_bools_true_count, Z.leb_le.
  set (c := List.length (List.filter (fun b : bool => b) results)).
  pose proof (Z.div_mod (Z.of_nat confirms) 2 ltac:(lia)) as Hdm.
  pose proof (Z.mod_pos_bound (Z.of_nat confirms) 2 ltac:(lia)) as Hb.
  split; intros Hc; lia.
Qed.

Lemma lower_char_y (c : ascii) :
  Ascii.eqb (lower_char c) "y" = Ascii.eqb c "y" || Ascii.eqb c "Y".
Proof.
  destruct c as [[] [] [] [] [] [] [] []]; vm_compute; reflexivity.
Qed.

(** X3. A reply counts as a yes exactly when its first character is "y" or
    "Y"; the empty reply does not. *)
Theorem says_yes_first_character (reply : string) :
  says_yes reply = true <->
  exists rest : string, reply = String "y" rest \/ reply = String "Y" rest.
Proof.
  unfold says_yes. destruct reply as [|c rest].
  - cbn. split; [discriminate|]. intros (r & [E|E]); discriminate.
  - cbn [str_lower String.prefix].
    destruct (Ascii.ascii_dec "y" (lower_char c)) as [E|E].
    + assert (Hy : Ascii.eqb (lower_char c) "y" = true)
        by (rewrite <- E; reflexivity).
      rewrite lower_char_y in Hy.
      assert (Hp : String.prefix "" (str_lower rest) = true)
        by (destruct (str_lower rest); reflexivity).
      rewrite Hp. split; [|reflexivity]. intros _.
      exists rest. apply orb_true_iff in Hy as [Hy|Hy];
        apply Ascii.eqb_eq in Hy; subst c; auto.
    + split; [discriminate|].
      intros (r & [Er|Er]); injection Er as -> _; exfalso; apply E; reflexivity.
Qed.

(** ** Further properties of the registry *)
Section RegistryFacts.
Context `{Runtime}.

Lemma dict_set_keys {A} (d : list (string * A)) k v :
  map fst (dict_set d k v) =
  if is_Some_dec (dict_get d k) then map fst d else map fst d ++ [k].
Proof.
  induction d as [|[k0 v0] d IH]; cbn.
  - reflexivity.
  - destruct (String.eqb_spec k0 k) as [->|Hk]; cbn.
    + destruct (is_Some_dec (Some v0)) as [_|Hn]; [reflexivity|].
      exfalso. apply Hn. eauto.
    + rewrite IH. destruct (is_Some_dec (dict_get d k)); reflexivity.
Qed.

Lemma has_param_iff name parameters :
  has_param name parameters = true <->
  exists p, List.In p parameters /\ p_name p = name.
Proof.
  unfold has_param. rewrite List.existsb_exists.
  split; intros (p & Hin & Hp); exists p; split; try exact Hin.
  - apply String.eqb_eq. exact Hp.
  - apply String.eqb_eq. exact Hp.
Qed.

(** X4. Registration is keyed by the function's name. The table afterwards
    holds, under that name, the function with its role filter and with the
    three flags telling whether it declares a parameter named [self], [agent]
    and [agent_name]; every other name reads as before; a name that was
    registered keeps its place in the table, a new one goes last. *)
Theorem agent_callable_call_registry
  (role_name_filter : string) (function : pyfunction) (table : registry) :
  (exists info : function_info,
     dict_get (agent_callable_call role_name_filter function table)
              (f_name function) = Some info /\
     fi_function info = function /\
     fi_role_name_filter info = role_name_filter /\
     (fi_has_world_param info = true <->
      exists p, List.In p (f_parameters function) /\ p_name p = "self") /\
     (fi_has_agent_param info = true <->
      exists p, List.In p (f_parameters function) /\ p_name p = "agent") /\
     (fi_has_agent_name_param info = true <->
      exists p, List.In p (f_parameters function) /\ p_name p = "agent_name")) /\
  (forall name : string,
     name <> f_name function ->
     dict_get (agent_callable_call role_name_filter function table) name =
     dict_get table name) /\
  map fst (agent_callable_call role_name_filter function table) =
    (if is_Some_dec (dict_get table (f_name function))
     then map fst table
     else map fst table ++ [f_name function]).
Proof.
  split; [|split].
  - eexists. split; [apply agent_callable_call_registers|].
    cbn [fi_function fi_role_name_filter fi_has_world_param fi_has_agent_param
         fi_has_agent_name_param].
    repeat split; try apply has_param_iff.
  - intros name Hne. unfold agent_callable_call. rewrite dict_get_set.
    destruct (String.eqb_spec (f_name function) name); [congruence | reflexivity].
  - unfold agent_callable_call. apply dict_set_keys.
Qed.

End RegistryFacts.

(** ** Further properties of the streaming wrapper *)
Section StreamingMore.
Context `{Runtime}.

Lemma last_cons_default {A} (x d : A) (l : list A) :
  List.last (x :: l) d = List.last l x.
Proof.
  revert x d. induction l as [|y l IH]; intros x d; [reflexivity|].
  change (List.last (x :: y :: l) d) with (List.last (y :: l) d).
  rewrite (IH y d), (IH y x). reflexivity.
Qed.

Lemma absorb_role print_output ds acc :
  acc_role (fold_left (absorb_acc print_output) ds acc) =
  List.last (omap d_role ds) (acc_role acc).
Proof.
  revert acc. induction ds as [|d ds IH]; intros acc; [reflexivity|].
  cbn [fold_left omap list_omap]. rewrite IH.
  assert (E : acc_role (absorb_acc print_output acc d) =
              match d_role d with
              | Some r => r
              | None => acc_role acc
              end).
  { unfold absorb_acc, absorb_delta.
    destruct (d_content d) as [[s|]|]; try destruct (_ || _); reflexivity. }
  rewrite E. destruct (d_role d) as [r|]; [|reflexivity].
  rewrite last_cons_default. reflexivity.
Qed.

Lemma fc_accumulate_nonempty fc key val : fc_accumulate fc key val <> [].
Proof.
  destruct fc as [|[k v] fc]; cbn; [discriminate|].
  destruct (String.eqb k key); discriminate.
Qed.

Lemma fold_fc_accumulate_nil items fc :
  fold_left (fun fc kv => fc_accumulate fc (fst kv) (snd kv)) items fc = [] <->
  fc = [] /\ items = [].
Proof.
  revert fc. induction items as [|kv items IH]; intros fc; cbn [fold_left].
  - intuition.
  - rewrite IH. split.
    + intros [E _]. exfalso. exact (fc_accumulate_nonempty _ _ _ E).
    + intros [_ E]. discriminate.
Qed.

Lemma absorb_function_call_nil print_output ds acc :
  acc_function_call (fold_left (absorb_acc print_output) ds acc) = [] <->
  acc_function_call acc = [] /\ concat (omap d_function_call ds) = [].
Proof.
  revert acc. induction ds as [|d ds IH]; intros acc; cbn [fold_left omap list_omap].
  - cbn. intuition.
  - rewrite IH.
    assert (E : acc_function_call (absorb_acc print_output acc d) =
                fold_left (fun fc kv => fc_accumulate fc (fst kv) (snd kv))
                  (default [] (d_function_call d)) (acc_function_call acc)).
    { unfold absorb_acc, absorb_delta.
      destruct (d_function_call d) as [items|];
        destruct (d_content d) as [[s|]|]; try destruct (_ || _); reflexivity. }
    rewrite E, fold_fc_accumulate_nil.
    destruct (d_function_call d) as [items|]; cbn [default concat].
    + rewrite app_nil. intuition.
    + intuition.
Qed.

(** X5. The role of the returned message is the role of the last delta that
    carries one (the empty text when none does), and the message has a
    [function_call] entry exactly when some function-call delta carried an
    item. *)
Theorem stream_chat_completion_role_and_call
  engine messages print_output kwargs st resp :
  chat_completion (completions (trace st)) engine messages kwargs = Return resp ->
  exists (kvs : list (string * value)) (st' : pystate),
    stream_chat_completion engine messages print_output kwargs st =
      (Return (VDict kvs), st') /\
    dict_get kvs "role" = Some (VStr (last_role resp)) /\
    (dict_get kvs "function_call" = None <-> fc_items resp = []) /\
    heap st' = heap st.
Proof.
  intros Hresp.
  destruct (stream_chat_completion_run engine messages print_output kwargs st
              resp Hresp) as (out & Hrun & _).
  eexists _, _. split; [exact Hrun|].
  split; [|split; [|reflexivity]].
  - cbn [dict_get app String.eqb Ascii.eqb Bool.eqb].
    rewrite absorb_stream_fst, absorb_role. reflexivity.
  - pose proof (absorb_function_call_nil print_output (concat resp)
                  (mkAcc "" "" [])) as Hnil.
    rewrite <- absorb_stream_fst in Hnil. cbn [acc_function_call] in Hnil.
    unfold fc_items.
    destruct (acc_function_call (fst (absorb_stream print_output resp)))
      as [|kv fc] eqn:E.
    + cbn. split; [intros _; apply Hnil; reflexivity | reflexivity].
    + cbn. split; [discriminate|].
      intros Hi. exfalso.
      assert (Hf : kv :: fc = []) by (apply Hnil; auto). discriminate.
Qed.

Lemma printed_app evs1 evs2 : printed (evs1 ++ evs2) = printed evs1 ++ printed evs2.
Proof.
  induction evs1 as [|ev evs1 IH]; [reflexivity|].
  destruct ev; cbn; rewrite IH; reflexivity.
Qed.

Lemma joined_app xs ys : joined (xs ++ ys) = joined xs +:+ joined ys.
Proof.
  induction xs as [|x xs IH]; [reflexivity|].
  cbn [app joined fold_right]. fold (joined (xs ++ ys)). fold (joined xs).
  rewrite IH, string_app_assoc. reflexivity.
Qed.

Lemma absorb_delta_echo print_output acc d :
  (print_output = true ->
   acc_content (fst (absorb_delta print_output acc d)) =
   acc_content acc +:+ joined (printed (snd (absorb_delta print_output acc d)))) /\
  (print_output = false -> snd (absorb_delta print_output acc d) = []).
Proof.
  unfold absorb_delta.
  destruct (d_content d) as [[s|]|]; cbn [fst snd];
    try (split; intros _; cbn; rewrite ?string_app_empty_r; reflexivity).
  - destruct (_ || _); cbn [fst snd acc_content].
    + split; intros _; cbn; rewrite ?string_app_empty_r; reflexivity.
    + split; intros ->; cbn; rewrite ?string_app_empty_r; reflexivity.
  - destruct (_ || _); split; intros _; cbn; rewrite ?string_app_empty_r;
      reflexivity.
Qed.

Lemma absorb_choices_echo print_output choices st :
  exists out,
    snd (absorb_choices print_output st choices) = snd st ++ out /\
    (print_output = true ->
     acc_content (fst (absorb_choices print_output st choices)) =
     acc_content (fst st) +:+ joined (printed out)) /\
    (print_output = false -> out = []).
Proof.
  unfold absorb_choices. revert st.
  induction choices as [|d ds IH]; intros st.
  - exists []. cbn. rewrite app_nil_r, string_app_empty_r. auto.
  - cbn [fold_left].
    pose proof (absorb_delta_echo print_output (fst st) d) as [Ht Hf].
    destruct (absorb_delta print_output (fst st) d) as [acc' o] eqn:E.
    cbn [fst snd] in *.
    destruct (IH (acc', snd st ++ o)) as (out & Hout & Ht' & Hf').
    exists (o ++ out). cbn [fst snd] in *.
    split; [rewrite Hout, <- app_assoc; reflexivity|].
    split.
    + intros Hp. rewrite (Ht' Hp), (Ht Hp), printed_app, joined_app,
        string_app_assoc. reflexivity.
    + intros Hp. rewrite (Hf Hp), (Hf' Hp). reflexivity.
Qed.

Lemma absorb_stream_echo print_output resp :
  (print_output = true ->
   joined (printed (snd (absorb_stream print_output resp))) =
   acc_content (fst (absorb_stream print_output resp))) /\
  (print_output = false -> snd (absorb_stream print_output resp) = []).
Proof.
  unfold absorb_stream.
  assert (G : forall st, exists out,
             snd (fold_left (absorb_choices print_output) resp st) = snd st ++ out /\
             (print_output = true ->
              acc_content (fst (fold_left (absorb_choices print_output) resp st)) =
              acc_content (fst st) +:+ joined (printed out)) /\
             (print_output = false -> out = [])).
  { induction resp as [|ch resp IH]; intros st.
    - exists []. cbn. rewrite app_nil_r, string_app_empty_r. auto.
    - cbn [fold_left].
      destruct (absorb_choices_echo print_output ch st) as (o & Ho & Ht & Hf).
      destruct (IH (absorb_choices print_output st ch)) as (out & Hout & Ht' & Hf').
      exists (o ++ out).
      split; [rewrite Hout, Ho, <- app_assoc; reflexivity|].
      split.
      + intros Hp. rewrite (Ht' Hp), (Ht Hp), printed_app, joined_app,
          string_app_assoc. reflexivity.
      + intros Hp. rewrite (Hf Hp), (Hf' Hp). reflexivity. }
  destruct (G (mkAcc "" "" [], [])) as (out & Hout & Ht & Hf).
  cbn [fst snd acc_content app] in *. rewrite Hout.
  split.
  - intros Hp. rewrite (Ht Hp). reflexivity.
  - exact Hf.
Qed.

(** X6. With the echo on, what the wrapper prints after the request, put
    together, is exactly the content it returns; with the echo off it prints
    nothing. Either way the request is the only completion event. *)
Theorem stream_chat_completion_echo
  engine messages print_output kwargs st resp :
  chat_completion (completions (trace st)) engine messages kwargs = Return resp ->
  exists (kvs : list (string * value)) (st' : pystate) (out : list event),
    stream_chat_completion engine messages print_output kwargs st =
      (Return (VDict kvs), st') /\
    trace st' = trace st ++ EvCompletion engine messages kwargs :: out /\
    completions out = 0%nat /\
    (print_output = true ->
     dict_get kvs "content" = Some (VStr (joined (printed out)))) /\
    (print_output = false -> out = []).
Proof.
  intros Hresp. unfold stream_chat_completion.
  erewrite bind_Return by reflexivity.
  erewrite bind_Return by reflexivity.
  erewrite bind_Return by (unfold lift_outcome; rewrite Hresp; reflexivity).
  pose proof (absorb_stream_prints print_output resp) as Hout.
  pose proof (absorb_stream_echo print_output resp) as [Ht Hf].
  destruct (absorb_stream print_output resp) as [acc out]. cbn [fst snd] in *.
  erewrite bind_Return by apply emit_all_run.
  cbn [heap BOTS trace].
  destruct print_output.
  - destruct (Nat.ltb 0 (String.length (acc_content acc))); cbn [andb].
    + erewrite bind_Return by reflexivity.
      eexists _, _, (out ++ [EvPrint "" "" newline]).
      split; [reflexivity|]. cbn [trace].
      split; [rewrite <- !app_assoc; reflexivity|].
      split; [rewrite completions_app, Hout; reflexivity|].
      split; [|discriminate]. intros _.
      rewrite printed_app, joined_app, (Ht eq_refl). cbn.
      rewrite string_app_empty_r. reflexivity.
    + erewrite bind_Return by reflexivity.
      eexists _, _, out.
      split; [reflexivity|]. cbn [trace].
      split; [rewrite <- !app_assoc; reflexivity|].
      split; [exact Hout|].
      split; [|discriminate]. intros _. rewrite (Ht eq_refl). reflexivity.
  - rewrite andb_false_r.
    erewrite bind_Return by reflexivity.
    eexists _, _, out.
    split; [reflexivity|]. cbn [trace].
    split; [rewrite <- !app_assoc; reflexivity|].
    split; [exact Hout|].
    split; [discriminate | exact Hf].
Qed.

End StreamingMore.

(** ** Further properties of the agent *)
Section AgentMore.
Context `{Runtime}.
Variable CALLABLE_FUNCTION_TABLE : registry.

(** X7. The functions offered to the model are the schemas of exactly the
    registered entries whose role filter matches the agent's role, in the
    order of registration; collecting them changes nothing. With an empty
    table the list is empty whatever the agent is. *)
Theorem callable_function_descriptions_filters
  (self : loc) (cls : string) (attrs : gmap string value) (role : string)
  (st : pystate) :
  heap st !! self = Some (OInst cls attrs) ->
  attrs !! "role" = Some (VStr role) ->
  (exists ds : list value,
     _callable_function_descriptions CALLABLE_FUNCTION_TABLE (VRef self) st =
       (Return ds, st) /\
     ds = map (fun entry : string * function_info => fi_sig (snd entry))
            (List.filter
               (fun entry : string * function_info =>
                  re_match (fi_role_name_filter (snd entry)) role)
               CALLABLE_FUNCTION_TABLE) /\
     (forall sig : value,
        List.In sig ds <->
        exists (name : string) (info : function_info),
          List.In (name, info) CALLABLE_FUNCTION_TABLE /\
          re_match (fi_role_name_filter info) role = true /\
          fi_sig info = sig)) /\
  (forall o : value, _callable_function_descriptions [] o st = (Return [], st)).
Proof.
  intros Hself Hrole. split; [|reflexivity].
  eexists. split; [eapply _callable_function_descriptions_run; eassumption|].
  split; [reflexivity|].
  intros sig. unfold visible_sigs. rewrite List.in_map_iff. split.
  - intros ([name info] & Hsig & Hin).
    apply List.filter_In in Hin as [Hin Hm]. exists name, info. auto.
  - intros (name & info & Hin & Hm & Hsig).
    exists (name, info). split; [exact Hsig|].
    apply List.filter_In. auto.
Qed.

Lemma Agent_call_attrs (args : Agent_args) (st : pystate) (name prompt : value) :
  arg_name args = Some name ->
  arg_prompt args = Some prompt ->
  exists (self m : loc) (st' : pystate),
    Agent_call args st = (Return (VRef self), st') /\
    heap st !! self = None /\ heap st !! m = None /\ self <> m /\
    heap st' !! self =
      Some (OInst "Agent"
              (<["ignore_none_function_messages" :=
                   default (VBool DEFAULT_IGNORE_NONE_FUNCTION_MESSAGES)
                           (arg_ignore_none_function_messages args)]>
                 (<["function_call_repeats" :=
                      default (VInt DEFAULT_FUNCTION_CALL_REPEATS)
                              (arg_function_call_repeats args)]>
                    (<["memory" := VRef m]>
                       (<["role" := default (VStr "agent") (arg_role args)]>
                          (<["engine" := default (VStr "gpt-3.5-turbo-16k")
                                                 (arg_engine args)]>
                             (<["name" := name]> ∅))))))) /\
    heap st' !! m =
      Some (OList [VDict [("role", VStr "system"); ("content", prompt)]]) /\
    (forall l, l <> self -> l <> m -> heap st' !! l = heap st !! l) /\
    BOTS st' = BOTS st /\ trace st' = trace st.
Proof.
  intros Hn Hp. unfold Agent_call.
  erewrite bind_Return by (unfold alloc; reflexivity).
  rewrite Hn, Hp.
  set (self := fresh (dom (heap st))).
  assert (Hself : heap st !! self = None) by apply fresh_loc_None.
  edestruct (Agent_init_spec
               (mkState (<[self := OInst "Agent" ∅]> (heap st)) (BOTS st) (trace st))
               self "Agent" ∅ name prompt
               (default (VStr "gpt-3.5-turbo-16k") (arg_engine args))
               (default (VStr "agent") (arg_role args))
               (default (VInt DEFAULT_FUNCTION_CALL_REPEATS)
                        (arg_function_call_repeats args))
               (default (VBool DEFAULT_IGNORE_NONE_FUNCTION_MESSAGES)
                        (arg_ignore_none_function_messages args)))
    as (m & attrs & st' & Hrun & Hm & Hs' & Hm' & Hattrs & Hframe & HB & HT).
  { cbn [heap]. apply lookup_insert_eq. }
  cbn [heap BOTS trace] in *.
  erewrite bind_Return by exact Hrun.
  assert (Hne : self <> m).
  { intros E. rewrite <- E in Hm. rewrite lookup_insert_eq in Hm. discriminate. }
  rewrite lookup_insert_ne in Hm by exact Hne.
  exists self, m, st'. subst attrs.
  split; [reflexivity|].
  repeat (split; [assumption|]).
  split; [|split; assumption].
  intros l Hl1 Hl2. rewrite Hframe by assumption.
  apply lookup_insert_ne. congruence.
Qed.

(** X8. [Agent(name, prompt)] with nothing else passed: the new agent has
    role "agent", engine "gpt-3.5-turbo-16k", ten function-call repeats (the
    constructor default, not the 1 of the class body), ignores plain replies,
    and remembers exactly the system message built from the prompt. Nothing
    is printed and every object that existed is as it was. *)
Theorem Agent_call_defaults (name prompt : value) (st : pystate) :
  exists (a : value) (st' : pystate),
    Agent_call (agent_args name prompt) st = (Return a, st') /\
    getattr a "name" st' = (Return name, st') /\
    getattr a "role" st' = (Return (VStr "agent"), st') /\
    getattr a "engine" st' = (Return (VStr "gpt-3.5-turbo-16k"), st') /\
    getattr a "function_call_repeats" st' = (Return (VInt 10), st') /\
    getattr a "ignore_none_function_messages" st' = (Return (VBool true), st') /\
    (m ← getattr a "memory"; list_items m) st' =
      (Return [VDict [("role", VStr "system"); ("content", prompt)]], st') /\
    (forall l o, heap st !! l = Some o -> heap st' !! l = Some o) /\
    trace st' = trace st.
Proof.
  destruct (Agent_call_attrs (agent_args name prompt) st name prompt
              eq_refl eq_refl)
    as (self & m & st' & Hrun & Hs0 & Hm0 & Hne & Hs & Hm & Hfr & _ & HT).
  exists (VRef self), st'. split; [exact Hrun|].
  split; [eapply getattr_instance; [exact Hs | reflexivity]|].
  split; [eapply getattr_instance; [exact Hs | reflexivity]|].
  split; [eapply getattr_instance; [exact Hs | reflexivity]|].
  split; [eapply getattr_instance; [exact Hs | reflexivity]|].
  split; [eapply getattr_instance; [exact Hs | reflexivity]|].
  split.
  { erewrite bind_Return by (eapply getattr_instance; [exact Hs | reflexivity]).
    apply list_items_list. exact Hm. }
  split; [|exact HT].
  intros l o Hl. rewrite Hfr; [exact Hl | congruence | congruence].
Qed.

Lemma injected_arguments_lookup info self world name kvs k :
  dict_get (injected_arguments info self world name kvs) k =
  if fi_has_agent_name_param info && String.eqb AGENT_NAME_PARAM_NAME k
  then Some name
  else if fi_has_agent_param info && String.eqb AGENT_PARAM_NAME k
       then Some self
       else if fi_has_world_param info && String.eqb WORLD_PARAM_NAME k
            then Some world
            else dict_get kvs k.
Proof.
  unfold injected_arguments.
  destruct (fi_has_agent_name_param info), (fi_has_agent_param info),
    (fi_has_world_param info); cbn [andb];
    rewrite ?dict_get_set; reflexivity.
Qed.

(** X9. What the dispatched function receives: under [self], [agent] and
    [agent_name] the world, the agent and the agent's name when the entry has
    the flag, whatever the model put under these names; every other argument,
    and a reserved name whose flag is off, is what the model sent. *)
Theorem call_function_injection
  (self : loc) (cls : string) (attrs : gmap string value) (name world a : value)
  (kvs kvs0 : list (string * value)) (st : pystate) (n : string)
  (info : function_info) :
  dict_get kvs "name" = Some (VStr n) ->
  dict_get CALLABLE_FUNCTION_TABLE n = Some info ->
  heap st !! self = Some (OInst cls attrs) ->
  attrs !! "name" = Some name ->
  dict_get kvs "arguments" = Some a ->
  match a with
  | VNone => Return (VDict [])
  | _ => json_loads a
  end = Return (VDict kvs0) ->
  exists args : list (string * value),
    _call_function CALLABLE_FUNCTION_TABLE (VRef self) (VDict kvs) world st =
      after_call
        (f_call (fi_function info) args
           (log st (call_banner name (VStr n) (VDict kvs0)))) /\
    (fi_has_world_param info = true -> dict_get args "self" = Some world) /\
    (fi_has_agent_param info = true -> dict_get args "agent" = Some (VRef self)) /\
    (fi_has_agent_name_param info = true ->
     dict_get args "agent_name" = Some name) /\
    (fi_has_world_param info = false ->
     dict_get args "self" = dict_get kvs0 "self") /\
    (fi_has_agent_param info = false ->
     dict_get args "agent" = dict_get kvs0 "agent") /\
    (fi_has_agent_name_param info = false ->
     dict_get args "agent_name" = dict_get kvs0 "agent_name") /\
    (forall k : string,
       is_reserved k = false -> dict_get args k = dict_get kvs0 k).
Proof.
  intros Hn Ht Hself Hname Ha Hparse.
  exists (injected_arguments info (VRef self) world name kvs0).
  split; [eapply _call_function_invokes; eassumption|].
  repeat split.
  - intros Hf. rewrite injected_arguments_lookup, Hf. cbn.
    rewrite !andb_false_r. reflexivity.
  - intros Hf. rewrite injected_arguments_lookup, Hf. cbn.
    rewrite !andb_false_r. reflexivity.
  - intros Hf. rewrite injected_arguments_lookup, Hf. reflexivity.
  - intros Hf. rewrite injected_arguments_lookup, Hf. cbn.
    rewrite !andb_false_r. reflexivity.
  - intros Hf. rewrite injected_arguments_lookup, Hf. cbn.
    rewrite !andb_false_r. reflexivity.
  - intros Hf. rewrite injected_arguments_lookup, Hf. cbn.
    rewrite ?andb_false_r. reflexivity.
  - intros k Hk. rewrite injected_arguments_lookup.
    unfold is_reserved in Hk.
    apply orb_false_iff in Hk as [Hk Hk3]. apply orb_false_iff in Hk as [Hk1 Hk2].
    rewrite (String.eqb_sym AGENT_NAME_PARAM_NAME), Hk3,
      (String.eqb_sym AGENT_PARAM_NAME), Hk2,
      (String.eqb_sym WORLD_PARAM_NAME), Hk1, !andb_false_r.
    reflexivity.
Qed.

End AgentMore.

(** ** The think-act cycle *)
Section ThinkActMore.
Context `{Runtime}.
Variable CALLABLE_FUNCTION_TABLE : registry.

Lemma next_message_outcome self m mem ea name engine role ignore repeats st :
  agent_with (heap st) self m mem ea name engine role ignore repeats ->
  next_message CALLABLE_FUNCTION_TABLE (VRef self) st =
    stream_chat_completion engine mem (negb ignore)
      (request_kwargs CALLABLE_FUNCTION_TABLE role ea)
      (log st [EvPrint (format name +:+ " >> ") "yellow" newline]).
Proof.
  intros (attrs & Hself & Hname & Hrole & Hengine & Hmem & Hign & _ & Hea & Hm &
          Hcls).
  unfold next_message.
  erewrite bind_Return by (eapply getattr_instance; eassumption).
  erewrite bind_Return by apply print_in_color_run.
  erewrite bind_Return
    by (eapply _callable_function_descriptions_run; cbn [log heap]; eassumption).
  erewrite bind_Return by (eapply getattr_instance; cbn [log heap]; eassumption).
  erewrite bind_Return by (eapply getattr_instance; cbn [log heap]; eassumption).
  erewrite bind_Return by (apply list_items_list; cbn [log heap]; exact Hm).
  erewrite bind_Return by (eapply getattr_instance; cbn [log heap]; eassumption).
  erewrite bind_Return by reflexivity.
  erewrite bind_Return
    by (eapply getattr_class; cbn [log heap]; [exact Hself | exact Hea | reflexivity]).
  erewrite bind_Return
    by (unfold dict_items; erewrite bind_Return by reflexivity;
        cbn [log heap]; rewrite Hcls; reflexivity).
  cbn [truthy log heap]. unfold request_kwargs.
  destruct (Nat.ltb 0 (List.length (visible_sigs CALLABLE_FUNCTION_TABLE role)));
    reflexivity.
Qed.

Lemma completions_log st evs :
  completions evs = 0%nat ->
  completions (trace (log st evs)) = completions (trace st).
Proof. intros E. cbn [log trace]. rewrite completions_app, E. lia. Qed.

Lemma message_of_acc_plain acc :
  acc_function_call acc = [] ->
  message_of_acc acc =
    VDict [("role", VStr (acc_role acc)); ("content", VStr (acc_content acc))].
Proof. intros E. unfold message_of_acc. rewrite E. reflexivity. Qed.

Lemma message_of_acc_call acc kv fc :
  acc_function_call acc = kv :: fc ->
  message_of_acc acc =
    VDict [("role", VStr (acc_role acc)); ("content", VStr (acc_content acc));
           ("function_call",
            VDict (map (fun kv : string * string => (fst kv, VStr (snd kv)))
                       (kv :: fc)))].
Proof. intros E. unfold message_of_acc. rewrite E. reflexivity. Qed.

(** A plain reply: stored unless plain replies are ignored, and the loop
    breaks. *)
Lemma act_on_plain self m mem ea name engine role ignore repeats world kvs st :
  agent_with (heap st) self m mem ea name engine role ignore repeats ->
  dict_get kvs "function_call" = None ->
  act_on CALLABLE_FUNCTION_TABLE (VRef self) world (VDict kvs) st =
    (Return false,
     if ignore then st
     else mkState (<[m := OList (mem ++ [VDict kvs])]> (heap st))
                  (BOTS st) (trace st)).
Proof.
  intros (attrs & Hself & _ & _ & _ & Hmem & Hign & _ & _ & Hm & _) Hfc.
  unfold act_on.
  erewrite bind_Return by reflexivity.
  rewrite Hfc. cbn [default truthy].
  erewrite bind_Return by (eapply getattr_instance; eassumption).
  erewrite bind_Return by reflexivity.
  cbn [truthy]. destruct ignore; cbn [negb].
  - erewrite bind_Return by reflexivity. reflexivity.
  - erewrite bind_Return.
    2:{ erewrite bind_Return by (eapply getattr_instance; eassumption).
        apply list_append_list. exact Hm. }
    reflexivity.
Qed.

Lemma think_and_act_plain_run
  (self m : loc) (mem : list value) (ea : gmap string value)
  (name engine world : value) (role : string) (ignore : bool) (repeats : Z)
  (st : pystate) (resp : list chunk) :
  agent_with (heap st) self m mem ea name engine role ignore repeats ->
  (repeats <= 0 ->
   think_and_act CALLABLE_FUNCTION_TABLE (VRef self) world st = (Return VNone, st)) /\
  (0 < repeats ->
   chat_completion (completions (trace st)) engine mem
     (request_kwargs CALLABLE_FUNCTION_TABLE role ea) = Return resp ->
   fc_items resp = [] ->
   exists out : list event,
     think_and_act CALLABLE_FUNCTION_TABLE (VRef self) world st =
       (Return VNone,
        mkState
          (if ignore then heap st
           else <[m := OList (mem ++ [reply_of (negb ignore) resp])]> (heap st))
          (BOTS st)
          (trace st ++ EvPrint (format name +:+ " >> ") "yellow" newline
             :: EvCompletion engine mem
                  (request_kwargs CALLABLE_FUNCTION_TABLE role ea) :: out)) /\
     completions out = 0%nat /\
     reply_of (negb ignore) resp =
       VDict [("role", VStr (last_role resp));
              ("content", VStr (spec_content "" (content_fragments resp)))]).
Proof.
  intros Hag. pose proof Hag as (attrs & Hself & _ & _ & _ & _ & _ & Hrep & _).
  split.
  - intros Hle. unfold think_and_act.
    erewrite bind_Return by (eapply getattr_instance; eassumption).
    cbv beta iota.
    replace (Z.to_nat repeats) with 0%nat by lia.
    reflexivity.
  - intros Hpos Hresp Hplain.
    rewrite (think_and_act_unfold CALLABLE_FUNCTION_TABLE self "Agent" attrs world
               repeats st Hself Hrep Hpos).
    set (st0 := log st [EvPrint (format name +:+ " >> ") "yellow" newline]).
    assert (Hresp0 : chat_completion (completions (trace st0)) engine mem
                       (request_kwargs CALLABLE_FUNCTION_TABLE role ea)
                     = Return resp).
    { unfold st0. rewrite completions_log by reflexivity. exact Hresp. }
    destruct (stream_chat_completion_run engine mem (negb ignore)
                (request_kwargs CALLABLE_FUNCTION_TABLE role ea) st0 resp Hresp0)
      as (out & Hrun & Hout).
    assert (Hnil : acc_function_call (fst (absorb_stream (negb ignore) resp)) = []).
    { rewrite absorb_stream_fst. apply absorb_function_call_nil. auto. }
    exists out. split; [|split; [exact Hout|]].
    + erewrite bind_Return.
      2:{ erewrite bind_Return
            by (rewrite (next_message_outcome self m mem ea name engine role
                           ignore repeats st Hag); exact Hrun).
          rewrite (message_of_acc_plain _ Hnil).
          erewrite bind_Return.
          2:{ eapply (act_on_plain self m mem ea name engine role ignore repeats);
                [exact Hag | reflexivity]. }
          cbv beta iota. reflexivity. }
      unfold reply_of. rewrite (message_of_acc_plain _ Hnil).
      unfold st0. cbn [log heap BOTS trace].
      destruct ignore; unfold mret, M_ret; cbn [heap BOTS trace];
        rewrite <- app_assoc; reflexivity.
    + unfold reply_of. rewrite (message_of_acc_plain _ Hnil).
      rewrite absorb_stream_fst, absorb_role, absorb_content. reflexivity.
Qed.

(** X10. One think-act cycle answered by a plain reply (no function-call
    item in the stream): exactly one completion request is sent, over the
    memory and with the schemas visible to the agent's role; the reply is
    appended to memory unless plain replies are ignored, in which case memory
    is as before; the loop stops there whatever the repeat budget is, and the
    call evaluates to [None]. With a repeat budget of zero or less nothing
    happens at all. *)
Theorem think_and_act_plain_reply
  (self m : loc) (mem : list value) (ea : gmap string value)
  (name engine world : value) (role : string) (ignore : bool) (repeats : Z)
  (st : pystate) (resp : list chunk) :
  agent_with (heap st) self m mem ea name engine role ignore repeats ->
  (repeats <= 0 ->
   think_and_act CALLABLE_FUNCTION_TABLE (VRef self) world st = (Return VNone, st)) /\
  (0 < repeats ->
   chat_completion (completions (trace st)) engine mem
     (request_kwargs CALLABLE_FUNCTION_TABLE role ea) = Return resp ->
   fc_items resp = [] ->
   exists out : list event,
     think_and_act CALLABLE_FUNCTION_TABLE (VRef self) world st =
       (Return VNone,
        mkState
          (if ignore then heap st
           else <[m := OList (mem ++ [reply_of (negb ignore) resp])]> (heap st))
          (BOTS st)
          (trace st ++ EvPrint (format name +:+ " >> ") "yellow" newline
             :: EvCompletion engine mem
                  (request_kwargs CALLABLE_FUNCTION_TABLE role ea) :: out)) /\
     completions out = 0%nat /\
     reply_of (negb ignore) resp =
       VDict [("role", VStr (last_role resp));
              ("content", VStr (spec_content "" (content_fragments resp)))]).
Proof.
  exact (think_and_act_plain_run self m mem ea name engine world role ignore
           repeats st resp).
Qed.

(** X11. The service fails (the request raises): the exception leaves
    [think_and_act] as it is, after the banner and the request; memory and
    every other object are untouched. *)
Theorem think_and_act_transport_failure
  (self m : loc) (mem : list value) (ea : gmap string value)
  (name engine world : value) (role : string) (ignore : bool) (repeats : Z)
  (st : pystate) (e : exn) :
  agent_with (heap st) self m mem ea name engine role ignore repeats ->
  0 < repeats ->
  chat_completion (completions (trace st)) engine mem
    (request_kwargs CALLABLE_FUNCTION_TABLE role ea) = Raise e ->
  think_and_act CALLABLE_FUNCTION_TABLE (VRef self) world st =
    (Raise e,
     mkState (heap st) (BOTS st)
       (trace st ++ [EvPrint (format name +:+ " >> ") "yellow" newline;
                     EvCompletion engine mem
                       (request_kwargs CALLABLE_FUNCTION_TABLE role ea)])).
Proof.
  intros Hag Hpos Hresp.
  pose proof Hag as (attrs & Hself & _ & _ & _ & _ & _ & Hrep & _).
  rewrite (think_and_act_unfold CALLABLE_FUNCTION_TABLE self "Agent" attrs world
             repeats st Hself Hrep Hpos).
  erewrite bind_Raise; [reflexivity|].
  erewrite bind_Raise; [reflexivity|].
  rewrite (next_message_outcome self m mem ea name engine role ignore repeats st
             Hag).
  unfold stream_chat_completion.
  erewrite bind_Return by reflexivity.
  erewrite bind_Return by reflexivity.
  erewrite bind_Raise.
  2:{ unfold lift_outcome. cbn [trace log].
      rewrite completions_app. cbn [completions]. rewrite Nat.add_0_r.
      rewrite Hresp. reflexivity. }
  cbn [log heap BOTS trace]. rewrite <- app_assoc. reflexivity.
Qed.

(** X12. The model asks for a function that is not registered: the request
    and a function message whose content is the serialized error result are
    appended to memory, in this order, and the loop goes on with one repeat
    less; with a budget of one repeat the cycle ends there. *)
Theorem think_and_act_unknown_function
  (self m : loc) (mem : list value) (ea : gmap string value)
  (name engine world : value) (role : string) (ignore : bool) (repeats : Z)
  (st : pystate) (resp : list chunk) (f : string) (fs : list string)
  (content : string) :
  agent_with (heap st) self m mem ea name engine role ignore repeats ->
  0 < repeats ->
  chat_completion (completions (trace st)) engine mem
    (request_kwargs CALLABLE_FUNCTION_TABLE role ea) = Return resp ->
  fc_fragments "name" resp = f :: fs ->
  dict_get CALLABLE_FUNCTION_TABLE (joined (f :: fs)) = None ->
  json_dumps
    (error_result (dquote +:+ joined (f :: fs) +:+ dquote
                   +:+ " is not a callable function.")) = Return content ->
  exists (out : list event) (st2 : pystate),
    think_and_act CALLABLE_FUNCTION_TABLE (VRef self) world st =
      (_ ← think_and_act_loop CALLABLE_FUNCTION_TABLE
             (Nat.pred (Z.to_nat repeats)) (VRef self) world;
       mret VNone) st2 /\
    heap st2 =
      <[m := OList (mem ++ [reply_of (negb ignore) resp;
                            VDict [("role", VStr "function");
                                   ("name", VStr (joined (f :: fs)));
                                   ("content", VStr content)]])]> (heap st) /\
    trace st2 =
      trace st ++ EvPrint (format name +:+ " >> ") "yellow" newline
        :: EvCompletion engine mem
             (request_kwargs CALLABLE_FUNCTION_TABLE role ea) :: out /\
    completions out = 0%nat /\
    (repeats = 1 ->
     think_and_act CALLABLE_FUNCTION_TABLE (VRef self) world st =
       (Return VNone, st2)).
Proof.
  intros Hag Hpos Hresp Hfrags Hunknown Hdumps.
  pose proof Hag as (attrs & Hself & _ & _ & _ & Hmem & _ & Hrep & _ & Hm & _).
  set (st0 := log st [EvPrint (format name +:+ " >> ") "yellow" newline]).
  assert (Hresp0 : chat_completion (completions (trace st0)) engine mem
                     (request_kwargs CALLABLE_FUNCTION_TABLE role ea)
                   = Return resp).
  { unfold st0. rewrite completions_log by reflexivity. exact Hresp. }
  destruct (stream_chat_completion_run engine mem (negb ignore)
              (request_kwargs CALLABLE_FUNCTION_TABLE role ea) st0 resp Hresp0)
    as (out & Hrun & Hout).
  set (acc := fst (absorb_stream (negb ignore) resp)) in *.
  assert (Hname : fc_get (acc_function_call acc) "name" = Some (joined (f :: fs))).
  { unfold acc. rewrite absorb_stream_fst, absorb_function_call.
    cbn [acc_function_call fc_get].
    change (omap (field_of "name") (concat (omap d_function_call (concat resp))))
      with (fc_fragments "name" resp).
    rewrite Hfrags. apply extend_None. }
  destruct (acc_function_call acc) as [|kv fc] eqn:Hfc; [discriminate|].
  set (st1 := mkState (heap st0) (BOTS st0)
                (trace st0 ++ EvCompletion engine mem
                   (request_kwargs CALLABLE_FUNCTION_TABLE role ea) :: out)) in *.
  set (msg := message_of_acc acc) in *.
  assert (Hmsg : msg =
            VDict [("role", VStr (acc_role acc)); ("content", VStr (acc_content acc));
                   ("function_call",
                    VDict (map (fun kv : string * string => (fst kv, VStr (snd kv)))
                               (kv :: fc)))])
    by (apply message_of_acc_call; exact Hfc).
  assert (Hact :
    act_on CALLABLE_FUNCTION_TABLE (VRef self) world msg st1 =
      (Return true,
       mkState
         (<[m := OList ((mem ++ [msg])
                        ++ [VDict [("role", VStr "function");
                                   ("name", VStr (joined (f :: fs)));
                                   ("content", VStr content)]])]>
            (<[m := OList (mem ++ [msg])]> (heap st1)))
         (BOTS st1) (trace st1))).
  { rewrite Hmsg.
    erewrite (act_on_function_call CALLABLE_FUNCTION_TABLE self "Agent" attrs m mem);
      cycle 1.
    - reflexivity.
    - discriminate.
    - rewrite dict_get_map_VStr, Hname. reflexivity.
    - exact Hself.
    - exact Hmem.
    - exact Hm.
    - apply _call_function_unknown; [|exact Hunknown].
      rewrite dict_get_map_VStr, Hname. reflexivity.
    - cbn [heap]. rewrite lookup_insert_ne by congruence. exact Hself.
    - exact Hmem.
    - cbn [heap]. apply lookup_insert_eq.
    - exact Hdumps.
    - reflexivity. }
  eexists out, _. split; [|split; [|split; [|split]]].
  - rewrite (think_and_act_unfold CALLABLE_FUNCTION_TABLE self "Agent" attrs world
               repeats st Hself Hrep Hpos).
    unfold mbind at 1, M_bind at 1.
    unfold mbind at 1, M_bind at 1.
    rewrite (next_message_outcome self m mem ea name engine role ignore repeats st
               Hag).
    fold st0. rewrite Hrun. fold msg. fold st1.
    unfold mbind at 1, M_bind at 1. rewrite Hact.
    reflexivity.
  - cbn [heap]. rewrite insert_insert_eq.
    rewrite <- (List.app_assoc mem [msg]). reflexivity.
  - cbn [trace]. unfold st1, st0. cbn [log trace]. rewrite <- app_assoc.
    reflexivity.
  - exact Hout.
  - intros ->.
    rewrite (think_and_act_unfold CALLABLE_FUNCTION_TABLE self "Agent" attrs world
               1 st Hself Hrep Hpos).
    unfold mbind at 1, M_bind at 1.
    unfold mbind at 1, M_bind at 1.
    rewrite (next_message_outcome self m mem ea name engine role ignore 1 st
               Hag).
    fold st0. rewrite Hrun. fold msg. fold st1.
    unfold mbind at 1, M_bind at 1. rewrite Hact.
    reflexivity.
Qed.

End ThinkActMore.

(** ** Database.review_info: what it returns *)
Section ReviewInfoMore.
Variable ask_avatar : value -> string -> M string.

(** X13. Whatever the avatars reply, a review that returns, returns facts
    of the database only, each at most once and in the order of the
    database. *)
Theorem review_info_sublist (agent : value) (st st' : pystate)
  (result : list string) :
  review_info ask_avatar agent st = (Return result, st') ->
  sublist result info_list.
Proof.
  intros Hrun. apply review_loop_sublist in Hrun as (sub & -> & Hsub).
  exact Hsub.
Qed.

Lemma comprehension_constant {A} (prompt : A -> string) agent (xs : list A)
  (yes : bool) st :
  always_replies ask_avatar yes ->
  exists st',
    comprehension
      (fun x => reply ← ask_avatar agent (prompt x); mret (says_yes reply)) xs st =
      (Return (repeat yes (List.length xs)), st').
Proof.
  intros Hask. revert st. induction xs as [|x xs IH]; intros st.
  - exists st. reflexivity.
  - destruct (Hask agent (prompt x) st) as (reply & st1 & Hrun & Hyes).
    destruct (IH st1) as (st2 & Hrest).
    exists st2. cbn [comprehension].
    erewrite bind_Return
      by (erewrite bind_Return by exact Hrun; reflexivity).
    erewrite bind_Return by exact Hrest.
    rewrite Hyes. reflexivity.
Qed.

Lemma review_loop_all_no agent total idx rest useful_info st :
  always_replies ask_avatar false ->
  exists st',
    review_loop ask_avatar num_confirms agent total idx rest useful_info st =
      (Return useful_info, st').
Proof.
  intros Hask. revert idx st.
  induction rest as [|info rest IH]; intros idx st.
  - exists st. reflexivity.
  - destruct (comprehension_constant
                (fun _ : nat => usefulness_prompt total idx info) agent
                (seq 0 num_confirms) false st Hask) as (st1 & Hrun).
    destruct (IH (S idx) st1) as (st2 & Hrest).
    exists st2. cbn [review_loop].
    erewrite bind_Return.
    2:{ unfold review_fact. erewrite bind_Return by exact Hrun.
        change (majority num_confirms
                  (repeat false (List.length (seq 0 num_confirms)))) with false.
        reflexivity. }
    cbn [fst snd]. exact Hrest.
Qed.

(** X14. When no reply is a yes the review returns no fact. When every
    reply is a yes the review returns the first fact alone: the first
    sufficiency vote passes and the remaining six facts are never shown. *)
Theorem review_info_unanimous (agent : value) (st : pystate) :
  (always_replies ask_avatar false ->
   exists st', review_info ask_avatar agent st = (Return [], st')) /\
  (always_replies ask_avatar true ->
   exists st',
     review_info ask_avatar agent st = (Return ["Alice is born in 1990."], st')).
Proof.
  split.
  - intros Hask. apply review_loop_all_no. exact Hask.
  - intros Hask. unfold review_info.
    destruct (comprehension_constant
                (fun _ : nat =>
                   usefulness_prompt (List.length info_list) 0
                     "Alice is born in 1990.") agent
                (seq 0 num_confirms) true st Hask) as (st1 & Hrun).
    destruct (comprehension_constant
                (sufficiency_prompt ([] ++ ["Alice is born in 1990."])) agent
                (seq 0 num_confirms) true st1 Hask) as (st2 & Hrun2).
    exists st2.
    change info_list
      with ("Alice is born in 1990." :: List.tl info_list) at 2.
    cbn [review_loop].
    erewrite bind_Return.
    2:{ unfold review_fact. erewrite bind_Return by exact Hrun.
        change (majority num_confirms
                  (repeat true (List.length (seq 0 num_confirms)))) with true.
        cbv zeta iota.
        change (Nat.ltb 0 (List.length info_list - 1)) with true. cbv iota.
        erewrite bind_Return by exact Hrun2.
        change (majority num_confirms
                  (repeat true (List.length (seq 0 num_confirms)))) with true.
        reflexivity. }
    reflexivity.
Qed.

End ReviewInfoMore.

(** ** The persona functions *)
Section PersonaFunctionsFacts.
Context `{Runtime}.
Variable CALLABLE_FUNCTION_TABLE : registry.
Variable str_format : value -> list (string * value) -> outcome value.
Variable markdown_bullets_to_list : value -> outcome value.

Lemma always_raises_bind_l {A B} (m : M A) (k : A -> M B) :
  always_raises m -> always_raises (m ≫= k).
Proof.
  intros Hm st. destruct (Hm st) as (e & st' & E).
  exists e, st'. apply bind_Raise. exact E.
Qed.

Lemma always_raises_bind_r {A B} (m : M A) (k : A -> M B) (P : A -> Prop) :
  (forall st a st', m st = (Return a, st') -> P a) ->
  (forall a, P a -> always_raises (k a)) ->
  always_raises (m ≫= k).
Proof.
  intros Hm Hk st. unfold mbind, M_bind.
  destruct (m st) as [[a|e] st1] eqn:E.
  - apply (Hk a (Hm _ _ _ E)).
  - eauto.
Qed.

Lemma receive_message_value self message print_output st v st' :
  receive_message self message print_output st = (Return v, st') -> v = VNone.
Proof.
  unfold receive_message. unfold mbind, M_bind.
  destruct (_ st) as [[u|e] st1]; [|discriminate].
  destruct (getattr self "memory" st1) as [[memory|e] st2]; [|discriminate].
  destruct (list_append memory message st2) as [[u'|e] st3]; [|discriminate].
  intros [= <- _]. reflexivity.
Qed.

Lemma lookup_method_None method : always_raises (lookup_method VNone method).
Proof. intros st. eexists _, _. reflexivity. Qed.

(** The chain raises: the value of [receive_message] is [None], on which no
    method can be looked up. *)
Lemma persona_reply_raises agent template_user fields :
  always_raises
    (persona_reply CALLABLE_FUNCTION_TABLE str_format agent template_user fields).
Proof.
  unfold persona_reply.
  apply (always_raises_bind_r _ _ (fun _ => True)); [auto|]. intros _ _.
  apply (always_raises_bind_r _ _ (fun _ => True)); [auto|]. intros content _.
  apply (always_raises_bind_r _ _ (fun r => r = VNone)).
  - intros st a st'. apply receive_message_value.
  - intros r ->. apply always_raises_bind_l, lookup_method_None.
Qed.

(** X15. None of the five persona functions ever returns: each call ends
    with an exception. Either the persona cannot be loaded, or the chain
    [receive_message(...).think_and_act()] is reached and fails because
    [receive_message] evaluates to [None]. *)
Theorem persona_functions_raise (a b : value) :
  always_raises (rephrase CALLABLE_FUNCTION_TABLE str_format a) /\
  always_raises (is_related CALLABLE_FUNCTION_TABLE str_format a b) /\
  always_raises (is_sufficient CALLABLE_FUNCTION_TABLE str_format a b) /\
  always_raises
    (summarize CALLABLE_FUNCTION_TABLE str_format markdown_bullets_to_list a) /\
  always_raises
    (extract_keywords CALLABLE_FUNCTION_TABLE str_format markdown_bullets_to_list a).
Proof.
  repeat split.
  - unfold rephrase.
    apply (always_raises_bind_r _ _ (fun _ => True)); [auto|]. intros c _.
    apply persona_reply_raises.
  - unfold is_related.
    apply (always_raises_bind_r _ _ (fun _ => True)); [auto|]. intros c _.
    apply always_raises_bind_l, persona_reply_raises.
  - unfold is_sufficient.
    apply (always_raises_bind_r _ _ (fun _ => True)); [auto|]. intros c _.
    apply always_raises_bind_l, persona_reply_raises.
  - unfold summarize.
    apply (always_raises_bind_r _ _ (fun _ => True)); [auto|]. intros c _.
    apply always_raises_bind_l, persona_reply_raises.
  - unfold extract_keywords.
    apply (always_raises_bind_r _ _ (fun _ => True)); [auto|]. intros c _.
    apply always_raises_bind_l, persona_reply_raises.
Qed.

End PersonaFunctionsFacts.

(** ** Printing the memory, and the console session *)
Section ConsoleMore.
Context `{Runtime}.
Variable CALLABLE_FUNCTION_TABLE : registry.

Lemma log_nil st : log st [] = st.
Proof. unfold log. rewrite app_nil_r. destruct st; reflexivity. Qed.

Lemma print_memory_items i messages st :
  Forall printable messages ->
  exists units,
    comprehension
      (fun im : nat * value =>
         role ← getitem (snd im) "role";
         content ← getitem (snd im) "content";
         print_in_color
           ("    [" +:+ format (VInt (Z.of_nat (fst im))) +:+ "] "
            +:+ format role +:+ ": " +:+ format content) "green")
      (combine (seq i (List.length messages)) messages) st =
    (Return units, log st (memory_lines i messages)).
Proof.
  intros Hall. revert i st.
  induction Hall as [|message messages Hm _ IH]; intros i st.
  - exists []. cbn. rewrite log_nil. reflexivity.
  - destruct Hm as (kvs & role & content & -> & Hrole & Hcontent).
    destruct (IH (S i)
                (log st [EvPrint (memory_line i (VDict kvs)) "green" newline]))
      as (units & Hrest).
    exists (tt :: units).
    assert (Hline : "    [" +:+ format (VInt (Z.of_nat i)) +:+ "] "
                    +:+ format role +:+ ": " +:+ format content =
                    memory_line i (VDict kvs))
      by (unfold memory_line; rewrite Hrole, Hcontent; reflexivity).
    cbn [List.length seq combine comprehension fst snd].
    erewrite bind_Return.
    2:{ erewrite bind_Return by (unfold getitem; rewrite Hrole; reflexivity).
        erewrite bind_Return by (unfold getitem; rewrite Hcontent; reflexivity).
        apply print_in_color_run. }
    rewrite Hline.
    erewrite bind_Return by exact Hrest.
    rewrite log_log. reflexivity.
Qed.

Lemma print_memory_items_raise i good kvs rest st :
  Forall printable good ->
  dict_get kvs "role" = None ->
  comprehension
    (fun im : nat * value =>
       role ← getitem (snd im) "role";
       content ← getitem (snd im) "content";
       print_in_color
         ("    [" +:+ format (VInt (Z.of_nat (fst im))) +:+ "] "
          +:+ format role +:+ ": " +:+ format content) "green")
    (combine (seq i (List.length (good ++ VDict kvs :: rest)))
             (good ++ VDict kvs :: rest)) st =
  (Raise (mkExn KeyError (py_repr (VStr "role"))), log st (memory_lines i good)).
Proof.
  intros Hall Hbad. revert i st.
  induction Hall as [|message good Hm _ IH]; intros i st.
  - cbn [app List.length seq combine comprehension fst snd memory_lines].
    rewrite log_nil.
    erewrite bind_Raise; [reflexivity|].
    erewrite bind_Raise; [reflexivity|].
    unfold getitem. rewrite Hbad. reflexivity.
  - destruct Hm as (kvs' & role & content & -> & Hrole & Hcontent).
    cbn [app List.length seq combine comprehension fst snd].
    erewrite bind_Return.
    2:{ erewrite bind_Return by (unfold getitem; rewrite Hrole; reflexivity).
        erewrite bind_Return by (unfold getitem; rewrite Hcontent; reflexivity).
        apply print_in_color_run. }
    assert (Hline : "    [" +:+ format (VInt (Z.of_nat i)) +:+ "] "
                    +:+ format role +:+ ": " +:+ format content =
                    memory_line i (VDict kvs'))
      by (unfold memory_line; rewrite Hrole, Hcontent; reflexivity).
    rewrite Hline.
    erewrite bind_Raise by apply IH.
    rewrite log_log. reflexivity.
Qed.

(** X16. [print_memory] prints one green line per stored message, in order
    and numbered from 0, and changes nothing else. When a message has no
    role the lines of the messages before it are printed and [KeyError] is
    raised. *)
Theorem print_memory_lines
  (self m : loc) (cls : string) (attrs : gmap string value) (st : pystate) :
  heap st !! self = Some (OInst cls attrs) ->
  attrs !! "memory" = Some (VRef m) ->
  (forall mem : list value,
     heap st !! m = Some (OList mem) ->
     Forall printable mem ->
     print_memory (VRef self) st = (Return VNone, log st (memory_lines 0 mem)) /\
     List.length (memory_lines 0 mem) = List.length mem) /\
  (forall (good rest : list value) (kvs : list (string * value)),
     heap st !! m = Some (OList (good ++ VDict kvs :: rest)) ->
     Forall printable good ->
     dict_get kvs "role" = None ->
     print_memory (VRef self) st =
       (Raise (mkExn KeyError (py_repr (VStr "role"))),
        log st (memory_lines 0 good))).
Proof.
  intros Hself Hmem. split.
  - intros mem Hm Hall. split.
    + unfold print_memory.
      erewrite bind_Return by (eapply getattr_instance; eassumption).
      erewrite bind_Return by (apply list_items_list; exact Hm).
      destruct (print_memory_items 0 mem st Hall) as (units & Hrun).
      erewrite bind_Return by exact Hrun. reflexivity.
    + clear Hm Hall. generalize 0%nat.
      induction mem as [|x mem IH]; intros i; [reflexivity|].
      cbn [memory_lines List.length]. f_equal. apply IH.
  - intros good rest kvs Hm Hall Hbad. unfold print_memory.
    erewrite bind_Return by (eapply getattr_instance; eassumption).
    erewrite bind_Return by (apply list_items_list; exact Hm).
    erewrite bind_Raise by (apply print_memory_items_raise; assumption).
    reflexivity.
Qed.

Lemma print_full_memory_items i messages st :
  Forall printable messages ->
  exists units evs,
    comprehension
      (fun im : nat * value =>
         role ← getitem (snd im) "role";
         content ← getitem (snd im) "content";
         _ ← print_in_color
               ("    [" +:+ format (VInt (Z.of_nat (fst im))) +:+ "] "
                +:+ format role +:+ ": " +:+ format content) "green";
         match snd im with
         | VDict kvs =>
             match dict_get kvs "function_call" with
             | Some fc =>
                 print_in_color ("        function_call: " +:+ format fc) "green"
             | None => mret tt
             end
         | _ => mret tt
         end)
      (combine (seq i (List.length messages)) messages) st =
    (Return units, log st evs) /\
    completions evs = 0%nat /\ inputs evs = 0%nat.
Proof.
  intros Hall. revert i st.
  induction Hall as [|message messages Hm _ IH]; intros i st.
  - exists [], []. cbn. rewrite log_nil. auto.
  - destruct Hm as (kvs & role & content & -> & Hrole & Hcontent).
    cbn [List.length seq combine comprehension fst snd].
    set (ev1 := EvPrint ("    [" +:+ format (VInt (Z.of_nat i)) +:+ "] "
                         +:+ format role +:+ ": " +:+ format content)
                        "green" newline).
    destruct (dict_get kvs "function_call") as [fc|] eqn:Hfc.
    + set (ev2 := EvPrint ("        function_call: " +:+ format fc) "green" newline).
      destruct (IH (S i) (log st [ev1; ev2])) as (units & evs & Hrest & Hc & Hi).
      exists (tt :: units), (ev1 :: ev2 :: evs).
      split; [|split; [exact Hc | exact Hi]].
      erewrite bind_Return.
      2:{ erewrite bind_Return by (unfold getitem; rewrite Hrole; reflexivity).
          erewrite bind_Return by (unfold getitem; rewrite Hcontent; reflexivity).
          erewrite bind_Return by apply print_in_color_run.
          rewrite ?Hfc. apply print_in_color_run. }
      rewrite log_log.
      erewrite bind_Return by exact Hrest.
      rewrite log_log. reflexivity.
    + destruct (IH (S i) (log st [ev1])) as (units & evs & Hrest & Hc & Hi).
      exists (tt :: units), (ev1 :: evs).
      split; [|split; [exact Hc | exact Hi]].
      erewrite bind_Return.
      2:{ erewrite bind_Return by (unfold getitem; rewrite Hrole; reflexivity).
          erewrite bind_Return by (unfold getitem; rewrite Hcontent; reflexivity).
          erewrite bind_Return by apply print_in_color_run.
          rewrite ?Hfc. reflexivity. }
      erewrite bind_Return by exact Hrest.
      rewrite log_log. reflexivity.
Qed.

Lemma inputs_app evs1 evs2 : inputs (evs1 ++ evs2) = (inputs evs1 + inputs evs2)%nat.
Proof.
  induction evs1 as [|ev evs1 IH]; [reflexivity|].
  destruct ev; cbn; rewrite IH; reflexivity.
Qed.

Lemma console_loop_mem_lines self m cls attrs mem k stdin st :
  heap st !! self = Some (OInst cls attrs) ->
  attrs !! "memory" = Some (VRef m) ->
  heap st !! m = Some (OList mem) ->
  Forall printable mem ->
  exists evs,
    console_loop CALLABLE_FUNCTION_TABLE (VRef self) (repeat "::mem" k ++ stdin) st =
      console_loop CALLABLE_FUNCTION_TABLE (VRef self) stdin (log st evs) /\
    completions evs = 0%nat /\ inputs evs = k.
Proof.
  intros Hself Hmem Hm Hall. revert st Hself Hm.
  induction k as [|k IH]; intros st Hself Hm.
  - exists []. rewrite log_nil. auto.
  - destruct (print_full_memory_items 0 mem (log st [EvInput ">> "]) Hall)
      as (units & evs & Hrun & Hc & Hi).
    destruct (IH (log (log st [EvInput ">> "]) evs)) as (evs' & Hrest & Hc' & Hi');
      [exact Hself | exact Hm |].
    exists ((EvInput ">> " :: evs) ++ evs').
    split; [|split].
    + cbn [repeat app console_loop].
      erewrite bind_Return by reflexivity.
      change (is_quit "::mem") with false. cbv iota.
      change (String.eqb "::mem" "::mem") with true. cbv iota.
      erewrite bind_Return.
      2:{ unfold print_full_memory.
          erewrite bind_Return
            by (eapply getattr_instance; cbn [log heap]; eassumption).
          erewrite bind_Return by (apply list_items_list; cbn [log heap]; exact Hm).
          erewrite bind_Return by exact Hrun. reflexivity. }
      rewrite Hrest, !log_log. reflexivity.
    + rewrite completions_app. cbn [completions]. rewrite Hc, Hc'. reflexivity.
    + rewrite inputs_app. cbn [inputs]. rewrite Hi, Hi'. lia.
Qed.

(** X17. A console session of any number of "::mem" lines: when a quit
    word ("exit", "q", "quit()" or "quit") follows, the loop ends normally
    having read exactly those lines and the quit word, whatever input is
    left; when the input ends instead, [EOFError] is raised. In both cases
    no completion request is sent and no object is changed. *)
Theorem console_loop_mem_session
  (self m : loc) (cls : string) (attrs : gmap string value) (mem : list value)
  (k : nat) (st : pystate) :
  heap st !! self = Some (OInst cls attrs) ->
  attrs !! "memory" = Some (VRef m) ->
  heap st !! m = Some (OList mem) ->
  Forall printable mem ->
  (forall (q : string) (rest : list string),
     is_quit q = true ->
     exists evs,
       console_loop CALLABLE_FUNCTION_TABLE (VRef self)
         (repeat "::mem" k ++ q :: rest) st = (Return tt, log st evs) /\
       completions evs = 0%nat /\ inputs evs = S k) /\
  (exists evs,
     console_loop CALLABLE_FUNCTION_TABLE (VRef self) (repeat "::mem" k) st =
       (Raise (mkExn EOFError "EOF when reading a line"), log st evs) /\
     completions evs = 0%nat /\ inputs evs = S k).
Proof.
  intros Hself Hmem Hm Hall. split.
  - intros q rest Hq.
    destruct (console_loop_mem_lines self m cls attrs mem k (q :: rest) st
                Hself Hmem Hm Hall) as (evs & Hrun & Hc & Hi).
    exists (evs ++ [EvInput ">> "]). split; [|split].
    + rewrite Hrun. cbn [console_loop].
      erewrite bind_Return by reflexivity.
      rewrite Hq. unfold mret, M_ret, log. cbn [heap BOTS trace].
      rewrite <- app_assoc. reflexivity.
    + rewrite completions_app, Hc. reflexivity.
    + rewrite inputs_app, Hi. cbn. lia.
  - destruct (console_loop_mem_lines self m cls attrs mem k [] st
                Hself Hmem Hm Hall) as (evs & Hrun & Hc & Hi).
    exists (evs ++ [EvInput ">> "]). split; [|split].
    + rewrite app_nil_r in Hrun. rewrite Hrun. cbn [console_loop].
      erewrite bind_Return by reflexivity.
      unfold raise, log. cbn [heap BOTS trace].
      rewrite <- app_assoc. reflexivity.
    + rewrite completions_app, Hc. reflexivity.
    + rewrite inputs_app, Hi. cbn. lia.
Qed.

End ConsoleMore.


(** ** The further properties on the example agent *)
Section PlainExamplesMore.
#[local] Existing Instance plain_runtime.

Lemma example_state_agent_with :
  agent_with (heap example_state) example_agent example_memory example_mem
    {[ "temperature" := VFloat 1%float ]} (VStr "Bot") (VStr "gpt-4") "agent"
    false 1.
Proof.
  exists example_attrs.
  split; [exact example_state_agent|].
  do 7 (split; [reflexivity|]).
  split; [exact example_state_memory | exact example_state_engine_args].
Qed.

Lemma example_mem_printable : Forall printable example_mem.
Proof.
  repeat constructor. eexists _, _, _. repeat split; reflexivity.
Qed.

(** X7 on the example table and agent: all three functions are offered. *)
Lemma callable_function_descriptions_filters_witness :
  exists ds : list value,
    _callable_function_descriptions example_table (VRef example_agent)
      example_state = (Return ds, example_state) /\
    ds = [func_sig ping; func_sig fail; func_sig leave].
Proof.
  destruct (callable_function_descriptions_filters example_table example_agent
              "Agent" example_attrs "agent" example_state
              example_state_agent eq_refl) as [(ds & Hrun & Hds & _) _].
  exists ds. split; [exact Hrun|]. rewrite Hds. vm_compute. reflexivity.
Defined.

(** X9 on [ping], whose entry has the [agent_name] flag alone. *)
Lemma call_function_injection_witness :
  exists args : list (string * value),
    _call_function example_table (VRef example_agent)
      (VDict [("name", VStr "ping"); ("arguments", VStr "{}")]) VNone
      example_state =
      after_call
        (f_call ping args
           (log example_state (call_banner (VStr "Bot") (VStr "ping") (VDict []))))
    /\
    dict_get args "agent_name" = Some (VStr "Bot") /\
    dict_get args "self" = None /\
    dict_get args "agent" = None.
Proof.
  destruct (call_function_injection example_table example_agent "Agent"
              example_attrs (VStr "Bot") VNone (VStr "{}")
              [("name", VStr "ping"); ("arguments", VStr "{}")] []
              example_state "ping"
              (mkInfo (func_sig ping) ping false false true ".*"))
    as (args & Hrun & _ & _ & Hname & Hself & Hagent & _).
  - reflexivity.
  - reflexivity.
  - exact example_state_agent.
  - reflexivity.
  - reflexivity.
  - vm_compute. reflexivity.
  - exists args. split; [exact Hrun|].
    split; [apply Hname; reflexivity|].
    split; [apply Hself; reflexivity | apply Hagent; reflexivity].
Defined.

(** X11 on the example agent, with a service that has no answer. *)
Lemma think_and_act_transport_failure_witness :
  think_and_act example_table (VRef example_agent) VNone example_state =
    (Raise (mkExn (OtherException "APIConnectionError") "no response"),
     mkState (heap example_state) (BOTS example_state)
       (trace example_state
        ++ [EvPrint (format (VStr "Bot") +:+ " >> ") "yellow" newline;
            EvCompletion (VStr "gpt-4") example_mem
              (request_kwargs example_table "agent"
                 {[ "temperature" := VFloat 1%float ]})])).
Proof.
  apply (think_and_act_transport_failure example_table example_agent
           example_memory example_mem {[ "temperature" := VFloat 1%float ]}
           (VStr "Bot") (VStr "gpt-4") VNone "agent" false 1 example_state).
  - exact example_state_agent_with.
  - lia.
  - reflexivity.
Defined.

(** X13 on the example avatar: the three facts about Alice. *)
Lemma review_info_sublist_witness :
  sublist ["Alice is born in 1990."; "Alice is in Kansas."; "Alice likes David."]
    info_list.
Proof.
  apply (review_info_sublist example_ask_avatar VNone example_state example_state).
  vm_compute. reflexivity.
Defined.

(** X14 on an avatar that always says no and one that always says yes. *)
Lemma review_info_unanimous_witness :
  (exists st',
     review_info (fun _ _ => mret "no") VNone example_state = (Return [], st')) /\
  (exists st',
     review_info (fun _ _ => mret "Yes") VNone example_state =
       (Return ["Alice is born in 1990."], st')).
Proof.
  split.
  - apply (review_info_unanimous (fun _ _ => mret "no") VNone example_state).
    intros agent content st. exists "no", st. split; reflexivity.
  - apply (review_info_unanimous (fun _ _ => mret "Yes") VNone example_state).
    intros agent content st. exists "Yes", st. split; reflexivity.
Defined.

(** X16 on the example agent, and on the same agent after a message without
    a role has been put in its memory. *)
Lemma print_memory_lines_witness :
  print_memory (VRef example_agent) example_state =
    (Return VNone, log example_state (memory_lines 0 example_mem)) /\
  print_memory (VRef example_agent)
    (mkState (<[example_memory :=
                  OList (example_mem ++ [VDict [("content", VStr "hi")]])]>
                (heap example_state))
       (BOTS example_state) (trace example_state)) =
    (Raise (mkExn KeyError (py_repr (VStr "role"))),
     log (mkState (<[example_memory :=
                       OList (example_mem ++ [VDict [("content", VStr "hi")]])]>
                     (heap example_state))
            (BOTS example_state) (trace example_state))
       (memory_lines 0 example_mem)).
Proof.
  split.
  - apply (print_memory_lines example_agent example_memory "Agent" example_attrs
             example_state example_state_agent eq_refl).
    + exact example_state_memory.
    + exact example_mem_printable.
  - destruct (print_memory_lines example_agent example_memory "Agent"
                example_attrs
                (mkState (<[example_memory :=
                              OList (example_mem
                                     ++ [VDict [("content", VStr "hi")]])]>
                            (heap example_state))
                   (BOTS example_state) (trace example_state))) as [_ Hbad].
    + cbn [heap]. rewrite lookup_insert_ne by discriminate.
      exact example_state_agent.
    + reflexivity.
    + apply (Hbad example_mem [] [("content", VStr "hi")]).
      * cbn [heap]. apply lookup_insert_eq.
      * exact example_mem_printable.
      * reflexivity.
Defined.

(** X17 on the example agent: two "::mem" lines, then "quit" with a line
    left over. *)
Lemma console_loop_mem_session_witness :
  exists evs,
    console_loop example_table (VRef example_agent)
      ["::mem"; "::mem"; "quit"; "hello"] example_state =
      (Return tt, log example_state evs) /\
    completions evs = 0%nat /\ inputs evs = 3%nat.
Proof.
  destruct (console_loop_mem_session example_table example_agent example_memory
              "Agent" example_attrs example_mem 2 example_state
              example_state_agent eq_refl example_state_memory
              example_mem_printable) as [Hquit _].
  apply (Hquit "quit" ["hello"]). reflexivity.
Defined.

End PlainExamplesMore.

Section HelloExamplesMore.
#[local] Existing Instance hello_runtime.

(** X6 on the plain stream, echoed. *)
Lemma stream_chat_completion_echo_witness :
  exists (kvs : list (string * value)) (st' : pystate) (out : list event),
    stream_chat_completion (VStr "gpt-4") example_mem true [] example_state =
      (Return (VDict kvs), st') /\
    trace st' =
      trace example_state ++ EvCompletion (VStr "gpt-4") example_mem [] :: out /\
    completions out = 0%nat /\
    dict_get kvs "content" = Some (VStr (joined (printed out))).
Proof.
  destruct (stream_chat_completion_echo (VStr "gpt-4") example_mem true []
              example_state hello_stream)
    as (kvs & st' & out & Hrun & Ht & Hc & Hecho & _).
  - vm_compute. reflexivity.
  - exists kvs, st', out. auto.
Defined.

(** X10 on the example agent, which keeps plain replies. *)
Lemma think_and_act_plain_reply_witness :
  exists out : list event,
    think_and_act example_table (VRef example_agent) VNone example_state =
      (Return VNone,
       mkState
         (<[example_memory :=
              OList (example_mem ++ [reply_of true hello_stream])]>
            (heap example_state))
         (BOTS example_state)
         (trace example_state
          ++ EvPrint (format (VStr "Bot") +:+ " >> ") "yellow" newline
          :: EvCompletion (VStr "gpt-4") example_mem
               (request_kwargs example_table "agent"
                  {[ "temperature" := VFloat 1%float ]}) :: out)) /\
    completions out = 0%nat /\
    reply_of true hello_stream =
      VDict [("role", VStr "assistant"); ("content", VStr "Hello")].
Proof.
  destruct (think_and_act_plain_reply example_table example_agent example_memory
              example_mem {[ "temperature" := VFloat 1%float ]}
              (VStr "Bot") (VStr "gpt-4") VNone "agent" false 1 example_state
              hello_stream example_state_agent_with) as [_ Hrun].
  destruct Hrun as (out & Hrun & Hc & Hreply);
    [lia | reflexivity | reflexivity |].
  exists out. split; [exact Hrun|]. split; [exact Hc|].
  vm_compute. reflexivity.
Defined.

End HelloExamplesMore.

Section CallExamplesMore.
#[local] Existing Instance call_runtime.

(** X5 on the stream with a function call. *)
Lemma stream_chat_completion_role_and_call_witness :
  exists (kvs : list (string * value)) (st' : pystate),
    stream_chat_completion (VStr "gpt-4") example_mem true [] example_state =
      (Return (VDict kvs), st') /\
    dict_get kvs "role" = Some (VStr (last_role call_stream)) /\
    (dict_get kvs "function_call" = None <-> fc_items call_stream = []) /\
    heap st' = heap example_state.
Proof.
  apply stream_chat_completion_role_and_call. reflexivity.
Defined.

(** X12 on the example agent: the model asks for [rephrase], which the
    example table does not hold. *)
Lemma think_and_act_unknown_function_witness :
  exists (out : list event) (st2 : pystate),
    think_and_act example_table (VRef example_agent) VNone example_state =
      (Return VNone, st2) /\
    heap st2 =
      <[example_memory :=
          OList (example_mem
                 ++ [reply_of true call_stream;
                     VDict [("role", VStr "function");
                            ("name", VStr "rephrase");
                            ("content",
                             VStr ("{" +:+ dquote +:+ "error" +:+ dquote +:+ ": "
                                   +:+ dquote
                                   +:+ (dquote +:+ "rephrase" +:+ dquote
                                        +:+ " is not a callable function.")
                                   +:+ dquote +:+ "}"))]])]>
        (heap example_state) /\
    completions out = 0%nat.
Proof.
  destruct (think_and_act_unknown_function example_table example_agent
              example_memory example_mem {[ "temperature" := VFloat 1%float ]}
              (VStr "Bot") (VStr "gpt-4") VNone "agent" false 1 example_state
              call_stream "re" ["phrase"]
              ("{" +:+ dquote +:+ "error" +:+ dquote +:+ ": " +:+ dquote
               +:+ (dquote +:+ "rephrase" +:+ dquote
                    +:+ " is not a callable function.")
               +:+ dquote +:+ "}")
              example_state_agent_with)
    as (out & st2 & _ & Hheap & _ & Hc & Hone).
  - lia.
  - reflexivity.
  - reflexivity.
  - reflexivity.
  - vm_compute. reflexivity.
  - exists out, st2. split; [apply Hone; reflexivity|].
    split; [exact Hheap | exact Hc].
Defined.

End CallExamplesMore.

(** ** Agent.response_to_message *)
Section ResponseFacts.
Context `{Runtime}.

Lemma list_extend_list st l xs items :
  heap st !! l = Some (OList xs) ->
  list_extend (VRef l) items st =
    (Return tt,
     mkState (<[l := OList (xs ++ items)]> (heap st)) (BOTS st) (trace st)).
Proof. intros Hl. unfold list_extend. munfold. rewrite Hl. reflexivity. Qed.

Lemma messages_of_run st message msgs :
  messages_of (heap st) message = Some msgs ->
  (if is_dict (heap st) message then mret [message] else list_items message) st =
    (Return msgs, st).
Proof.
  unfold messages_of, is_dict, list_items. munfold.
  destruct message as [| | | | | | |l]; try discriminate;
    try (intros [= <-]; reflexivity).
  destruct (heap st !! l) as [[| |]|] eqn:E; try discriminate;
    intros [= <-]; cbv beta; rewrite ?E; reflexivity.
Qed.

Lemma message_of_acc_content acc st :
  getitem (message_of_acc acc) "content" st =
    (Return (VStr (acc_content acc)), st).
Proof. reflexivity. Qed.

Lemma asked_fold self cls attrs name print_output msgs :
  attrs !! "name" = Some name ->
  (print_output = true -> Forall has_content msgs) ->
  forall (acc : M (list value)) st xs st1,
    acc st = (Return xs, st1) ->
    heap st1 !! self = Some (OInst cls attrs) ->
    exists pre : list event,
      fold_left
        (fun (acc : M (list value)) (m : value) =>
           new_memory ← acc;
           _ ← (if print_output then
                  name ← getattr (VRef self) "name";
                  content ← getitem m "content";
                  print_in_color
                    (format name +:+ " is asked: " +:+ format content) "green"
                else mret tt);
           mret (new_memory ++ [m]))
        msgs acc st =
        (Return (xs ++ msgs), log st1 pre) /\
      completions pre = 0%nat /\
      (print_output = false -> pre = []).
Proof.
  intros Hname Hall.
  induction msgs as [|m msgs IH]; intros acc st xs st1 Hacc Hself.
  - exists []. cbn [fold_left]. rewrite app_nil_r, log_nil. auto.
  - cbn [fold_left].
    destruct print_output.
    + pose proof (Hall eq_refl) as Hall'.
      apply Forall_cons in Hall' as [(kvs & content & -> & Hcontent) Hrest].
      match goal with
      | |- context [fold_left _ msgs ?a st] =>
          destruct (IH (fun _ => Hrest) a st (xs ++ [VDict kvs])
                      (log st1 [EvPrint (format name +:+ " is asked: "
                                         +:+ format content) "green" newline]))
            as (pre & Hrun & Hc & _)
      end.
      * erewrite bind_Return by exact Hacc.
        erewrite bind_Return.
        2:{ erewrite bind_Return by (eapply getattr_instance; eassumption).
            erewrite bind_Return by (unfold getitem; rewrite Hcontent; reflexivity).
            apply print_in_color_run. }
        reflexivity.
      * exact Hself.
      * eexists. split; [rewrite Hrun, log_log, <- app_assoc; reflexivity|].
        split; [|discriminate].
        rewrite completions_app, Hc. reflexivity.
    + match goal with
      | |- context [fold_left _ msgs ?a st] =>
          destruct (IH (fun E => ltac:(discriminate E)) a st (xs ++ [m]) st1)
            as (pre & Hrun & Hc & Hpre)
      end.
      * erewrite bind_Return by exact Hacc.
        erewrite bind_Return by reflexivity. reflexivity.
      * exact Hself.
      * exists pre. split; [rewrite Hrun, <- app_assoc; reflexivity|].
        split; [exact Hc | exact Hpre].
Qed.

(** X18. [response_to_message] sends one request: over a copy of the memory
    followed by the message (or the messages of a list), with the sampling
    parameters and without any function schema. It returns the reply. Unless
    [store_in_memory] is set the agent's memory is as before; when it is set
    the messages and then the reply are appended to it. Nothing else changes
    in either case. *)
Theorem response_to_message_request
  (self m : loc) (mem : list value) (ea : gmap string value)
  (name engine : value) (role : string) (ignore : bool) (repeats : Z)
  (st : pystate) (message : value) (msgs : list value)
  (store_in_memory print_output : bool) (resp : list chunk) :
  agent_with (heap st) self m mem ea name engine role ignore repeats ->
  messages_of (heap st) message = Some msgs ->
  (print_output = true -> Forall has_content msgs) ->
  chat_completion (completions (trace st)) engine (mem ++ msgs) (map_to_list ea) =
    Return resp ->
  exists pre post : list event,
    response_to_message (VRef self) message store_in_memory print_output st =
      (Return (reply_of (negb ignore) resp),
       mkState
         (if store_in_memory
          then <[m := OList (mem ++ msgs ++ [reply_of (negb ignore) resp])]>
                 (heap st)
          else heap st)
         (BOTS st)
         (trace st ++ pre
          ++ EvCompletion engine (mem ++ msgs) (map_to_list ea) :: post)) /\
    completions pre = 0%nat /\ completions post = 0%nat /\
    (print_output = false -> pre = []).
Proof.
  intros (attrs & Hself & Hname & Hrole & Hengine & Hmem & Hign & _ & Hea & Hm &
          Hcls) Hmsgs Hall Hresp.
  destruct (asked_fold self "Agent" attrs name print_output msgs Hname Hall
              (mret mem) st mem st eq_refl Hself) as (pre & Hfold & Hpre & Hoff).
  assert (Hresp0 : chat_completion (completions (trace (log st pre))) engine
                     (mem ++ msgs) (map_to_list ea) = Return resp)
    by (rewrite completions_log by exact Hpre; exact Hresp).
  destruct (stream_chat_completion_run engine (mem ++ msgs) (negb ignore)
              (map_to_list ea) (log st pre) resp Hresp0) as (out & Hrun & Hout).
  set (reply := message_of_acc (fst (absorb_stream (negb ignore) resp))) in *.
  set (yellow := if print_output
                 then [EvPrint (format name +:+ " >> "
                                +:+ format (VStr (acc_content
                                     (fst (absorb_stream (negb ignore) resp)))))
                         "yellow" newline]
                 else []).
  exists pre, (out ++ yellow).
  split; [|split; [exact Hpre|split; [|exact Hoff]]].
  2:{ rewrite completions_app, Hout. unfold yellow.
      destruct print_output; reflexivity. }
  unfold response_to_message.
  erewrite bind_Return by (eapply getattr_instance; eassumption).
  erewrite bind_Return by (apply list_items_list; exact Hm).
  erewrite bind_Return by reflexivity.
  erewrite bind_Return by (apply messages_of_run; exact Hmsgs).
  erewrite bind_Return by exact Hfold.
  erewrite bind_Return by (eapply getattr_instance; cbn [log heap]; eassumption).
  erewrite bind_Return by (eapply getattr_instance; cbn [log heap]; eassumption).
  erewrite bind_Return by reflexivity.
  erewrite bind_Return
    by (eapply getattr_class; cbn [log heap]; [exact Hself | exact Hea | reflexivity]).
  erewrite bind_Return
    by (unfold dict_items; erewrite bind_Return by reflexivity;
        cbn [log heap]; rewrite Hcls; reflexivity).
  cbn [truthy].
  erewrite bind_Return by exact Hrun.
  fold reply.
  set (st2 := mkState (heap (log st pre)) (BOTS (log st pre))
                (trace (log st pre)
                 ++ EvCompletion engine (mem ++ msgs) (map_to_list ea) :: out)).
  erewrite (bind_Return _ _ st2 tt (log st2 yellow)).
  2:{ unfold yellow. destruct print_output.
      - erewrite bind_Return by (eapply getattr_instance; cbn [log heap]; eassumption).
        erewrite bind_Return by apply message_of_acc_content.
        apply print_in_color_run.
      - rewrite log_nil. reflexivity. }
  assert (Htrace : trace (log st2 yellow) =
            trace st ++ pre
            ++ EvCompletion engine (mem ++ msgs) (map_to_list ea) :: out ++ yellow).
  { cbn [log trace st2]. rewrite <- !app_assoc. reflexivity. }
  destruct store_in_memory.
  - assert (Hne : self <> m) by congruence.
    erewrite bind_Return.
    2:{ erewrite bind_Return by (eapply getattr_instance; cbn [log heap]; eassumption).
        erewrite bind_Return by (apply list_extend_list; cbn [log heap]; exact Hm).
        erewrite bind_Return.
        2:{ apply (setattr_instance _ self "Agent" attrs). cbn [heap log st2].
            rewrite lookup_insert_ne by congruence. exact Hself. }
        erewrite bind_Return.
        2:{ eapply getattr_instance; [cbn [heap]; apply lookup_insert_eq|].
            apply lookup_insert_eq. }
        apply list_append_list. cbn [heap].
        rewrite lookup_insert_ne by congruence. apply lookup_insert_eq. }
    unfold mret, M_ret. cbn [heap BOTS trace]. rewrite Htrace.
    unfold st2, log. cbn [heap BOTS trace].
    rewrite (insert_id attrs "memory" (VRef m)) by exact Hmem.
    rewrite (insert_id (<[m := OList (mem ++ msgs)]> (heap st)) self)
      by (rewrite lookup_insert_ne by congruence; exact Hself).
    rewrite insert_insert_eq, <- (List.app_assoc mem msgs). reflexivity.
  - erewrite bind_Return by reflexivity.
    unfold mret, M_ret.
    change (log st2 yellow)
      with (mkState (heap st) (BOTS st) (trace (log st2 yellow))).
    rewrite Htrace. reflexivity.
Qed.

End ResponseFacts.

(** ** The console session: one exchange *)
Section ConsoleExchange.
Context `{Runtime}.
Variable CALLABLE_FUNCTION_TABLE : registry.

Lemma receive_message_echo st self m attrs mem name kvs content :
  heap st !! self = Some (OInst "Agent" attrs) ->
  attrs !! "name" = Some name ->
  attrs !! "memory" = Some (VRef m) ->
  heap st !! m = Some (OList mem) ->
  dict_get kvs "content" = Some content ->
  receive_message (VRef self) (VDict kvs) true st =
    (Return VNone,
     mkState (<[m := OList (mem ++ [VDict kvs])]> (heap st)) (BOTS st)
       (trace st
        ++ [EvPrint (format name +:+ " received a message: " +:+ format content)
              "green" newline])).
Proof.
  intros Hself Hname Hmem Hm Hc. unfold receive_message.
  erewrite bind_Return.
  2:{ erewrite bind_Return by (eapply getattr_instance; eassumption).
      erewrite bind_Return by (unfold getitem; rewrite Hc; reflexivity).
      apply print_in_color_run. }
  erewrite bind_Return
    by (eapply getattr_instance; [exact Hself | exact Hmem]).
  erewrite bind_Return by (apply list_append_list; exact Hm).
  reflexivity.
Qed.

(** Storing a message keeps the agent what it is. *)
Lemma agent_with_memory h self m mem mem' ea name engine role ignore repeats :
  agent_with h self m mem ea name engine role ignore repeats ->
  agent_with (<[m := OList mem']> h) self m mem' ea name engine role ignore
    repeats.
Proof.
  intros (attrs & Hself & Hname & Hrole & Hengine & Hmem & Hign & Hrep & Hea &
          Hm & Hcls).
  exists attrs.
  split; [rewrite lookup_insert_ne by congruence; exact Hself|].
  do 7 (split; [assumption|]).
  split; [apply lookup_insert_eq|].
  rewrite lookup_insert_ne by congruence. exact Hcls.
Qed.

(** X19. One exchange at the console: a line that is neither a quit word,
    nor "::mem", nor blank is stored as a user message, one completion
    request is sent over the memory that ends with it, and, when the reply is
    a plain one, the reply is stored after it unless the agent ignores plain
    replies; the quit word then ends the loop. *)
Theorem console_loop_one_exchange
  (self m : loc) (mem : list value) (ea : gmap string value)
  (name engine : value) (role : string) (ignore : bool) (repeats : Z)
  (st : pystate) (line q : string) (rest : list string) (resp : list chunk) :
  agent_with (heap st) self m mem ea name engine role ignore repeats ->
  0 < repeats ->
  is_quit line = false ->
  String.eqb line "::mem" = false ->
  String.eqb (str_strip line) "" = false ->
  is_quit q = true ->
  chat_completion (completions (trace st)) engine
    (mem ++ [VDict [("role", VStr "user"); ("content", VStr line)]])
    (request_kwargs CALLABLE_FUNCTION_TABLE role ea) = Return resp ->
  fc_items resp = [] ->
  exists out : list event,
    console_loop CALLABLE_FUNCTION_TABLE (VRef self) (line :: q :: rest) st =
      (Return tt,
       mkState
         (<[m := OList (mem
                        ++ VDict [("role", VStr "user"); ("content", VStr line)]
                        :: (if ignore then []
                            else [reply_of (negb ignore) resp]))]> (heap st))
         (BOTS st)
         (trace st
          ++ [EvInput ">> ";
              EvPrint (format name +:+ " received a message: "
                       +:+ format (VStr line)) "green" newline;
              EvPrint (format name +:+ " >> ") "yellow" newline;
              EvCompletion engine
                (mem ++ [VDict [("role", VStr "user"); ("content", VStr line)]])
                (request_kwargs CALLABLE_FUNCTION_TABLE role ea)]
          ++ out ++ [EvInput ">> "])) /\
    completions out = 0%nat.
Proof.
  intros Hag Hpos Hnq Hnm Hnb Hq Hresp Hplain.
  pose proof Hag as (attrs & Hself & Hname & _ & _ & Hmem & _ & _ & _ & Hm & _).
  set (user := VDict [("role", VStr "user"); ("content", VStr line)]) in *.
  set (st0 := log st [EvInput ">> "]).
  set (st1 := mkState (<[m := OList (mem ++ [user])]> (heap st0)) (BOTS st0)
                (trace st0
                 ++ [EvPrint (format name +:+ " received a message: "
                              +:+ format (VStr line)) "green" newline])).
  assert (Hag1 : agent_with (heap st1) self m (mem ++ [user]) ea name engine role
                   ignore repeats)
    by (apply (agent_with_memory _ _ _ mem); exact Hag).
  assert (Hresp1 : chat_completion (completions (trace st1)) engine
                     (mem ++ [user])
                     (request_kwargs CALLABLE_FUNCTION_TABLE role ea) = Return resp).
  { unfold st1, st0. cbn [trace log]. rewrite !completions_app. cbn [completions].
    rewrite !Nat.add_0_r. exact Hresp. }
  destruct (think_and_act_plain_run CALLABLE_FUNCTION_TABLE self m (mem ++ [user])
              ea name engine VNone role ignore repeats st1 resp Hag1)
    as [_ Hrun].
  destruct (Hrun Hpos Hresp1 Hplain) as (out & Hact & Hout & _).
  exists out. split; [|exact Hout].
  cbn [console_loop].
  erewrite bind_Return by reflexivity.
  rewrite Hnq, Hnm, Hnb. cbn [negb].
  erewrite bind_Return.
  2:{ apply (receive_message_echo _ self m attrs mem name _ (VStr line));
        [exact Hself | exact Hname | exact Hmem | exact Hm | reflexivity]. }
  fold user. fold st0. fold st1.
  erewrite bind_Return by exact Hact.
  erewrite bind_Return by reflexivity.
  rewrite Hq.
  unfold mret, M_ret. cbn [heap BOTS trace]. unfold st1, st0, log.
  cbn [heap BOTS trace].
  destruct ignore.
  - rewrite <- !app_assoc. reflexivity.
  - rewrite insert_insert_eq, <- !app_assoc. reflexivity.
Qed.

End ConsoleExchange.

Section HelloExamplesResponse.
#[local] Existing Instance hello_runtime.

(** X18 on the example agent: one message, stored. *)
Lemma response_to_message_request_witness :
  exists pre post : list event,
    response_to_message (VRef example_agent)
      (VDict [("role", VStr "user"); ("content", VStr "hi")]) true true
      example_state =
      (Return (reply_of true hello_stream),
       mkState
         (<[example_memory :=
              OList (example_mem
                     ++ [VDict [("role", VStr "user"); ("content", VStr "hi")]]
                     ++ [reply_of true hello_stream])]> (heap example_state))
         (BOTS example_state)
         (trace example_state ++ pre
          ++ EvCompletion (VStr "gpt-4")
               (example_mem
                ++ [VDict [("role", VStr "user"); ("content", VStr "hi")]])
               (map_to_list {[ "temperature" := VFloat 1%float ]}) :: post)) /\
    completions pre = 0%nat /\ completions post = 0%nat.
Proof.
  destruct (response_to_message_request example_agent example_memory example_mem
              {[ "temperature" := VFloat 1%float ]} (VStr "Bot") (VStr "gpt-4")
              "agent" false 1 example_state
              (VDict [("role", VStr "user"); ("content", VStr "hi")])
              [VDict [("role", VStr "user"); ("content", VStr "hi")]]
              true true hello_stream example_state_agent_with)
    as (pre & post & Hrun & Hpre & Hpost & _).
  - reflexivity.
  - intros _. repeat constructor. eexists _, _. split; reflexivity.
  - reflexivity.
  - exists pre, post. split; [exact Hrun|]. split; assumption.
Defined.

(** X19 on the example agent: "hi", then "quit". *)
Lemma console_loop_one_exchange_witness :
  exists out : list event,
    console_loop example_table (VRef example_agent) ["hi"; "quit"] example_state =
      (Return tt,
       mkState
         (<[example_memory :=
              OList (example_mem
                     ++ [VDict [("role", VStr "user"); ("content", VStr "hi")];
                         reply_of true hello_stream])]> (heap example_state))
         (BOTS example_state)
         (trace example_state
          ++ [EvInput ">> ";
              EvPrint (format (VStr "Bot") +:+ " received a message: "
                       +:+ format (VStr "hi")) "green" newline;
              EvPrint (format (VStr "Bot") +:+ " >> ") "yellow" newline;
              EvCompletion (VStr "gpt-4")
                (example_mem
                 ++ [VDict [("role", VStr "user"); ("content", VStr "hi")]])
                (request_kwargs example_table "agent"
                   {[ "temperature" := VFloat 1%float ]})]
          ++ out ++ [EvInput ">> "])) /\
    completions out = 0%nat.
Proof.
  apply (console_loop_one_exchange example_table example_agent example_memory
           example_mem {[ "temperature" := VFloat 1%float ]} (VStr "Bot")
           (VStr "gpt-4") "agent" false 1 example_state "hi" "quit" []
           hello_stream example_state_agent_with).
  - lia.
  - reflexivity.
  - reflexivity.
  - vm_compute. reflexivity.
  - reflexivity.
  - reflexivity.
  - reflexivity.
Defined.

End HelloExamplesResponse.

(** ** think_and_act: a dispatched call *)
Section ThinkActCall.
Context `{Runtime}.
Variable CALLABLE_FUNCTION_TABLE : registry.

Lemma after_call_told res st :
  match res with
  | Return _ => True
  | Raise e => is_Exception e = true
  end ->
  exists (v : value) (evs : list event),
    after_call (res, st) = (Return v, log st evs) /\
    match v with
    | VNone => VStr "done"
    | r => r
    end = told res.
Proof.
  intros Hres. destruct res as [r|e].
  - destruct r; try (eexists _, [_]; split; reflexivity).
    exists VNone, []. rewrite log_nil. split; reflexivity.
  - cbn [after_call]. rewrite Hres. eexists _, [_]. split; reflexivity.
Qed.

Lemma fc_get_field acc key print_output resp f fs :
  acc = fst (absorb_stream print_output resp) ->
  fc_fragments key resp = f :: fs ->
  fc_get (acc_function_call acc) key = Some (joined (f :: fs)).
Proof.
  intros -> Hfrags.
  rewrite absorb_stream_fst, absorb_function_call.
  cbn [acc_function_call fc_get].
  change (omap (field_of key) (concat (omap d_function_call (concat resp))))
    with (fc_fragments key resp).
  rewrite Hfrags. apply extend_None.
Qed.

(** X20. The model asks for a registered function with arguments that parse
    to a dictionary, and the function ends without touching the heap, by
    returning or by raising an exception that derives from [Exception]. Then
    the request and a function message are appended to memory, in this
    order; the content of the function message is the serialized return
    value, the serialized text "done" when the function returned [None], and
    the serialized error result when it raised. The loop goes on with one
    repeat less; with a budget of one repeat the cycle ends there. *)
Theorem think_and_act_function_result
  (self m : loc) (mem : list value) (ea : gmap string value)
  (name engine world : value) (role : string) (ignore : bool) (repeats : Z)
  (st : pystate) (resp : list chunk) (f a : string) (fs args : list string)
  (info : function_info) (kvs0 : list (string * value)) (res : outcome value)
  (evs : list event) (content : string) :
  agent_with (heap st) self m mem ea name engine role ignore repeats ->
  0 < repeats ->
  chat_completion (completions (trace st)) engine mem
    (request_kwargs CALLABLE_FUNCTION_TABLE role ea) = Return resp ->
  fc_fragments "name" resp = f :: fs ->
  fc_fragments "arguments" resp = a :: args ->
  dict_get CALLABLE_FUNCTION_TABLE (joined (f :: fs)) = Some info ->
  json_loads (VStr (joined (a :: args))) = Return (VDict kvs0) ->
  (forall tr : list event,
     f_call (fi_function info)
       (injected_arguments info (VRef self) world name kvs0)
       (mkState (<[m := OList (mem ++ [reply_of (negb ignore) resp])]> (heap st))
          (BOTS st) tr) =
       (res,
        mkState (<[m := OList (mem ++ [reply_of (negb ignore) resp])]> (heap st))
          (BOTS st) (tr ++ evs))) ->
  match res with
  | Return _ => True
  | Raise e => is_Exception e = true
  end ->
  json_dumps (told res) = Return content ->
  exists st2 : pystate,
    think_and_act CALLABLE_FUNCTION_TABLE (VRef self) world st =
      (_ ← think_and_act_loop CALLABLE_FUNCTION_TABLE
             (Nat.pred (Z.to_nat repeats)) (VRef self) world;
       mret VNone) st2 /\
    heap st2 =
      <[m := OList (mem ++ [reply_of (negb ignore) resp;
                            VDict [("role", VStr "function");
                                   ("name", VStr (joined (f :: fs)));
                                   ("content", VStr content)]])]> (heap st) /\
    (repeats = 1 ->
     think_and_act CALLABLE_FUNCTION_TABLE (VRef self) world st =
       (Return VNone, st2)).
Proof.
  intros Hag Hpos Hresp Hfrags Hargs Hinfo Hparse Hcall Hres Hdumps.
  pose proof Hag as (attrs & Hself & Hnm & _ & _ & Hmem & _ & Hrep & _ & Hm & _).
  set (st0 := log st [EvPrint (format name +:+ " >> ") "yellow" newline]).
  assert (Hresp0 : chat_completion (completions (trace st0)) engine mem
                     (request_kwargs CALLABLE_FUNCTION_TABLE role ea)
                   = Return resp).
  { unfold st0. rewrite completions_log by reflexivity. exact Hresp. }
  destruct (stream_chat_completion_run engine mem (negb ignore)
              (request_kwargs CALLABLE_FUNCTION_TABLE role ea) st0 resp Hresp0)
    as (out & Hrun & Hout).
  unfold reply_of in *.
  set (acc := fst (absorb_stream (negb ignore) resp)) in *.
  pose proof (fc_get_field acc "name" (negb ignore) resp f fs eq_refl Hfrags)
    as Hname.
  pose proof (fc_get_field acc "arguments" (negb ignore) resp a args eq_refl Hargs)
    as Harguments.
  destruct (acc_function_call acc) as [|kv fc] eqn:Hfc; [discriminate|].
  set (st1 := mkState (heap st0) (BOTS st0)
                (trace st0 ++ EvCompletion engine mem
                   (request_kwargs CALLABLE_FUNCTION_TABLE role ea) :: out)) in *.
  set (msg := message_of_acc acc) in *.
  assert (Hmsg : msg =
            VDict [("role", VStr (acc_role acc)); ("content", VStr (acc_content acc));
                   ("function_call",
                    VDict (map (fun kv : string * string => (fst kv, VStr (snd kv)))
                               (kv :: fc)))])
    by (apply message_of_acc_call; exact Hfc).
  set (h1 := <[m := OList (mem ++ [msg])]> (heap st)) in *.
  set (tr1 := trace st1
              ++ call_banner name (VStr (joined (f :: fs))) (VDict kvs0)).
  destruct (after_call_told res (mkState h1 (BOTS st) (tr1 ++ evs)) Hres)
    as (v & evs' & Hafter & Htold).
  assert (Hh1self : h1 !! self = Some (OInst "Agent" attrs))
    by (unfold h1; rewrite lookup_insert_ne by congruence; exact Hself).
  assert (Hdispatch :
    _call_function CALLABLE_FUNCTION_TABLE (VRef self)
      (VDict (map (fun kv : string * string => (fst kv, VStr (snd kv))) (kv :: fc)))
      world (mkState h1 (BOTS st) (trace st1)) =
      (Return v, log (mkState h1 (BOTS st) (tr1 ++ evs)) evs')).
  { erewrite (_call_function_invokes CALLABLE_FUNCTION_TABLE self "Agent" attrs);
      cycle 1.
    - rewrite dict_get_map_VStr, Hname. reflexivity.
    - exact Hinfo.
    - exact Hh1self.
    - exact Hnm.
    - rewrite dict_get_map_VStr, Harguments. reflexivity.
    - exact Hparse.
    - change (log (mkState h1 (BOTS st) (trace st1))
                (call_banner name (VStr (joined (f :: fs))) (VDict kvs0)))
        with (mkState h1 (BOTS st) tr1).
      rewrite (Hcall tr1). exact Hafter. }
  assert (Hact :
    act_on CALLABLE_FUNCTION_TABLE (VRef self) world msg st1 =
      (Return true,
       mkState
         (<[m := OList ((mem ++ [msg])
                        ++ [VDict [("role", VStr "function");
                                   ("name", VStr (joined (f :: fs)));
                                   ("content", VStr content)]])]> h1)
         (BOTS st) (tr1 ++ evs ++ evs'))).
  { rewrite Hmsg.
    erewrite (act_on_function_call CALLABLE_FUNCTION_TABLE self "Agent" attrs m mem);
      cycle 1.
    - reflexivity.
    - discriminate.
    - rewrite dict_get_map_VStr, Hname. reflexivity.
    - exact Hself.
    - exact Hmem.
    - exact Hm.
    - rewrite <- Hmsg. exact Hdispatch.
    - cbn [heap log]. exact Hh1self.
    - exact Hmem.
    - cbn [heap log]. apply lookup_insert_eq.
    - rewrite Htold. exact Hdumps.
    - cbn [heap BOTS trace log]. rewrite (List.app_assoc tr1 evs evs'), <- Hmsg.
      reflexivity. }
  eexists. split; [|split].
  - rewrite (think_and_act_unfold CALLABLE_FUNCTION_TABLE self "Agent" attrs world
               repeats st Hself Hrep Hpos).
    unfold mbind at 1, M_bind at 1.
    unfold mbind at 1, M_bind at 1.
    rewrite (next_message_outcome CALLABLE_FUNCTION_TABLE self m mem ea name engine
               role ignore repeats st Hag).
    fold st0. rewrite Hrun. fold msg. fold st1.
    unfold mbind at 1, M_bind at 1. rewrite Hact.
    reflexivity.
  - cbn [heap]. unfold h1. rewrite insert_insert_eq.
    rewrite <- (List.app_assoc mem [msg]). reflexivity.
  - intros ->.
    rewrite (think_and_act_unfold CALLABLE_FUNCTION_TABLE self "Agent" attrs world
               1 st Hself Hrep Hpos).
    unfold mbind at 1, M_bind at 1.
    unfold mbind at 1, M_bind at 1.
    rewrite (next_message_outcome CALLABLE_FUNCTION_TABLE self m mem ea name engine
               role ignore 1 st Hag).
    fold st0. rewrite Hrun. fold msg. fold st1.
    unfold mbind at 1, M_bind at 1. rewrite Hact.
    reflexivity.
Qed.

End ThinkActCall.

Section CallExamplesResult.
#[local] Existing Instance call_runtime.

(** X20 on the example agent and a function that returns [None]: the model
    is told "done". *)
Lemma think_and_act_function_result_witness :
  exists st2 : pystate,
    think_and_act silent_table (VRef example_agent) VNone example_state =
      (Return VNone, st2) /\
    heap st2 =
      <[example_memory :=
          OList (example_mem
                 ++ [reply_of true call_stream;
                     VDict [("role", VStr "function");
                            ("name", VStr "rephrase");
                            ("content", VStr (dquote +:+ "done" +:+ dquote))]])]>
        (heap example_state).
Proof.
  destruct (think_and_act_function_result silent_table example_agent
              example_memory example_mem {[ "temperature" := VFloat 1%float ]}
              (VStr "Bot") (VStr "gpt-4") VNone "agent" false 1 example_state
              call_stream "re" "" ["phrase"] ["{"; "}"]
              (mkInfo (func_sig silent_rephrase) silent_rephrase
                 false false false ".*")
              [] (Return VNone) [] (dquote +:+ "done" +:+ dquote)
              example_state_agent_with)
    as (st2 & _ & Hheap & Hone).
  - lia.
  - reflexivity.
  - reflexivity.
  - reflexivity.
  - reflexivity.
  - vm_compute. reflexivity.
  - intros tr. cbn. rewrite app_nil_r. reflexivity.
  - exact I.
  - reflexivity.
  - exists st2. split; [apply Hone; reflexivity | exact Hheap].
Defined.

End CallExamplesResult.
